(** * DoomsdayChallenge / quant_projects: Black-Scholes pricer and backtest

    A shallow embedding of [optionsPricer.py] and [optionsProfit.py].

    Numbers.  The Python code computes with binary64 floats (Python [float]
    and [numpy.float64]).  They are modelled by [fval]: a finite value is an
    exact real number, and the two infinities and NaN are kept, because the
    control flow of the scripts depends on them (a NaN passes every [<= 0]
    guard, pandas drops it, numpy divides by zero without raising).  Rounding,
    overflow, underflow and the sign of zero are not modelled: every finite
    operation is the exact operation on reals.

    Library functions.  [math.log], [math.sqrt], [math.exp] are the real
    functions with Python's domain errors; [scipy.stats.norm.cdf] is a
    parameter [Phi] of the pricer (instantiated below with the standard
    normal distribution function); pandas' slicing, [shift], [dropna] and
    [std] are modelled on lists.

    Effects.  An exception is a value of [exn]; a function that may raise
    returns a [result]; [diffCheck], which also prints, returns the list of
    printed lines together with its [result]. *)

From Stdlib Require Import ZArith Reals Lra Lia List String Ascii Bool Factorial.
Import ListNotations.

Open Scope R_scope.

(** ** Exceptions and results *)

Inductive exn : Type :=
| ValueError (msg : string)
| ZeroDivisionError
| KeyError (key : Z).

Inductive result (A : Type) : Type :=
| Ok (a : A)
| Raise (e : exn).

Arguments Ok {A} a.
Arguments Raise {A} e.

Definition bind {A B : Type} (m : result A) (k : A -> result B) : result B :=
  match m with
  | Ok a => k a
  | Raise e => Raise e
  end.

Declare Scope py_scope.
Delimit Scope py_scope with py.
Notation "x <- m ;; k" := (bind m (fun x => k))
  (at level 61, m at next level, right associativity) : py_scope.

(** ** Floating-point values *)

Inductive fval : Type :=
| Fin (x : R)
| PInf
| NInf
| NaN.

Definition Rleb (x y : R) : bool := if Rle_dec x y then true else false.
Definition Rltb (x y : R) : bool := if Rlt_dec x y then true else false.
Definition Reqb (x y : R) : bool := if Req_dec_T x y then true else false.

(** [a <= b] and [a < b] on floats: every comparison with NaN is false. *)
Definition fle (a b : fval) : bool :=
  match a, b with
  | NaN, _ | _, NaN => false
  | NInf, _ => true
  | _, PInf => true
  | Fin x, Fin y => Rleb x y
  | _, _ => false
  end.

Definition flt (a b : fval) : bool :=
  match a, b with
  | NaN, _ | _, NaN => false
  | PInf, _ => false
  | _, NInf => false
  | Fin x, Fin y => Rltb x y
  | _, _ => true
  end.

Definition fneg (a : fval) : fval :=
  match a with
  | Fin x => Fin (- x)
  | PInf => NInf
  | NInf => PInf
  | NaN => NaN
  end.

Definition fadd (a b : fval) : fval :=
  match a, b with
  | NaN, _ | _, NaN => NaN
  | Fin x, Fin y => Fin (x + y)
  | PInf, NInf | NInf, PInf => NaN
  | PInf, _ | _, PInf => PInf
  | NInf, _ | _, NInf => NInf
  end.

Definition fsub (a b : fval) : fval := fadd a (fneg b).

(** The infinity with the sign of [x * s], for [s = PInf] or [s = NInf];
    [0 * inf] is NaN. *)
Definition inf_times (x : R) (s : fval) : fval :=
  if Rltb 0 x then s else if Rltb x 0 then fneg s else NaN.

Definition fmul (a b : fval) : fval :=
  match a, b with
  | NaN, _ | _, NaN => NaN
  | Fin x, Fin y => Fin (x * y)
  | Fin x, s => inf_times x s
  | s, Fin y => inf_times y s
  | PInf, PInf | NInf, NInf => PInf
  | PInf, NInf | NInf, PInf => NInf
  end.

(** IEEE division, as numpy performs it: a zero divisor gives an infinity
    (or NaN for [0 / 0]) and nothing is raised. *)
Definition fdiv (a b : fval) : fval :=
  match a, b with
  | NaN, _ | _, NaN => NaN
  | Fin x, Fin y =>
      if Reqb y 0 then inf_times x PInf else Fin (x / y)
  | Fin _, _ => Fin 0
  | s, Fin y => if Rltb y 0 then fneg s else s
  | _, _ => NaN
  end.

(** [x ** 2] *)
Definition fsquare (a : fval) : fval := fmul a a.

(** Python's [/] on two Python floats: a zero divisor raises. *)
Definition truediv (a b : fval) : result fval :=
  match b with
  | Fin y => if Reqb y 0 then Raise ZeroDivisionError
             else Ok (fdiv a b)
  | _ => Ok (fdiv a b)
  end.

(** ** The [math] module

    [math.log] and [math.sqrt] raise [ValueError] outside their domain (the
    message is CPython's up to 3.13); [math.exp] is total here, its
    [OverflowError] being an overflow of binary64. *)

Definition math_domain_error : exn := ValueError "math domain error".

Definition math_log (a : fval) : result fval :=
  match a with
  | Fin x => if Rltb 0 x then Ok (Fin (ln x)) else Raise math_domain_error
  | PInf => Ok PInf
  | NInf => Raise math_domain_error
  | NaN => Ok NaN
  end.

Definition math_sqrt (a : fval) : result fval :=
  match a with
  | Fin x => if Rleb 0 x then Ok (Fin (sqrt x)) else Raise math_domain_error
  | PInf => Ok PInf
  | NInf => Raise math_domain_error
  | NaN => Ok NaN
  end.

Definition math_exp (a : fval) : fval :=
  match a with
  | Fin x => Fin (exp x)
  | PInf => PInf
  | NInf => Fin 0
  | NaN => NaN
  end.

(** ** Strings: [str.lower] on ASCII text *)

Definition lower_ascii (c : ascii) : ascii :=
  let n := nat_of_ascii c in
  if ((65 <=? n) && (n <=? 90))%nat then ascii_of_nat (n + 32) else c.

Fixpoint lower (s : string) : string :=
  match s with
  | EmptyString => EmptyString
  | String c s' => String (lower_ascii c) (lower s')
  end.

(** ** The pricer: [black_scholes_price] (identical in both scripts) *)

Module Pricer.
Section WithCdf.

(** [scipy.stats.norm.cdf] on finite arguments. *)
Variable Phi : R -> R.

Definition norm_cdf (a : fval) : fval :=
  match a with
  | Fin x => Fin (Phi x)
  | PInf => Fin 1
  | NInf => Fin 0
  | NaN => NaN
  end.

Definition domain_error : exn :=
  ValueError "S, K, T, and sigma must be greater than 0.".

Definition invalid_option_type : exn :=
  ValueError "Invalid option type. Use 'call' or 'put'.".

Local Open Scope py_scope.

Definition black_scholes_price (S K T r sigma : fval) (option_type : string)
  : result fval :=
  if fle T (Fin 0) || fle sigma (Fin 0) || fle S (Fin 0) || fle K (Fin 0) then
    Raise domain_error
  else
    q <- truediv S K ;;
    lg <- math_log q ;;
    rt <- math_sqrt T ;;
    d1 <- truediv (fadd lg (fmul (fadd r (fmul (Fin 0.5) (fsquare sigma))) T))
                  (fmul sigma rt) ;;
    rt' <- math_sqrt T ;;
    let d2 := fsub d1 (fmul sigma rt') in
    if (lower option_type =? "call")%string then
      Ok (fsub (fmul S (norm_cdf d1))
               (fmul (fmul K (math_exp (fmul (fneg r) T))) (norm_cdf d2)))
    else if (lower option_type =? "put")%string then
      Ok (fsub (fmul (fmul K (math_exp (fmul (fneg r) T))) (norm_cdf (fneg d2)))
               (fmul S (norm_cdf (fneg d1))))
    else
      Raise invalid_option_type.

End WithCdf.
End Pricer.

(** ** pandas: a float column as a list, positions [0 .. n-1] *)

Definition Series := list fval.

(** [s[i]] on a column with the default integer index: a label lookup. *)
Definition getitem {A : Type} (s : list A) (i : Z) : result A :=
  if (i <? 0)%Z then Raise (KeyError i)
  else match nth_error s (Z.to_nat i) with
       | Some v => Ok v
       | None => Raise (KeyError i)
       end.

(** [s[a:b]] for [0 <= a] and [0 <= b]: positions [a .. b-1], cut at the end
    of the column. *)
Definition slice (s : Series) (a b : Z) : Series :=
  firstn (Z.to_nat (b - a)) (skipn (Z.to_nat a) s).

(** [s.shift(1)] *)
Definition shift1 (s : Series) : Series := firstn (List.length s) (NaN :: s).

(** [s1 / s2] on two columns with the same index. *)
Definition series_div (s1 s2 : Series) : Series :=
  map (fun p => fdiv (fst p) (snd p)) (combine s1 s2).

(** [s.apply(f)]: [f] is called on the elements in order, the first exception
    ends the call. *)
Fixpoint series_apply (f : fval -> result fval) (s : Series) : result Series :=
  match s with
  | [] => Ok []
  | v :: s' =>
      bind (f v) (fun w => bind (series_apply f s') (fun ws => Ok (w :: ws)))
  end.

Definition isnan (v : fval) : bool :=
  match v with NaN => true | _ => false end.

(** [s.dropna()] *)
Definition dropna (s : Series) : Series := filter (fun v => negb (isnan v)) s.

Definition fsum (s : Series) : fval := fold_left fadd s (Fin 0).

(** [numpy.sqrt]: NaN on a negative argument, nothing raised. *)
Definition np_sqrt (a : fval) : fval :=
  match a with
  | Fin x => if Rleb 0 x then Fin (sqrt x) else NaN
  | PInf => PInf
  | _ => NaN
  end.

(** [s.std()] on a column without NaN: pandas' two-pass estimator with
    [ddof = 1]; NaN when fewer than two values are left. *)
Definition series_std (s : Series) : fval :=
  let count := List.length s in
  if (count <=? 1)%nat then NaN
  else
    let avg := fdiv (fsum s) (Fin (INR count)) in
    let sqr := map (fun v => fsquare (fsub avg v)) s in
    np_sqrt (fdiv (fsum sqr) (Fin (INR (count - 1)))).

(** ** The data frame returned by [preprocess_data] *)

Record row : Type := mkRow { Date : string; Close_Last : fval }.

Definition DataFrame := list row.

Definition closes (df : DataFrame) : Series := map Close_Last df.
Definition dates (df : DataFrame) : list string := map Date df.

(** ** [volatility] *)

Definition index_too_low : exn :=
  ValueError "Index too low for trailing volatility calculation".

Local Open Scope py_scope.

Definition volatility (index : Z) (df : DataFrame) : result fval :=
  if (index <? 252)%Z then Raise index_too_low
  else
    let prices := slice (closes df) (index - 252) index in
    applied <- series_apply math_log (series_div prices (shift1 prices)) ;;
    let log_returns := dropna applied in
    root <- math_sqrt (Fin 252) ;;
    Ok (fmul (series_std log_returns) root).

(** ** Python numbers in [diffCheck]

    The accumulators start as the Python integer [0] and become
    [numpy.float64] once a numpy value is added; [int / int] is a Python
    float.  Python's own division raises on a zero divisor, numpy's does
    not. *)

Inductive pynum : Type :=
| PyInt (n : Z)
| PyFloat (v : fval)
| NpFloat (v : fval).

Definition to_fval (a : pynum) : fval :=
  match a with
  | PyInt n => Fin (IZR n)
  | PyFloat v => v
  | NpFloat v => v
  end.

Definition is_np (a : pynum) : bool :=
  match a with NpFloat _ => true | _ => false end.

Definition py_arith (fz : Z -> Z -> Z) (ff : fval -> fval -> fval)
  (a b : pynum) : pynum :=
  match a, b with
  | PyInt x, PyInt y => PyInt (fz x y)
  | _, _ =>
      if is_np a || is_np b then NpFloat (ff (to_fval a) (to_fval b))
      else PyFloat (ff (to_fval a) (to_fval b))
  end.

Definition py_add : pynum -> pynum -> pynum := py_arith Z.add fadd.
Definition py_sub : pynum -> pynum -> pynum := py_arith Z.sub fsub.

Definition is_zero (v : fval) : bool :=
  match v with Fin x => Reqb x 0 | _ => false end.

(** [a / b] *)
Definition py_truediv (a b : pynum) : result pynum :=
  if is_np a || is_np b then Ok (NpFloat (fdiv (to_fval a) (to_fval b)))
  else if is_zero (to_fval b) then Raise ZeroDivisionError
  else Ok (PyFloat (fdiv (to_fval a) (to_fval b))).

(** [max(a, 0)] for a numpy float [a]: the first argument is kept unless the
    second is greater. *)
Definition max_with_zero (a : fval) : pynum :=
  if flt a (Fin 0) then PyInt 0 else NpFloat a.

(** C's [pow], which numpy applies to two floats. *)
Definition is_integer (e : R) : bool := Reqb (IZR (Int_part e)) e.
Definition is_odd_integer (e : R) : bool := is_integer e && Z.odd (Int_part e).
Definition is_one (v : fval) : bool :=
  match v with Fin x => Reqb x 1 | _ => false end.

Definition c_pow (x y : fval) : fval :=
  if is_zero y then Fin 1
  else if is_one x then Fin 1
  else
    match x, y with
    | NaN, _ | _, NaN => NaN
    | Fin b, Fin e =>
        if Rltb 0 b then Fin (Rpower b e)
        else if Reqb b 0 then (if Rltb 0 e then Fin 0 else PInf)
        else if is_integer e then Fin (powerRZ b (Int_part e))
        else NaN
    | Fin b, PInf =>
        if Rltb (Rabs b) 1 then Fin 0 else if Reqb b (-1) then Fin 1 else PInf
    | Fin b, NInf =>
        if Rltb (Rabs b) 1 then PInf else if Reqb b (-1) then Fin 1 else Fin 0
    | PInf, Fin e => if Rltb 0 e then PInf else Fin 0
    | NInf, Fin e =>
        if Rltb 0 e then (if is_odd_integer e then NInf else PInf) else Fin 0
    | _, PInf => PInf
    | _, NInf => Fin 0
    end.

(** The value of [a ** b]: a number, or a complex number when Python raises
    a negative float to a power that is not an integer. *)
Inductive powres : Type :=
| PowNum (v : pynum)
| PowComplex (re im : R).

Definition float_pow (x y : fval) : result powres :=
  match x, y with
  | Fin b, Fin e =>
      if Reqb b 0 && Rltb e 0 then Raise ZeroDivisionError
      else if Rltb b 0 && negb (is_integer e) then
        Ok (PowComplex (Rpower (- b) e * cos (PI * e))
                       (Rpower (- b) e * sin (PI * e)))
      else Ok (PowNum (PyFloat (c_pow x y)))
  | _, _ => Ok (PowNum (PyFloat (c_pow x y)))
  end.

(** [a ** b] *)
Definition py_pow (a b : pynum) : result powres :=
  if is_np a || is_np b then
    Ok (PowNum (NpFloat (c_pow (to_fval a) (to_fval b))))
  else
    match a, b with
    | PyInt x, PyInt y =>
        if (0 <=? y)%Z then Ok (PowNum (PyInt (x ^ y)))
        else if (x =? 0)%Z then Raise ZeroDivisionError
        else Ok (PowNum (PyFloat (c_pow (to_fval a) (to_fval b))))
    | _, _ => float_pow (to_fval a) (to_fval b)
    end.

(** ** Printing: the lines written to standard output

    A line is the sequence of pieces of one [print] call: literal text and
    the values formatted into it. *)

Inductive pval : Type :=
| PStr (s : string)
| PNum (v : pynum)
| PPow (v : powres)
| PDate (d : string).

Definition line := list pval.

(** A computation that prints and may raise: the lines printed so far and
    the outcome. *)
Definition run (A : Type) : Type := (list line * result A)%type.

Definition ret {A : Type} (a : A) : run A := ([], Ok a).

Definition lift {A : Type} (r : result A) : run A := ([], r).

Definition print (l : line) : run unit := ([l], Ok tt).

Definition rbind {A B : Type} (m : run A) (k : A -> run B) : run B :=
  match m with
  | (out, Ok a) => let (out', r) := k a in (out ++ out', r)
  | (out, Raise e) => (out, Raise e)
  end.

Declare Scope run_scope.
Delimit Scope run_scope with run.
Notation "x <~ m ;; k" := (rbind m (fun x => k))
  (at level 61, m at next level, right associativity) : run_scope.
Notation "m ;;; k" := (rbind m (fun _ => k))
  (at level 61, right associativity) : run_scope.

(** [range(a, b)] *)
Definition range (a b : Z) : list Z :=
  map (fun k => (a + Z.of_nat k)%Z) (seq 0 (Z.to_nat (b - a))).

(** [for i in l: st = body(i, st)] *)
Fixpoint for_each {St : Type} (l : list Z) (body : Z -> St -> run St) (st : St)
  : run St :=
  match l with
  | [] => ret st
  | i :: l' => rbind (body i st) (for_each l' body)
  end.

(** ** The backtest: [diffCheck] and the plot loops of [optionsProfit.py] *)

Module Backtest.
Section WithCdf.

Variable Phi : R -> R.

Definition strikeRatio : fval := Fin 1.05.

(** The variables the loop of [diffCheck] updates. *)
Record locals : Type := mkLocals {
  totalCost : pynum;
  netReturn : pynum;
  callPrices : list fval
}.

Definition dashes : string := "------------------------------".

Local Open Scope run_scope.

(** One iteration of the loop of [diffCheck]. *)
Definition diffCheck_body (df : DataFrame) (i : Z) (st : locals) : run locals :=
  S <~ lift (getitem (closes df) i) ;;
  let K := fmul S strikeRatio in
  vol <~ lift (volatility i df) ;;
  callPrice <~ lift (Pricer.black_scholes_price Phi S K (Fin 1)
                       (fsub strikeRatio (Fin 1)) vol "call") ;;
  fwd <~ lift (getitem (closes df) (i + 252)) ;;
  let yearlyProfit := fsub fwd (fmul strikeRatio S) in
  print [PStr "Index: "; PNum (PyInt i)] ;;;
  print [PStr "Stock Price (S): "; PNum (NpFloat S)] ;;;
  print [PStr "Strike Price (K): "; PNum (NpFloat K)] ;;;
  print [PStr "Volatility: "; PNum (NpFloat vol)] ;;;
  print [PStr "Call Price: "; PNum (NpFloat callPrice)] ;;;
  print [PStr "Yearly Profit: "; PNum (NpFloat yearlyProfit)] ;;;
  print [PStr dashes] ;;;
  let callPrices' := callPrices st ++ [callPrice] in
  date <~ lift (getitem (dates df) i) ;;
  print [PDate date; PStr "  "; PNum (NpFloat callPrice); PStr "   ";
         PNum (NpFloat yearlyProfit)] ;;;
  fwd' <~ lift (getitem (closes df) (i + 252)) ;;
  let netReturn' :=
    py_add (netReturn st) (max_with_zero (fsub fwd' (fmul (Fin 1.05) S))) in
  let totalCost' := py_add (totalCost st) (NpFloat callPrice) in
  ret (mkLocals totalCost' netReturn' callPrices').

(** The loop of [diffCheck], from the initial values of its variables. *)
Definition diffCheck_loop (df : DataFrame) (start_index : Z) : run locals :=
  let row_count := Z.of_nat (List.length df) in
  for_each (range start_index (row_count - 252)) (diffCheck_body df)
           (mkLocals (PyInt 0) (PyInt 0) []).

(** The lines after the loop of [diffCheck], and its [return]. *)
Definition diffCheck_summary (df : DataFrame) (start_index : Z)
  (totalProfit : pynum) (st : locals) : run pynum :=
  let row_count := Z.of_nat (List.length df) in
  print [PStr dashes] ;;;
  print [PStr dashes] ;;;
  print [PStr "Total Profit: "; PNum (py_sub (netReturn st) (totalCost st))] ;;;
  print [PStr "Total Cost: "; PNum (totalCost st)] ;;;
  roi <~ lift (py_truediv (py_sub (netReturn st) (totalCost st)) (totalCost st)) ;;
  print [PStr "Return on investment: "; PNum roi] ;;;
  years <~ lift (py_truediv (PyInt (row_count - 252 - start_index)) (PyInt 252)) ;;
  print [PStr "Years: "; PNum years] ;;;
  ratio <~ lift (py_truediv (netReturn st) (totalCost st)) ;;
  exponent <~ lift (py_truediv (PyInt 1) years) ;;
  annualized <~ lift (py_pow ratio exponent) ;;
  print [PStr "Annualized returns: "; PPow annualized] ;;;
  ret totalProfit.

(** [diffCheck(start_index)], on the frame [df] that [preprocess_data()]
    returns. *)
Definition diffCheck (df : DataFrame) (start_index : Z) : run pynum :=
  let totalProfit := PyInt 0 in
  st <~ diffCheck_loop df start_index ;;
  diffCheck_summary df start_index totalProfit st.

(** The loop of [plot_call_price_vs_profit]: the two lists it plots. *)
Definition plot_body (df : DataFrame) (i : Z) (st : list fval * list fval)
  : run (list fval * list fval) :=
  S <~ lift (getitem (closes df) i) ;;
  let K := fmul S strikeRatio in
  vol <~ lift (volatility i df) ;;
  call_price <~ lift (Pricer.black_scholes_price Phi S K (Fin 1)
                        (fsub strikeRatio (Fin 1)) vol "call") ;;
  fwd <~ lift (getitem (closes df) (i + 252)) ;;
  let profit := fsub fwd (fmul S strikeRatio) in
  ret (fst st ++ [call_price], snd st ++ [profit]).

Definition plot_call_price_vs_profit (df : DataFrame)
  : run (list fval * list fval) :=
  let row_count := Z.of_nat (List.length df) in
  for_each (range 252 (row_count - 252)) (plot_body df) ([], []).

End WithCdf.
End Backtest.

(** ** Reading the printed lines *)

(** The index [i] of a line [Index: i]. *)
Definition index_of_line (l : line) : option Z :=
  match l with
  | [PStr label; PNum (PyInt i)] =>
      if (label =? "Index: ")%string then Some i else None
  | _ => None
  end.

(** The value of a line made of [label] and one number. *)
Definition number_of_line (label : string) (l : line) : option pynum :=
  match l with
  | [PStr label'; PNum v] =>
      if (label' =? label)%string then Some v else None
  | _ => None
  end.

Fixpoint filter_map {A B : Type} (f : A -> option B) (l : list A) : list B :=
  match l with
  | [] => []
  | a :: l' =>
      match f a with
      | Some b => b :: filter_map f l'
      | None => filter_map f l'
      end
  end.

(** The indices of the steps a run has printed, in the order of printing. *)
Definition printed_indices (out : list line) : list Z :=
  filter_map index_of_line out.

(** The numbers printed under [label], in the order of printing. *)
Definition printed_numbers (label : string) (out : list line) : list pynum :=
  filter_map (number_of_line label) out.

(** ** The steps of a run

    What one iteration of the loop of [diffCheck] has read and computed,
    the lines it prints from these values and the variables it leaves. *)

Record step : Type := mkStep {
  s_index : Z;
  s_S : fval;
  s_vol : fval;
  s_callPrice : fval;
  s_fwd : fval;
  s_date : string
}.

Definition s_K (s : step) : fval := fmul (s_S s) Backtest.strikeRatio.

Definition s_yearlyProfit (s : step) : fval :=
  fsub (s_fwd s) (fmul Backtest.strikeRatio (s_S s)).

Definition step_lines (s : step) : list line :=
  [ [PStr "Index: "; PNum (PyInt (s_index s))];
    [PStr "Stock Price (S): "; PNum (NpFloat (s_S s))];
    [PStr "Strike Price (K): "; PNum (NpFloat (s_K s))];
    [PStr "Volatility: "; PNum (NpFloat (s_vol s))];
    [PStr "Call Price: "; PNum (NpFloat (s_callPrice s))];
    [PStr "Yearly Profit: "; PNum (NpFloat (s_yearlyProfit s))];
    [PStr Backtest.dashes];
    [PDate (s_date s); PStr "  "; PNum (NpFloat (s_callPrice s)); PStr "   ";
     PNum (NpFloat (s_yearlyProfit s))] ].

Definition step_locals (st : Backtest.locals) (s : step) : Backtest.locals :=
  Backtest.mkLocals
    (py_add (Backtest.totalCost st) (NpFloat (s_callPrice s)))
    (py_add (Backtest.netReturn st)
            (max_with_zero (fsub (s_fwd s) (fmul (Fin 1.05) (s_S s)))))
    (Backtest.callPrices st ++ [s_callPrice s]).

(** [s] holds the values that the iteration at [s_index s] reads from [df]
    and computes. *)
Definition step_of (Phi : R -> R) (df : DataFrame) (s : step) : Prop :=
  getitem (closes df) (s_index s) = Ok (s_S s)
  /\ volatility (s_index s) df = Ok (s_vol s)
  /\ Pricer.black_scholes_price Phi (s_S s) (s_K s) (Fin 1)
       (fsub Backtest.strikeRatio (Fin 1)) (s_vol s) "call" = Ok (s_callPrice s)
  /\ getitem (closes df) (s_index s + 252) = Ok (s_fwd s)
  /\ getitem (dates df) (s_index s) = Ok (s_date s).

(** The step on prices multiplied by [c]. *)
Definition scale_step (c : R) (s : step) : step :=
  mkStep (s_index s) (fmul (Fin c) (s_S s)) (s_vol s)
         (fmul (Fin c) (s_callPrice s)) (fmul (Fin c) (s_fwd s)) (s_date s).

(** The variables of [diffCheck] before its loop. *)
Definition initial_locals : Backtest.locals :=
  Backtest.mkLocals (PyInt 0) (PyInt 0) [].

(** The lines of the summary when the total cost is a numpy float. *)
Definition summary_lines (years : Z) (st : Backtest.locals) : list line :=
  let netReturn := Backtest.netReturn st in
  let totalCost := Backtest.totalCost st in
  [ [PStr Backtest.dashes];
    [PStr Backtest.dashes];
    [PStr "Total Profit: "; PNum (py_sub netReturn totalCost)];
    [PStr "Total Cost: "; PNum totalCost];
    [PStr "Return on investment: ";
     PNum (NpFloat (fdiv (to_fval (py_sub netReturn totalCost)) (to_fval totalCost)))];
    [PStr "Years: "; PNum (PyFloat (Fin (IZR years / 252)))];
    [PStr "Annualized returns: ";
     PPow (PowNum (NpFloat
       (c_pow (fdiv (to_fval netReturn) (to_fval totalCost))
              (Fin (1 / (IZR years / 252))))))] ].

(** ** The standard normal distribution function

    [norm.cdf] is scipy's.  For closed statements the parameter [Phi] is
    instantiated with the function itself, through its power series
    [Phi(x) = 1/2 + x * sum_n (-1)^n (x^2)^n / (2^n n! (2n+1)) / sqrt(2 pi)]. *)

Definition cdf_coef (n : nat) : R :=
  (-1) ^ n / (2 ^ n * INR (fact n) * (2 * INR n + 1)).

Lemma cdf_coef_denom_pos (n : nat) :
  0 < 2 ^ n * INR (fact n) * (2 * INR n + 1).
Proof.
  assert (0 < 2 ^ n) by (apply pow_lt; lra).
  assert (0 < INR (fact n)) by (apply lt_0_INR, lt_O_fact).
  assert (0 <= INR n) by apply pos_INR.
  apply Rmult_lt_0_compat; [apply Rmult_lt_0_compat|]; lra.
Qed.

Lemma cdf_coef_neq_0 (n : nat) : cdf_coef n <> 0.
Proof.
  unfold cdf_coef. pose proof (cdf_coef_denom_pos n).
  apply Rmult_integral_contrapositive_currified.
  - apply pow_nonzero; lra.
  - apply Rinv_neq_0_compat; lra.
Qed.

Lemma cdf_coef_ratio (n : nat) :
  Rabs (cdf_coef (S n) / cdf_coef n)
  = (2 * INR n + 1) / (2 * (INR n + 1) * (2 * INR n + 3)).
Proof.
  unfold cdf_coef.
  assert (0 < 2 ^ n) by (apply pow_lt; lra).
  assert (0 < INR (fact n)) by (apply lt_0_INR, lt_O_fact).
  assert (0 <= INR n) by apply pos_INR.
  assert (Hm : (-1) ^ n <> 0) by (apply pow_nonzero; lra).
  rewrite fact_simpl, mult_INR, !S_INR.
  replace ((-1) ^ S n / (2 ^ S n * ((INR n + 1) * INR (fact n)) * (2 * (INR n + 1) + 1)) /
           ((-1) ^ n / (2 ^ n * INR (fact n) * (2 * INR n + 1))))
    with (- ((2 * INR n + 1) / (2 * (INR n + 1) * (2 * INR n + 3)))).
  2:{ simpl. field. repeat split; lra. }
  rewrite Rabs_Ropp, Rabs_pos_eq; [reflexivity|].
  apply Rmult_le_pos; [lra|]. apply Rlt_le, Rinv_0_lt_compat.
  apply Rmult_lt_0_compat; lra.
Qed.

Lemma Alembert_cdf : Un_cv (fun n => Rabs (cdf_coef (S n) / cdf_coef n)) 0.
Proof.
  intros eps Heps.
  destruct (archimed (/ eps)) as [Hup _].
  assert (Hpos : 0 < / eps) by (apply Rinv_0_lt_compat; lra).
  assert (Hz : (0 <= up (/ eps))%Z) by (apply le_IZR; lra).
  exists (Z.to_nat (up (/ eps))). intros n Hn.
  unfold R_dist. rewrite Rminus_0_r, Rabs_Rabsolu, cdf_coef_ratio.
  assert (Hle : IZR (up (/ eps)) <= INR n).
  { rewrite <- (Z2Nat.id _ Hz), <- INR_IZR_INZ. apply le_INR. lia. }
  assert (Hn0 : 0 <= INR n) by apply pos_INR.
  assert (Hinv : / eps < INR n + 1) by lra.
  assert (He : 1 < eps * (INR n + 1)).
  { pose proof (Rmult_lt_compat_l eps _ _ Heps Hinv) as Hm.
    rewrite Rinv_r in Hm; lra. }
  assert (HD : 0 < 2 * (INR n + 1) * (2 * INR n + 3))
    by (apply Rmult_lt_0_compat; lra).
  apply Rmult_lt_reg_r with (2 * (INR n + 1) * (2 * INR n + 3)); [exact HD|].
  unfold Rdiv. rewrite Rmult_assoc, Rinv_l by lra. nra.
Qed.

Definition cdf_series (y : R) : R :=
  proj1_sig (Alembert_C3 cdf_coef y cdf_coef_neq_0 Alembert_cdf).

Definition std_normal_cdf (x : R) : R :=
  1 / 2 + x * cdf_series (x * x) / sqrt (2 * PI).

(** ** The formulas in the words of the specification *)

Module Spec.
Section WithCdf.

Variable Phi : R -> R.

Definition d1 (S K T r sigma : R) : R :=
  (ln (S / K) + (r + 0.5 * sigma ^ 2) * T) / (sigma * sqrt T).

Definition d2 (S K T r sigma : R) : R :=
  d1 S K T r sigma - sigma * sqrt T.

Definition call (S K T r sigma : R) : R :=
  S * Phi (d1 S K T r sigma) - K * exp (- (r * T)) * Phi (d2 S K T r sigma).

Definition put (S K T r sigma : R) : R :=
  K * exp (- (r * T)) * Phi (- d2 S K T r sigma) - S * Phi (- d1 S K T r sigma).

End WithCdf.

(** Daily log returns [ln (P_t / P_{t-1})] of consecutive prices. *)
Fixpoint log_returns (prices : list R) : list R :=
  match prices with
  | p0 :: ((p1 :: _) as rest) => ln (p1 / p0) :: log_returns rest
  | _ => []
  end.

Definition Rsum (xs : list R) : R := fold_right Rplus 0 xs.

Definition mean (xs : list R) : R := Rsum xs / INR (List.length xs).

(** Sample standard deviation, [ddof = 1]: the squared deviations from the
    mean are divided by [n - 1]. *)
Definition sample_std (xs : list R) : R :=
  sqrt (Rsum (map (fun x => (x - mean xs) ^ 2) xs) / (INR (List.length xs) - 1)).

Definition trailing_volatility (window : list R) : R :=
  sample_std (log_returns window) * sqrt 252.

End Spec.

(** ** Trailing windows *)

(** The closes at positions [index-252 .. index-1] of [df] are the finite
    values [ps]. *)
Definition window_is (df : DataFrame) (index : Z) (ps : list R) : Prop :=
  List.length ps = 252%nat /\
  forall k, (k < 252)%nat ->
    nth_error (closes df) (Z.to_nat (index - 252) + k) = Some (Fin (nth k ps 0)).

(** The 252 values before position [index] in a list of closes. *)
Definition window_at (cs : list R) (index : Z) : list R :=
  firstn 252 (skipn (Z.to_nat (index - 252)) cs).

(** ** A sample series

    505 daily closes: 50 on the first day and 100 on every later day, so
    that a run from index 252 has the single step [i = 252], with the window
    [0 .. 251], the close 100 at 252 and the close 100 a year later. *)

Definition demo_closes : list R := 50 :: repeat 100 504.

Definition demo_df : DataFrame :=
  map (fun c => mkRow "01/02/2020" (Fin c)) demo_closes.

Definition demo_window : list R := 50 :: repeat 100 251.

Definition demo_vol : R := Spec.trailing_volatility demo_window.

Definition demo_call : R :=
  Spec.call std_normal_cdf 100 (100 * 1.05) 1 (1.05 + - 1) demo_vol.

Definition demo_step : step :=
  mkStep 252 (Fin 100) (Fin demo_vol) (Fin demo_call) (Fin 100) "01/02/2020".

(** A strictly increasing series: [close[i] = 100 + i] for [i < N]. *)
Definition ramp_closes (N : nat) : list R :=
  map (fun k => 100 + INR k) (seq 0 N).

Definition ramp_df (N : nat) : DataFrame :=
  map (fun c => mkRow "01/02/2020" (Fin c)) (ramp_closes N).

(** A series too short for any step: 300 closes of 100. *)
Definition short_df : DataFrame := repeat (mkRow "01/02/2020" (Fin 100)) 300.

(** The frame of a list of closes, all on one date. *)
Definition frame_of (cs : list R) : DataFrame :=
  map (fun c => mkRow "01/02/2020" (Fin c)) cs.

(** The sample series at twice its prices. *)
Definition doubled_demo_df : DataFrame := frame_of (map (Rmult 2) demo_closes).

(** 252 closes of 100, but for a close of 0 on the second day. *)
Definition dip_closes : list R := 100 :: 0 :: repeat 100 250.

Definition dip_df : DataFrame := frame_of dip_closes.

(** 252 closes of 0. *)
Definition zero_df : DataFrame := frame_of (repeat 0 252).

(** 600 closes of 100: long enough for steps, and without any movement. *)
Definition flat_df : DataFrame := frame_of (repeat 100 600).

(** ** [plot_time_series]: the three lists it plots *)

Module TimeSeries.
Section WithCdf.

Variable Phi : R -> R.

Local Open Scope run_scope.

(** One iteration of the loop of [plot_time_series]. *)
Definition plot_time_series_body (df : DataFrame) (i : Z)
  (st : list string * list fval * list fval)
  : run (list string * list fval * list fval) :=
  let '(dates_, call_prices, yearly_profits) := st in
  date <~ lift (getitem (dates df) i) ;;
  S <~ lift (getitem (closes df) i) ;;
  let K := fmul S Backtest.strikeRatio in
  vol <~ lift (volatility i df) ;;
  call_price <~ lift (Pricer.black_scholes_price Phi S K (Fin 1)
                        (fsub Backtest.strikeRatio (Fin 1)) vol "call") ;;
  fwd <~ lift (getitem (closes df) (i + 252)) ;;
  let profit := fsub fwd (fmul S Backtest.strikeRatio) in
  ret (dates_ ++ [date], call_prices ++ [call_price], yearly_profits ++ [profit]).

Definition plot_time_series (df : DataFrame)
  : run (list string * list fval * list fval) :=
  let row_count := Z.of_nat (List.length df) in
  for_each (range 252 (row_count - 252)) (plot_time_series_body df) ([], [], []).

End WithCdf.
End TimeSeries.

(** ** The script part of [optionsProfit.py]

    [print(diffCheck(252))], then [plot_time_series()], then
    [plot_call_price_vs_profit()].  Each of the three reads the file anew;
    [df] is the frame that every call of [preprocess_data()] returns.  The
    windows that [plt.show()] opens are not modelled. *)

Module Script.
Section WithCdf.

Variable Phi : R -> R.

Local Open Scope run_scope.

Definition script (df : DataFrame) : run unit :=
  v <~ Backtest.diffCheck Phi df 252 ;;
  print [PNum v] ;;;
  _ <~ TimeSeries.plot_time_series Phi df ;;
  _ <~ Backtest.plot_call_price_vs_profit Phi df ;;
  ret tt.

End WithCdf.
End Script.

(** The call prices and profits of a result of [plot_time_series]. *)
Definition without_dates (m : run (list string * list fval * list fval))
  : run (list fval * list fval) :=
  match m with
  | (out, Ok (_, call_prices, yearly_profits)) => (out, Ok (call_prices, yearly_profits))
  | (out, Raise e) => (out, Raise e)
  end.

(** ** [preprocess_data]

    The frame that [pd.read_csv] returns is the input: a list of rows in the
    order of the file, whose [Date] cells are text and whose price cells are
    text (as in "$1,234.50") or already numbers.  [pd.to_datetime] and the
    conversion of text by [astype(float)] are parameters; the timestamp that
    [to_datetime] returns is written as the text that stands for it in the
    [Date] column of a [DataFrame]. *)

Module Preprocess.

Inductive cell : Type :=
| CStr (s : string)
| CNum (v : fval).

Record raw_row : Type := mkRaw {
  raw_Date : string;
  raw_Close : cell;
  raw_Open : cell;
  raw_High : cell;
  raw_Low : cell
}.

(** [re.sub('[\$,]', '', s)]: every dollar sign and every comma is removed. *)
Fixpoint remove_dollar_comma (s : string) : string :=
  match s with
  | EmptyString => EmptyString
  | String c s' =>
      if (Ascii.eqb c "$" || Ascii.eqb c ",")%bool then remove_dollar_comma s'
      else String c (remove_dollar_comma s')
  end.

(** Whether a text holds a dollar sign or a comma. *)
Fixpoint has_dollar_or_comma (s : string) : bool :=
  match s with
  | EmptyString => false
  | String c s' => Ascii.eqb c "$" || Ascii.eqb c "," || has_dollar_or_comma s'
  end.

(** [.replace('[\$,]', '', regex=True)] on one cell: text is rewritten, a
    number is left as it is. *)
Definition replace_cell (c : cell) : cell :=
  match c with
  | CStr s => CStr (remove_dollar_comma s)
  | CNum v => CNum v
  end.

(** The elements of a list are converted in order; the first exception ends
    the conversion. *)
Fixpoint convert {A B : Type} (f : A -> result B) (l : list A) : result (list B) :=
  match l with
  | [] => Ok []
  | a :: l' => bind (f a) (fun b => bind (convert f l') (fun bs => Ok (b :: bs)))
  end.

Section WithParsers.

Variable to_datetime : string -> result string.
Variable float_of_string : string -> result fval.

(** [.astype(float)] on one cell. *)
Definition astype_float (c : cell) : result fval :=
  match c with
  | CStr s => float_of_string s
  | CNum v => Ok v
  end.

(** [df[col].replace('[\$,]', '', regex=True).astype(float)] *)
Definition clean_column (col : list cell) : result (list fval) :=
  convert astype_float (map replace_cell col).

Local Open Scope py_scope.

(** [sort_index] keeps the order of a frame that has the default index;
    [iloc[::-1]] reverses it and [reset_index(drop=True)] renumbers the rows. *)
Definition preprocess_data (raw : list raw_row) : result DataFrame :=
  let df := rev raw in
  date <- convert to_datetime (map raw_Date df) ;;
  close <- clean_column (map raw_Close df) ;;
  open_ <- clean_column (map raw_Open df) ;;
  high <- clean_column (map raw_High df) ;;
  low <- clean_column (map raw_Low df) ;;
  Ok (map (fun p => mkRow (fst p) (snd p)) (combine date close)).

End WithParsers.
End Preprocess.

(** ** [main] of [optionsPricer.py]

    Standard input is the list of the lines still to be read; [input]
    shows its prompt, and raises [EOFError] when no line is left.  The
    builtin [float] is a parameter.  [str.strip] is modelled on ASCII text,
    like [str.lower]. *)

Module Console.

Inductive console_exn : Type :=
| Exn (e : exn)
| EOFError.

(** What [main] writes: the prompts of [input], the lines of [print], the
    line [The {option_type} option price is: {price:.4f}] that follows an
    empty line, and the line [Error: {e}] of the handler. *)
Inductive console_line : Type :=
| Prompt (s : string)
| Printed (l : line)
| PriceLine (option_type : string) (price : fval)
| ErrorLine (e : console_exn).

(** The prompts of [main], in the order of its [input] calls. *)
Definition prompts : list string :=
  [ "Enter underlying asset price (S): ";
    "Enter strike price (K): ";
    "Enter time to maturity in years (T): ";
    "Enter risk-free interest rate (r) (e.g., 0.05 for 5%): ";
    "Enter volatility (sigma) (e.g., 0.2 for 20%): ";
    "Enter option type (call/put): " ]%string.

(** A computation that reads standard input, writes, and may raise. *)
Definition io (A : Type) : Type :=
  list string -> list console_line * list string * (console_exn + A).

Definition io_ret {A : Type} (a : A) : io A := fun stdin => ([], stdin, inr a).

Definition io_bind {A B : Type} (m : io A) (k : A -> io B) : io B :=
  fun stdin =>
    match m stdin with
    | (out, stdin', inr a) =>
        match k a stdin' with
        | (out', stdin'', r) => (out ++ out', stdin'', r)
        end
    | (out, stdin', inl e) => (out, stdin', inl e)
    end.

Definition input (prompt : string) : io string :=
  fun stdin =>
    match stdin with
    | [] => ([Prompt prompt], [], inl EOFError)
    | l :: rest => ([Prompt prompt], rest, inr l)
    end.

Definition println (l : console_line) : io unit :=
  fun stdin => ([l], stdin, inr tt).

Definition io_lift {A : Type} (r : result A) : io A :=
  fun stdin =>
    match r with
    | Ok a => ([], stdin, inr a)
    | Raise e => ([], stdin, inl (Exn e))
    end.

(** [try: m  except Exception as e: print(f"Error: {e}")] *)
Definition try_except (m : io unit) : io unit :=
  fun stdin =>
    match m stdin with
    | (out, stdin', inr tt) => (out, stdin', inr tt)
    | (out, stdin', inl e) => (out ++ [ErrorLine e], stdin', inr tt)
    end.

Definition is_space (c : ascii) : bool :=
  let n := nat_of_ascii c in
  (((9 <=? n) && (n <=? 13)) || ((28 <=? n) && (n <=? 32)))%nat.

Fixpoint lstrip (s : string) : string :=
  match s with
  | EmptyString => EmptyString
  | String c s' => if is_space c then lstrip s' else s
  end.

Fixpoint rstrip (s : string) : string :=
  match s with
  | EmptyString => EmptyString
  | String c s' =>
      match rstrip s' with
      | EmptyString => if is_space c then EmptyString else String c EmptyString
      | r => String c r
      end
  end.

(** [s.strip()] *)
Definition strip (s : string) : string := rstrip (lstrip s).

Section WithFloat.

Variable Phi : R -> R.
Variable float : string -> result fval.

Declare Scope io_scope.
Local Notation "x <<- m ;; k" := (io_bind m (fun x => k))
  (at level 61, m at next level, right associativity) : io_scope.
Local Open Scope io_scope.

Definition banner : string :=
  "European Option Pricing using the Black-Scholes Formula" ++ String (ascii_of_nat 10) "".

Definition read_float (prompt : string) : io fval :=
  text <<- input prompt ;;
  io_lift (float text).

Definition main_body : io unit :=
  S <<- read_float "Enter underlying asset price (S): " ;;
  K <<- read_float "Enter strike price (K): " ;;
  T <<- read_float "Enter time to maturity in years (T): " ;;
  r <<- read_float "Enter risk-free interest rate (r) (e.g., 0.05 for 5%): " ;;
  sigma <<- read_float "Enter volatility (sigma) (e.g., 0.2 for 20%): " ;;
  text <<- input "Enter option type (call/put): " ;;
  let option_type := lower (strip text) in
  price <<- io_lift (Pricer.black_scholes_price Phi S K T r sigma option_type) ;;
  println (PriceLine option_type price).

(** [main()]: what it writes, given the lines on standard input. *)
Definition main (stdin : list string) : list console_line :=
  let m := _ <<- println (Printed [PStr banner]) ;; try_except main_body in
  fst (fst (m stdin)).

End WithFloat.
End Console.

(** ** Sample parsers and a sample file

    A [float] that reads unsigned whole numbers, a [to_datetime] that
    accepts the texts of ten characters, and a file of two rows, the newer
    one first. *)

Fixpoint digits_value (s : string) (acc : Z) : option Z :=
  match s with
  | EmptyString => Some acc
  | String c s' =>
      let n := nat_of_ascii c in
      if ((48 <=? n) && (n <=? 57))%nat
      then digits_value s' (10 * acc + Z.of_nat (n - 48))
      else None
  end.

Definition sample_float (s : string) : result fval :=
  match s with
  | EmptyString => Raise (ValueError "could not convert string to float")
  | _ =>
      match digits_value s 0 with
      | Some z => Ok (Fin (IZR z))
      | None => Raise (ValueError "could not convert string to float")
      end
  end.

Definition sample_to_datetime (s : string) : result string :=
  if (String.length s =? 10)%nat then Ok s
  else Raise (ValueError "time data does not match format").

Definition sample_raw : list Preprocess.raw_row :=
  [ Preprocess.mkRaw "01/03/2020" (Preprocess.CStr "$1,050")
      (Preprocess.CStr "$1,040") (Preprocess.CNum (Fin 1060)) (Preprocess.CStr "1030");
    Preprocess.mkRaw "01/02/2020" (Preprocess.CStr "$990")
      (Preprocess.CStr "$980") (Preprocess.CStr "$1,000") (Preprocess.CStr "$970") ].


(** Six lines for [main]. *)
Definition sample_stdin : list string :=
  [ "100"; "105"; "1"; "0"; "1"; "  Call " ]%string.

(** * Properties *)

(** ** Comparisons on reals *)

Lemma Rleb_true (x y : R) : x <= y -> Rleb x y = true.
Proof. intros H. unfold Rleb. destruct (Rle_dec x y); [reflexivity | contradiction]. Qed.

Lemma Rleb_false (x y : R) : y < x -> Rleb x y = false.
Proof. intros H. unfold Rleb. destruct (Rle_dec x y); [lra | reflexivity]. Qed.

Lemma Rltb_true (x y : R) : x < y -> Rltb x y = true.
Proof. intros H. unfold Rltb. destruct (Rlt_dec x y); [reflexivity | contradiction]. Qed.

Lemma Rltb_false (x y : R) : y <= x -> Rltb x y = false.
Proof. intros H. unfold Rltb. destruct (Rlt_dec x y); [lra | reflexivity]. Qed.

Lemma Reqb_true (x y : R) : x = y -> Reqb x y = true.
Proof. intros H. unfold Reqb. destruct (Req_dec_T x y); [reflexivity | contradiction]. Qed.

Lemma Reqb_false (x y : R) : x <> y -> Reqb x y = false.
Proof. intros H. unfold Reqb. destruct (Req_dec_T x y); [contradiction | reflexivity]. Qed.


Lemma Rltb_spec (x y : R) : Rltb x y = true <-> x < y.
Proof.
  unfold Rltb. destruct (Rlt_dec x y); split; intros; try easy.
Qed.

(** ** The [math] functions *)

Lemma math_log_error (v : fval) (e : exn) :
  math_log v = Raise e -> e = math_domain_error.
Proof.
  destruct v as [x| | |]; cbn [math_log]; try discriminate.
  - destruct (Rltb 0 x); [discriminate|]. intros H. inversion H. reflexivity.
  - intros H. inversion H. reflexivity.
Qed.

(** ** The pricer *)

Module PricerFacts.
Section WithCdf.

Variable Phi : R -> R.

(** The guard of [black_scholes_price] on finite arguments. *)
Lemma guard_false (S K T sigma : R) :
  0 < S -> 0 < K -> 0 < T -> 0 < sigma ->
  fle (Fin T) (Fin 0) || fle (Fin sigma) (Fin 0) || fle (Fin S) (Fin 0)
    || fle (Fin K) (Fin 0) = false.
Proof.
  intros HS HK HT Hs. simpl.
  rewrite !Rleb_false by assumption. reflexivity.
Qed.


(** What the body computes once the guard is passed, for each kind. *)
Lemma price_body (S K T r sigma : R) (option_type : string) :
  0 < S -> 0 < K -> 0 < T -> 0 < sigma ->
  Pricer.black_scholes_price Phi (Fin S) (Fin K) (Fin T) (Fin r) (Fin sigma) option_type =
  if (lower option_type =? "call")%string then
    Ok (Fin (Spec.call Phi S K T r sigma))
  else if (lower option_type =? "put")%string then
    Ok (Fin (Spec.put Phi S K T r sigma))
  else Raise Pricer.invalid_option_type.
Proof.
  intros HS HK HT Hs.
  unfold Pricer.black_scholes_price.
  rewrite guard_false by assumption.
  assert (HrT : 0 < sqrt T) by (apply sqrt_lt_R0; assumption).
  assert (Hden : sigma * sqrt T <> 0) by (apply Rgt_not_eq, Rmult_lt_0_compat; assumption).
  assert (HSK : 0 < S / K) by (apply Rdiv_lt_0_compat; assumption).
  unfold truediv at 1. rewrite (Reqb_false K 0) by lra.
  cbn [bind fdiv]. rewrite (Reqb_false K 0) by lra.
  cbn [math_log]. rewrite (Rltb_true 0 (S / K)) by assumption.
  cbn [bind math_sqrt]. rewrite (Rleb_true 0 T) by lra.
  cbn [bind fsquare fmul fadd]. unfold truediv.
  rewrite (Reqb_false (sigma * sqrt T) 0) by assumption.
  cbn [bind fdiv]. rewrite (Reqb_false (sigma * sqrt T) 0) by assumption.
  cbn [fsub fneg fadd fmul math_exp Pricer.norm_cdf].
  assert (Hd1 : (ln (S / K) + (r + 0.5 * (sigma * sigma)) * T) / (sigma * sqrt T)
                = Spec.d1 S K T r sigma).
  { unfold Spec.d1. f_equal. f_equal. f_equal. f_equal. f_equal. ring. }
  rewrite Hd1.
  assert (Hd2 : Spec.d1 S K T r sigma + - (sigma * sqrt T) = Spec.d2 S K T r sigma)
    by (unfold Spec.d2; ring).
  rewrite Hd2.
  assert (He : - r * T = - (r * T)) by ring.
  rewrite He.
  destruct (lower option_type =? "call")%string.
  - reflexivity.
  - destruct (lower option_type =? "put")%string; reflexivity.
Qed.

Lemma truediv_ok (a b : fval) :
  b <> Fin 0 -> truediv a b = Ok (fdiv a b).
Proof.
  intros Hb. unfold truediv. destruct b as [y| | |]; try reflexivity.
  rewrite Reqb_false; [reflexivity|]. intros ->. apply Hb. reflexivity.
Qed.

Lemma fle_zero_false (a : fval) :
  fle a (Fin 0) = false -> (exists x, a = Fin x /\ 0 < x) \/ a = PInf \/ a = NaN.
Proof.
  destruct a as [x| | |]; cbn [fle]; intros H; try discriminate; auto.
  left. exists x. split; [reflexivity|].
  unfold Rleb in H. destruct (Rle_dec x 0); [discriminate | lra].
Qed.

(** Past the guard no divisor of [black_scholes_price] is zero: the
    function never raises [ZeroDivisionError], whether its arguments are
    Python floats or numpy floats. *)
Lemma black_scholes_price_no_zero_division (S K T r sigma : fval)
  (option_type : string) :
  Pricer.black_scholes_price Phi S K T r sigma option_type
  <> Raise ZeroDivisionError.
Proof.
  unfold Pricer.black_scholes_price.
  destruct (fle T (Fin 0)) eqn:HT; cbn [orb]; [discriminate|].
  destruct (fle sigma (Fin 0)) eqn:Hs; cbn [orb]; [discriminate|].
  destruct (fle S (Fin 0)) eqn:HS; cbn [orb]; [discriminate|].
  destruct (fle K (Fin 0)) eqn:HK; cbn [orb]; [discriminate|].
  apply fle_zero_false in HT, Hs, HK.
  rewrite (truediv_ok S K).
  2:{ destruct HK as [(k & -> & Hk) | [-> | ->]]; try discriminate.
      intros H. inversion H. lra. }
  cbn [bind].
  destruct (math_log (fdiv S K)) as [lg | e] eqn:Hlg; cbn [bind].
  2:{ apply math_log_error in Hlg. subst e. discriminate. }
  assert (Hrt : exists rt, math_sqrt T = Ok rt /\ fmul sigma rt <> Fin 0).
  { destruct HT as [(t & -> & Ht) | [-> | ->]]; cbn [math_sqrt].
    - rewrite Rleb_true by lra. eexists. split; [reflexivity|].
      assert (0 < sqrt t) by (apply sqrt_lt_R0; exact Ht).
      destruct Hs as [(x & -> & Hx) | [-> | ->]]; cbn [fmul]; unfold inf_times.
      + intros H'. inversion H'. nra.
      + rewrite Rltb_true by assumption. discriminate.
      + discriminate.
    - eexists. split; [reflexivity|].
      destruct Hs as [(x & -> & Hx) | [-> | ->]]; cbn [fmul]; unfold inf_times;
        try discriminate.
      rewrite Rltb_true by assumption. discriminate.
    - eexists. split; [reflexivity|].
      destruct Hs as [(x & -> & Hx) | [-> | ->]]; cbn [fmul]; discriminate. }
  destruct Hrt as (rt & Hsqrt & Hne).
  rewrite Hsqrt. cbn [bind]. rewrite truediv_ok by exact Hne. cbn [bind].
  destruct (lower option_type =? "call")%string; [discriminate|].
  destruct (lower option_type =? "put")%string; discriminate.
Qed.




End WithCdf.
End PricerFacts.

(** ** The volatility estimator *)

Module VolatilityFacts.

Lemma slice_window (df : DataFrame) (index : Z) (ps : list R) :
  (252 <= index)%Z -> window_is df index ps ->
  slice (closes df) (index - 252) index = map Fin ps.
Proof.
  intros Hi [Hlen Hnth]. unfold slice.
  replace (Z.to_nat (index - (index - 252))) with 252%nat by lia.
  apply nth_error_ext. intros k.
  rewrite nth_error_firstn, nth_error_skipn, nth_error_map.
  destruct (Nat.ltb_spec k 252) as [Hk | Hk].
  - rewrite (Hnth k Hk).
    rewrite (nth_error_nth' ps 0) by lia. reflexivity.
  - symmetry. replace (nth_error ps k) with (@None R); [reflexivity|].
    symmetry. apply nth_error_None. lia.
Qed.

Lemma series_div_cons (a b : fval) (s t : Series) :
  series_div (a :: s) (b :: t) = fdiv a b :: series_div s t.
Proof. reflexivity. Qed.

Lemma series_apply_cons (f : fval -> result fval) (v : fval) (s : Series) :
  series_apply f (v :: s)
  = bind (f v) (fun w => bind (series_apply f s) (fun ws => Ok (w :: ws))).
Proof. reflexivity. Qed.

Lemma math_log_ratio (p prev : R) :
  0 < prev -> 0 < p ->
  math_log (fdiv (Fin p) (Fin prev)) = Ok (Fin (ln (p / prev))).
Proof.
  intros Hprev Hp. cbn [fdiv]. rewrite (Reqb_false prev 0) by lra.
  cbn [math_log]. rewrite Rltb_true by (apply Rdiv_lt_0_compat; assumption).
  reflexivity.
Qed.

Lemma log_returns_apply (prev : R) (ps : list R) :
  0 < prev -> Forall (fun p => 0 < p) ps ->
  series_apply math_log
    (series_div (map Fin ps) (firstn (List.length ps) (Fin prev :: map Fin ps)))
  = Ok (map Fin (Spec.log_returns (prev :: ps))).
Proof.
  revert prev. induction ps as [|p ps IH]; intros prev Hprev Hps.
  - reflexivity.
  - inversion Hps as [|? ? Hp Hps']; subst.
    change (List.length (p :: ps)) with (S (List.length ps)).
    change (map Fin (p :: ps)) with (Fin p :: map Fin ps).
    rewrite firstn_cons, series_div_cons, series_apply_cons.
    rewrite (IH p Hp Hps'), math_log_ratio by assumption.
    reflexivity.
Qed.

Lemma dropna_fin (xs : list R) : dropna (map Fin xs) = map Fin xs.
Proof.
  induction xs as [|x xs IH]; [reflexivity|].
  cbn [map dropna filter isnan negb]. fold (dropna (map Fin xs)).
  rewrite IH. reflexivity.
Qed.

(** The column of log returns that [volatility] feeds to [std]: the NaN
    that [shift] puts in front is dropped. *)
Lemma log_returns_column (ps : list R) :
  Forall (fun p => 0 < p) ps ->
  exists applied,
    series_apply math_log (series_div (map Fin ps) (shift1 (map Fin ps)))
    = Ok applied
    /\ dropna applied = map Fin (Spec.log_returns ps).
Proof.
  intros Hps. destruct ps as [|p ps].
  - exists []. split; reflexivity.
  - inversion Hps as [|? ? Hp Hps']; subst.
    exists (NaN :: map Fin (Spec.log_returns (p :: ps))). split.
    + unfold shift1. rewrite length_map.
      change (List.length (p :: ps)) with (S (List.length ps)).
      change (map Fin (p :: ps)) with (Fin p :: map Fin ps).
      rewrite firstn_cons, series_div_cons, series_apply_cons.
      rewrite (log_returns_apply p ps Hp Hps'). reflexivity.
    + change (dropna (NaN :: ?l)) with (dropna l).
      apply dropna_fin.
Qed.

Lemma fsum_fin_acc (xs : list R) (a : R) :
  fold_left fadd (map Fin xs) (Fin a) = Fin (a + Spec.Rsum xs).
Proof.
  revert a. induction xs as [|x xs IH]; intros a; cbn [map fold_left Spec.Rsum fold_right].
  - f_equal. ring.
  - cbn [fadd]. rewrite IH. f_equal. unfold Spec.Rsum. ring.
Qed.

Lemma fsum_fin (xs : list R) : fsum (map Fin xs) = Fin (Spec.Rsum xs).
Proof. unfold fsum. rewrite fsum_fin_acc. f_equal. ring. Qed.

Lemma Rsum_ext (f g : R -> R) (xs : list R) :
  (forall x, f x = g x) -> Spec.Rsum (map f xs) = Spec.Rsum (map g xs).
Proof.
  intros H. induction xs as [|x xs IH]; [reflexivity|].
  cbn [map Spec.Rsum fold_right]. fold (Spec.Rsum (map f xs)) (Spec.Rsum (map g xs)).
  rewrite H, IH. reflexivity.
Qed.

Lemma Rsum_squares_nonneg (m : R) (xs : list R) :
  0 <= Spec.Rsum (map (fun x => (x - m) ^ 2) xs).
Proof.
  induction xs as [|x xs IH]; cbn [map Spec.Rsum fold_right]; [lra|].
  fold (Spec.Rsum (map (fun x => (x - m) ^ 2) xs)).
  pose proof (pow2_ge_0 (x - m)). lra.
Qed.

(** pandas' [std] on finite values is the sample standard deviation. *)
Lemma series_std_fin (xs : list R) :
  (2 <= List.length xs)%nat ->
  series_std (map Fin xs) = Fin (Spec.sample_std xs).
Proof.
  intros Hlen. unfold series_std. rewrite length_map.
  destruct (Nat.leb_spec (List.length xs) 1) as [H | _]; [lia|].
  rewrite fsum_fin. cbn [fdiv].
  assert (Hn : INR (List.length xs) <> 0) by (apply not_0_INR; lia).
  rewrite (Reqb_false _ 0 Hn).
  fold (Spec.mean xs).
  rewrite map_map. cbn [fsub fneg fadd fsquare fmul].
  rewrite <- (map_map (fun x => (Spec.mean xs + - x) * (Spec.mean xs + - x)) Fin).
  rewrite fsum_fin. cbn [fdiv].
  assert (Hn1 : INR (List.length xs - 1) = INR (List.length xs) - 1).
  { rewrite minus_INR by lia. reflexivity. }
  assert (Hpos : 0 < INR (List.length xs) - 1).
  { rewrite <- Hn1. apply lt_0_INR. lia. }
  rewrite Hn1, (Reqb_false _ 0) by lra.
  rewrite (Rsum_ext _ (fun x => (x - Spec.mean xs) ^ 2)) by (intros; ring).
  cbn [np_sqrt]. rewrite Rleb_true; [reflexivity|].
  apply Rmult_le_pos; [apply Rsum_squares_nonneg|].
  apply Rlt_le, Rinv_0_lt_compat, Hpos.
Qed.

Lemma log_returns_length (ps : list R) :
  List.length (Spec.log_returns ps) = (List.length ps - 1)%nat.
Proof.
  destruct ps as [|p ps]; [reflexivity|].
  revert p. induction ps as [|q ps IH]; intros p; [reflexivity|].
  change (Spec.log_returns (p :: q :: ps)) with (ln (q / p) :: Spec.log_returns (q :: ps)).
  cbn [List.length]. rewrite IH. cbn [List.length]. lia.
Qed.

(** [volatility] on a full window of positive closes. *)
Lemma volatility_value (df : DataFrame) (index : Z) (ps : list R) :
  (252 <= index)%Z -> window_is df index ps ->
  Forall (fun p => 0 < p) ps ->
  volatility index df = Ok (Fin (Spec.trailing_volatility ps)).
Proof.
  intros Hi Hw Hps. unfold volatility.
  destruct (Z.ltb_spec index 252) as [H | _]; [lia|].
  rewrite (slice_window df index ps Hi Hw).
  destruct (log_returns_column ps Hps) as (applied & Happ & Hdrop).
  rewrite Happ. cbn [bind]. rewrite Hdrop.
  cbn [math_sqrt]. rewrite Rleb_true by lra. cbn [bind].
  rewrite series_std_fin.
  - reflexivity.
  - rewrite log_returns_length. destruct Hw as [Hlen _]. rewrite Hlen. lia.
Qed.

Lemma log_returns_repeat (c : R) (n : nat) :
  c <> 0 -> Spec.log_returns (repeat c n) = repeat 0 (n - 1).
Proof.
  intros Hc. destruct n as [|n]; [reflexivity|].
  replace (S n - 1)%nat with n by lia.
  induction n as [|n IH]; [reflexivity|].
  change (repeat c (S (S n))) with (c :: c :: repeat c n).
  change (Spec.log_returns (c :: c :: repeat c n))
    with (ln (c / c) :: Spec.log_returns (repeat c (S n))).
  rewrite IH. unfold Rdiv. rewrite Rinv_r by assumption. rewrite ln_1.
  reflexivity.
Qed.

Lemma Rsum_repeat_0 (n : nat) : Spec.Rsum (repeat 0 n) = 0.
Proof.
  induction n as [|n IH]; [reflexivity|].
  cbn [repeat Spec.Rsum fold_right]. fold (Spec.Rsum (repeat 0 n)).
  rewrite IH. ring.
Qed.

Lemma sample_std_repeat_0 (n : nat) : Spec.sample_std (repeat 0 n) = 0.
Proof.
  unfold Spec.sample_std, Spec.mean. rewrite Rsum_repeat_0.
  replace (map (fun x => (x - 0 / INR (List.length (repeat 0 n))) ^ 2) (repeat 0 n))
    with (repeat 0 n).
  - rewrite Rsum_repeat_0. unfold Rdiv. rewrite Rmult_0_l. apply sqrt_0.
  - induction n as [|n IH]; [reflexivity|].
    cbn [repeat map]. rewrite repeat_length in *. f_equal.
    + unfold Rdiv. rewrite Rmult_0_l. ring.
    + rewrite IH at 1. apply map_ext. intros x. unfold Rdiv. rewrite !Rmult_0_l.
      reflexivity.
Qed.

(** C4: for an index of at least 252 and a series that has the positions
    [index-252 .. index-1], with positive closes there, [volatility] returns
    the sample standard deviation (squared deviations divided by [n - 1]) of
    the 251 daily log returns [ln (P_t / P_(t-1))] of these closes, times
    [sqrt 252]; on a window of constant closes it returns 0. *)
Theorem volatility_sample_std (df : DataFrame) (index : Z) (ps : list R) :
  (252 <= index)%Z ->
  window_is df index ps ->
  Forall (fun p => 0 < p) ps ->
  let rs := Spec.log_returns ps in
  let n := INR (List.length rs) in
  List.length rs = 251%nat
  /\ volatility index df
     = Ok (Fin (sqrt (Spec.Rsum (map (fun x => (x - Spec.Rsum rs / n) ^ 2) rs) / (n - 1))
                * sqrt 252))
  /\ ((exists c, ps = repeat c 252) -> volatility index df = Ok (Fin 0)).
Proof.
  intros Hi Hw Hps rs n.
  assert (Hv := volatility_value df index ps Hi Hw Hps).
  split; [|split].
  - unfold rs. rewrite log_returns_length. destruct Hw as [Hlen _]. rewrite Hlen.
    reflexivity.
  - exact Hv.
  - intros [c Hc]. rewrite Hv. do 2 f_equal.
    unfold Spec.trailing_volatility. subst ps.
    assert (c <> 0).
    { inversion Hps; subst. lra. }
    rewrite log_returns_repeat by assumption.
    rewrite sample_std_repeat_0. ring.
Qed.

Lemma series_apply_log_error (s : Series) (e : exn) :
  series_apply math_log s = Raise e -> e = math_domain_error.
Proof.
  induction s as [|v s IH]; [discriminate|].
  rewrite series_apply_cons.
  destruct (math_log v) as [w | e'] eqn:Hv; cbn [bind].
  - destruct (series_apply math_log s) as [ws | e'']; cbn [bind]; [discriminate|].
    intros H. inversion H; subst. apply IH. reflexivity.
  - intros H. inversion H; subst. apply (math_log_error v). exact Hv.
Qed.

(** C9: [volatility] raises its "index too low" error exactly when the
    index is below 252: it does at 251, and at 252, on a series with 252
    positive closes before that position, it returns a number. *)
Theorem volatility_index_too_low (df : DataFrame) (index : Z) :
  (volatility index df
   = Raise (ValueError "Index too low for trailing volatility calculation")
   <-> (index < 252)%Z)
  /\ volatility 251 df
     = Raise (ValueError "Index too low for trailing volatility calculation")
  /\ (forall ps, window_is df 252 ps -> Forall (fun p => 0 < p) ps ->
      exists v : R, volatility 252 df = Ok (Fin v)).
Proof.
  split; [|split].
  - unfold volatility. destruct (Z.ltb_spec index 252) as [H | H].
    + split; [intros _; exact H | reflexivity].
    + split; [|lia]. intros Hr. exfalso.
      destruct (series_apply math_log _) as [applied | e] eqn:Happ.
      * cbn [bind math_sqrt] in Hr. rewrite Rleb_true in Hr by lra. discriminate.
      * cbn [bind] in Hr. apply series_apply_log_error in Happ. subst e.
        discriminate.
  - reflexivity.
  - intros ps Hw Hps. exists (Spec.trailing_volatility ps).
    apply volatility_value; [lia | exact Hw | exact Hps].
Qed.

Lemma closes_length (df : DataFrame) (cs : list R) :
  closes df = map Fin cs -> List.length cs = List.length df.
Proof.
  intros H. rewrite <- (length_map Fin cs), <- H. unfold closes.
  apply length_map.
Qed.

Lemma window_at_is (df : DataFrame) (cs : list R) (index : Z) :
  closes df = map Fin cs ->
  (252 <= index <= Z.of_nat (List.length cs))%Z ->
  window_is df index (window_at cs index).
Proof.
  intros Hcs Hi. unfold window_at. split.
  - rewrite length_firstn, length_skipn. lia.
  - intros k Hk. rewrite Hcs, nth_error_map.
    assert (Hlt : (Z.to_nat (index - 252) + k < List.length cs)%nat) by lia.
    rewrite (nth_error_nth' cs 0 Hlt). cbn [option_map]. do 2 f_equal.
    symmetry. apply nth_error_nth. rewrite nth_error_firstn, nth_error_skipn.
    destruct (Nat.ltb_spec k 252); [|lia].
    apply nth_error_nth'. exact Hlt.
Qed.

Lemma window_at_positive (cs : list R) (index : Z) :
  Forall (fun p => 0 < p) cs -> Forall (fun p => 0 < p) (window_at cs index).
Proof.
  intros H. unfold window_at.
  rewrite <- (firstn_skipn (Z.to_nat (index - 252)) cs) in H.
  apply Forall_app in H. destruct H as [_ H].
  rewrite <- (firstn_skipn 252 (skipn (Z.to_nat (index - 252)) cs)) in H.
  apply Forall_app in H. destruct H as [H _]. exact H.
Qed.

Lemma getitem_fin (df : DataFrame) (cs : list R) (i : Z) :
  closes df = map Fin cs ->
  (0 <= i < Z.of_nat (List.length cs))%Z ->
  getitem (closes df) i = Ok (Fin (nth (Z.to_nat i) cs 0)).
Proof.
  intros Hcs Hi. unfold getitem. destruct (Z.ltb_spec i 0); [lia|].
  rewrite Hcs, nth_error_map, (nth_error_nth' cs 0) by lia. reflexivity.
Qed.

Lemma getitem_date (df : DataFrame) (i : Z) :
  (0 <= i < Z.of_nat (List.length df))%Z ->
  getitem (dates df) i = Ok (nth (Z.to_nat i) (dates df) EmptyString).
Proof.
  intros Hi. unfold getitem. destruct (Z.ltb_spec i 0); [lia|].
  rewrite (nth_error_nth' (dates df) EmptyString); [reflexivity|].
  unfold dates. rewrite length_map. lia.
Qed.

End VolatilityFacts.

(** ** The backtest *)

Module BacktestFacts.
Section WithCdf.

Variable Phi : R -> R.


Lemma body_ok (df : DataFrame) (st : Backtest.locals) (s : step) :
  step_of Phi df s ->
  Backtest.diffCheck_body Phi df (s_index s) st = (step_lines s, Ok (step_locals st s)).
Proof.
  intros (HS & Hvol & Hcp & Hfwd & Hd).
  unfold Backtest.diffCheck_body.
  rewrite HS. cbn [lift rbind]. rewrite Hvol. cbn [lift rbind].
  unfold s_K in Hcp. rewrite Hcp. cbn [lift rbind]. rewrite Hfwd. cbn [lift rbind].
  rewrite Hd. cbn [lift rbind print ret app]. reflexivity.
Qed.

Lemma body_inv (df : DataFrame) (i : Z) (st st' : Backtest.locals)
  (out : list line) :
  Backtest.diffCheck_body Phi df i st = (out, Ok st') ->
  exists s, s_index s = i /\ step_of Phi df s
            /\ out = step_lines s /\ st' = step_locals st s.
Proof.
  unfold Backtest.diffCheck_body.
  destruct (getitem (closes df) i) as [S | e] eqn:HS;
    cbn [lift rbind]; [|discriminate].
  destruct (volatility i df) as [vol | e] eqn:Hvol;
    cbn [lift rbind app]; [|discriminate].
  destruct (Pricer.black_scholes_price _ _ _ _ _ _ _) as [cp | e] eqn:Hcp;
    cbn [lift rbind app]; [|discriminate].
  destruct (getitem (closes df) (i + 252)) as [fwd | e] eqn:Hfwd;
    cbn [lift rbind app print]; [|discriminate].
  destruct (getitem (dates df) i) as [date | e] eqn:Hd;
    cbn [lift rbind app print ret]; [|discriminate].
  intros H. inversion H; subst.
  exists (mkStep i S vol cp fwd date).
  split; [reflexivity|]. split; [repeat split; assumption|].
  split; reflexivity.
Qed.

Lemma rbind_ok_inv {A B : Type} (m : run A) (k : A -> run B)
  (out : list line) (b : B) :
  rbind m k = (out, Ok b) ->
  exists out1 a out2, m = (out1, Ok a) /\ k a = (out2, Ok b) /\ out = out1 ++ out2.
Proof.
  destruct m as [out1 [a | e]]; cbn [rbind]; [|discriminate].
  destruct (k a) as [out2 r] eqn:Hk. intros H. inversion H; subst.
  exists out1, a, out2. split; [reflexivity|]. split; [exact Hk | reflexivity].
Qed.

(** A loop that ends normally has run one step per index, in order. *)
Lemma for_each_body_inv (df : DataFrame) (l : list Z) (st st' : Backtest.locals)
  (out : list line) :
  for_each l (Backtest.diffCheck_body Phi df) st = (out, Ok st') ->
  exists steps,
    map s_index steps = l
    /\ Forall (step_of Phi df) steps
    /\ out = flat_map step_lines steps
    /\ st' = fold_left step_locals steps st.
Proof.
  revert st out. induction l as [|i l IH]; intros st out H.
  - cbn [for_each ret] in H. inversion H; subst. exists []. repeat split. constructor.
  - cbn [for_each] in H. apply rbind_ok_inv in H.
    destruct H as (out1 & st1 & out2 & Hb & Hl & ->).
    apply body_inv in Hb. destruct Hb as (s & Hi & Hs & -> & ->).
    apply IH in Hl. destruct Hl as (steps & Hidx & Hsteps & -> & ->).
    exists (s :: steps). cbn [map flat_map fold_left]. rewrite Hi, Hidx.
    repeat split. constructor; assumption.
Qed.

Lemma for_each_body_ok (df : DataFrame) (steps : list step) (st : Backtest.locals) :
  Forall (step_of Phi df) steps ->
  for_each (map s_index steps) (Backtest.diffCheck_body Phi df) st
  = (flat_map step_lines steps, Ok (fold_left step_locals steps st)).
Proof.
  intros H. revert st. induction H as [|s steps Hs _ IH]; intros st.
  - reflexivity.
  - cbn [map for_each flat_map fold_left]. rewrite (body_ok df st s Hs).
    cbn [rbind]. rewrite IH. reflexivity.
Qed.

Lemma filter_map_app {A B : Type} (f : A -> option B) (l1 l2 : list A) :
  filter_map f (l1 ++ l2) = filter_map f l1 ++ filter_map f l2.
Proof.
  induction l1 as [|a l1 IH]; [reflexivity|].
  cbn [app filter_map]. destruct (f a); rewrite IH; reflexivity.
Qed.

Lemma printed_indices_steps (steps : list step) :
  printed_indices (flat_map step_lines steps) = map s_index steps.
Proof.
  unfold printed_indices.
  induction steps as [|s steps IH]; [reflexivity|].
  cbn [flat_map map]. rewrite filter_map_app, IH. reflexivity.
Qed.

Lemma printed_years_steps (steps : list step) :
  printed_numbers "Years: " (flat_map step_lines steps) = [].
Proof.
  unfold printed_numbers.
  induction steps as [|s steps IH]; [reflexivity|].
  cbn [flat_map]. rewrite filter_map_app, IH. reflexivity.
Qed.

Lemma printed_profit_steps (steps : list step) :
  printed_numbers "Yearly Profit: " (flat_map step_lines steps)
  = map (fun s => NpFloat (s_yearlyProfit s)) steps.
Proof.
  unfold printed_numbers.
  induction steps as [|s steps IH]; [reflexivity|].
  cbn [flat_map map]. rewrite filter_map_app, IH. reflexivity.
Qed.

Lemma callPrices_steps (steps : list step) (st : Backtest.locals) :
  Backtest.callPrices (fold_left step_locals steps st)
  = Backtest.callPrices st ++ map s_callPrice steps.
Proof.
  revert st. induction steps as [|s steps IH]; intros st; cbn [fold_left map].
  - rewrite app_nil_r. reflexivity.
  - rewrite IH. cbn [step_locals Backtest.callPrices]. rewrite <- app_assoc.
    reflexivity.
Qed.

Lemma netReturn_steps (steps : list step) (st : Backtest.locals) :
  Backtest.netReturn (fold_left step_locals steps st)
  = fold_left py_add
      (map (fun s => max_with_zero (fsub (s_fwd s) (fmul (Fin 1.05) (s_S s)))) steps)
      (Backtest.netReturn st).
Proof.
  revert st. induction steps as [|s steps IH]; intros st; cbn [fold_left map].
  - reflexivity.
  - rewrite IH. reflexivity.
Qed.

Lemma totalCost_steps (steps : list step) (st : Backtest.locals) :
  Backtest.totalCost (fold_left step_locals steps st)
  = fold_left py_add (map (fun s => NpFloat (s_callPrice s)) steps)
      (Backtest.totalCost st).
Proof.
  revert st. induction steps as [|s steps IH]; intros st; cbn [fold_left map].
  - reflexivity.
  - rewrite IH. reflexivity.
Qed.

Lemma py_add_np_r (a : pynum) (v : fval) :
  py_add a (NpFloat v) = NpFloat (fadd (to_fval a) v).
Proof.
  destruct a; cbn [py_add py_arith is_np orb to_fval]; try reflexivity.
Qed.

Lemma py_add_np_l (v : fval) (b : pynum) :
  py_add (NpFloat v) b = NpFloat (fadd v (to_fval b)).
Proof. reflexivity. Qed.

Lemma np_sum_is_np (vs : list fval) (a : pynum) :
  is_np a = true ->
  is_np (fold_left py_add (map NpFloat vs) a) = true.
Proof.
  revert a. induction vs as [|v vs IH]; intros a Ha; cbn [map fold_left].
  - exact Ha.
  - apply IH. rewrite py_add_np_r. reflexivity.
Qed.

(** After at least one step the total cost is a numpy float. *)
Lemma totalCost_is_np (steps : list step) (st : Backtest.locals) :
  steps <> [] -> is_np (Backtest.totalCost (fold_left step_locals steps st)) = true.
Proof.
  intros Hne. rewrite totalCost_steps.
  destruct steps as [|s steps]; [contradiction|].
  cbn [map fold_left]. rewrite <- (map_map s_callPrice NpFloat).
  apply np_sum_is_np. rewrite py_add_np_r. reflexivity.
Qed.

Lemma range_length (a b : Z) : List.length (range a b) = Z.to_nat (b - a).
Proof. unfold range. rewrite length_map, length_seq. reflexivity. Qed.

Lemma range_empty (a b : Z) : (b <= a)%Z -> range a b = [].
Proof.
  intros H. unfold range. replace (Z.to_nat (b - a)) with 0%nat by lia.
  reflexivity.
Qed.

(** [range a b] is [a; a + 1; ...; b - 1], in ascending order. *)
Lemma range_nth (a b : Z) (k : nat) :
  (k < Z.to_nat (b - a))%nat ->
  nth_error (range a b) k = Some (a + Z.of_nat k)%Z.
Proof.
  intros Hk. unfold range. rewrite nth_error_map, nth_error_seq.
  destruct (Nat.ltb_spec k (Z.to_nat (b - a))); [reflexivity | lia].
Qed.

Lemma py_truediv_np_r (a b : pynum) :
  is_np b = true ->
  py_truediv a b = Ok (NpFloat (fdiv (to_fval a) (to_fval b))).
Proof.
  intros Hb. unfold py_truediv. rewrite Hb, orb_true_r. reflexivity.
Qed.

Lemma summary_np (df : DataFrame) (start_index : Z) (totalProfit : pynum)
  (st : Backtest.locals) :
  is_np (Backtest.totalCost st) = true ->
  (start_index < Z.of_nat (List.length df) - 252)%Z ->
  Backtest.diffCheck_summary df start_index totalProfit st
  = (summary_lines (Z.of_nat (List.length df) - 252 - start_index) st,
     Ok totalProfit).
Proof.
  intros Hnp Hlt. unfold Backtest.diffCheck_summary, summary_lines.
  set (n := (Z.of_nat (List.length df) - 252 - start_index)%Z).
  assert (Hn : 0 < IZR n) by (apply IZR_lt; lia).
  rewrite !(py_truediv_np_r _ _ Hnp).
  assert (Hy : py_truediv (PyInt n) (PyInt 252) = Ok (PyFloat (Fin (IZR n / 252)))).
  { unfold py_truediv. cbn [is_np orb to_fval is_zero fdiv].
    rewrite (Reqb_false 252 0) by lra. reflexivity. }
  rewrite Hy.
  assert (He : py_truediv (PyInt 1) (PyFloat (Fin (IZR n / 252)))
               = Ok (PyFloat (Fin (1 / (IZR n / 252))))).
  { unfold py_truediv. cbn [is_np orb to_fval is_zero fdiv].
    assert (IZR n / 252 <> 0) by (apply Rgt_not_eq, Rdiv_lt_0_compat; lra).
    rewrite (Reqb_false (IZR n / 252) 0) by assumption. reflexivity. }
  cbn [lift rbind print app]. rewrite He. cbn [lift rbind print app py_pow is_np orb to_fval ret].
  reflexivity.
Qed.

(** With no step run the division for the return on investment raises. *)
Lemma summary_initial (df : DataFrame) (start_index : Z) (totalProfit : pynum) :
  Backtest.diffCheck_summary df start_index totalProfit initial_locals
  = ([ [PStr Backtest.dashes]; [PStr Backtest.dashes];
       [PStr "Total Profit: "; PNum (PyInt 0)];
       [PStr "Total Cost: "; PNum (PyInt 0)] ],
     Raise ZeroDivisionError).
Proof.
  unfold Backtest.diffCheck_summary, initial_locals.
  cbn [Backtest.netReturn Backtest.totalCost py_sub py_arith Z.sub].
  unfold py_truediv. cbn [is_np orb to_fval is_zero].
  rewrite (Reqb_true 0 0) by reflexivity. reflexivity.
Qed.

Lemma summary_result (df : DataFrame) (start_index : Z) (totalProfit v : pynum)
  (st : Backtest.locals) (out : list line) :
  Backtest.diffCheck_summary df start_index totalProfit st = (out, Ok v) -> v = totalProfit.
Proof.
  unfold Backtest.diffCheck_summary. cbn [print rbind lift app].
  destruct (py_truediv (py_sub _ _) _) as [roi | e]; cbn [rbind]; [|discriminate].
  destruct (py_truediv (PyInt _) _) as [years | e]; cbn [rbind]; [|discriminate].
  destruct (py_truediv (Backtest.netReturn st) _) as [ratio | e];
    cbn [rbind]; [|discriminate].
  destruct (py_truediv (PyInt 1) years) as [ex | e]; cbn [rbind]; [|discriminate].
  destruct (py_pow ratio ex) as [a | e]; cbn [rbind ret]; [|discriminate].
  intros H. inversion H. reflexivity.
Qed.

Lemma loop_inv (df : DataFrame) (start_index : Z) (out : list line)
  (st : Backtest.locals) :
  Backtest.diffCheck_loop Phi df start_index = (out, Ok st) ->
  exists steps,
    map s_index steps = range start_index (Z.of_nat (List.length df) - 252)
    /\ Forall (step_of Phi df) steps
    /\ out = flat_map step_lines steps
    /\ st = fold_left step_locals steps initial_locals.
Proof. apply for_each_body_inv. Qed.

Lemma diffCheck_after_loop (df : DataFrame) (start_index : Z) (out : list line)
  (st : Backtest.locals) :
  Backtest.diffCheck_loop Phi df start_index = (out, Ok st) ->
  Backtest.diffCheck Phi df start_index
  = (out ++ fst (Backtest.diffCheck_summary df start_index (PyInt 0) st),
     snd (Backtest.diffCheck_summary df start_index (PyInt 0) st)).
Proof.
  intros H. unfold Backtest.diffCheck. rewrite H. cbn [rbind].
  destruct (Backtest.diffCheck_summary df start_index (PyInt 0) st). reflexivity.
Qed.

(** A step on positive closes runs whenever its window has a positive
    volatility. *)
Lemma step_exists (df : DataFrame) (cs : list R) (i : Z) :
  closes df = map Fin cs ->
  Forall (fun p => 0 < p) cs ->
  (252 <= i)%Z -> (i + 252 < Z.of_nat (List.length cs))%Z ->
  0 < Spec.trailing_volatility (window_at cs i) ->
  exists s, s_index s = i /\ step_of Phi df s.
Proof.
  intros Hcs Hpos Hlo Hhi Hvol.
  set (S := nth (Z.to_nat i) cs 0).
  set (vol := Spec.trailing_volatility (window_at cs i)).
  assert (HS : 0 < S).
  { unfold S. rewrite Forall_forall in Hpos. apply Hpos, nth_In. lia. }
  exists (mkStep i (Fin S) (Fin vol)
            (Fin (Spec.call Phi S (S * 1.05) 1 (1.05 + - 1) vol))
            (Fin (nth (Z.to_nat (i + 252)) cs 0))
            (nth (Z.to_nat i) (dates df) EmptyString)).
  split; [reflexivity|]. unfold step_of.
  cbn [s_index s_S s_vol s_callPrice s_fwd s_date].
  split; [apply VolatilityFacts.getitem_fin; [exact Hcs | lia]|].
  split.
  { apply VolatilityFacts.volatility_value; [exact Hlo | |].
    - apply VolatilityFacts.window_at_is; [exact Hcs | lia].
    - apply VolatilityFacts.window_at_positive. exact Hpos. }
  split.
  { unfold s_K. cbn [s_S fmul fsub fneg fadd Backtest.strikeRatio].
    rewrite PricerFacts.price_body; [reflexivity | exact HS | lra | lra | exact Hvol]. }
  split; [apply VolatilityFacts.getitem_fin; [exact Hcs | lia]|].
  apply VolatilityFacts.getitem_date.
  rewrite <- (VolatilityFacts.closes_length df cs Hcs). lia.
Qed.

Lemma steps_exist (df : DataFrame) (cs : list R) (l : list Z) :
  closes df = map Fin cs ->
  Forall (fun p => 0 < p) cs ->
  (forall i, In i l ->
     (252 <= i)%Z /\ (i + 252 < Z.of_nat (List.length cs))%Z
     /\ 0 < Spec.trailing_volatility (window_at cs i)) ->
  exists steps, map s_index steps = l /\ Forall (step_of Phi df) steps.
Proof.
  intros Hcs Hpos. induction l as [|i l IH]; intros Hl.
  - exists []. split; [reflexivity | constructor].
  - destruct (Hl i (or_introl eq_refl)) as (Hlo & Hhi & Hvol).
    destruct (step_exists df cs i Hcs Hpos Hlo Hhi Hvol) as (s & Hi & Hs).
    destruct IH as (steps & Hidx & Hsteps).
    { intros j Hj. apply Hl. right. exact Hj. }
    exists (s :: steps). cbn [map]. rewrite Hi, Hidx.
    split; [reflexivity | constructor; assumption].
Qed.

Lemma range_In (a b i : Z) : In i (range a b) -> (a <= i < b)%Z.
Proof.
  unfold range. rewrite in_map_iff. intros (k & <- & Hk).
  apply in_seq in Hk. lia.
Qed.

(** The loop ends normally on positive closes whose trailing windows all
    have a positive volatility. *)
Lemma loop_completes (df : DataFrame) (cs : list R) (start_index : Z) :
  closes df = map Fin cs ->
  Forall (fun p => 0 < p) cs ->
  (252 <= start_index)%Z ->
  (forall i, (start_index <= i < Z.of_nat (List.length df) - 252)%Z ->
     0 < Spec.trailing_volatility (window_at cs i)) ->
  exists out st, Backtest.diffCheck_loop Phi df start_index = (out, Ok st).
Proof.
  intros Hcs Hpos Hlo Hvol.
  destruct (steps_exist df cs
              (range start_index (Z.of_nat (List.length df) - 252)) Hcs Hpos)
    as (steps & Hidx & Hsteps).
  { intros i Hi. apply range_In in Hi.
    rewrite (VolatilityFacts.closes_length df cs Hcs).
    split; [lia|]. split; [lia|]. apply Hvol. exact Hi. }
  exists (flat_map step_lines steps), (fold_left step_locals steps initial_locals).
  unfold Backtest.diffCheck_loop. rewrite <- Hidx.
  apply for_each_body_ok. exact Hsteps.
Qed.

(** C5: for a start index of at least 252 and below [len - 252], a run whose
    loop ends normally has gone through exactly the indices
    [start, start + 1, ..., len - 252 - 1] in ascending order; the list of
    call prices it has built has [len - 252 - start] entries and the years
    figure it prints is [(len - 252 - start) / 252].  The loop does end
    normally on positive closes whose trailing windows all have a positive
    volatility; a step that raises ends the run. *)
Theorem diffCheck_iteration_range (df : DataFrame) (start_index : Z) :
  (252 <= start_index)%Z ->
  (start_index < Z.of_nat (List.length df) - 252)%Z ->
  let stop := (Z.of_nat (List.length df) - 252)%Z in
  let n := (stop - start_index)%Z in
  (forall out st,
     Backtest.diffCheck_loop Phi df start_index = (out, Ok st) ->
     printed_indices out = range start_index stop
     /\ (forall k, (k < Z.to_nat n)%nat ->
         nth_error (printed_indices out) k = Some (start_index + Z.of_nat k)%Z)
     /\ Z.of_nat (List.length (printed_indices out)) = n
     /\ Z.of_nat (List.length (Backtest.callPrices st)) = n
     /\ printed_numbers "Years: " (fst (Backtest.diffCheck Phi df start_index))
        = [PyFloat (Fin (IZR n / 252))])
  /\
  (forall cs,
     closes df = map Fin cs ->
     Forall (fun p => 0 < p) cs ->
     (forall i, (start_index <= i < stop)%Z ->
        0 < Spec.trailing_volatility (window_at cs i)) ->
     exists out st, Backtest.diffCheck_loop Phi df start_index = (out, Ok st)).
Proof.
  intros Hlo Hhi stop n. split.
  2:{ intros cs Hcs Hpos Hvol. apply (loop_completes df cs); assumption. }
  intros out st Hloop.
  destruct (loop_inv df start_index out st Hloop) as (steps & Hidx & Hsteps & Hout & Hst).
  assert (Hpi : printed_indices out = range start_index stop).
  { rewrite Hout, printed_indices_steps. exact Hidx. }
  assert (Hlen : List.length steps = Z.to_nat n).
  { rewrite <- (length_map s_index), Hidx, range_length. reflexivity. }
  split; [exact Hpi|]. split; [|split; [|split]].
  - intros k Hk. rewrite Hpi. apply range_nth. exact Hk.
  - rewrite Hpi, range_length. unfold n, stop. lia.
  - rewrite Hst, callPrices_steps. cbn [initial_locals Backtest.callPrices app].
    rewrite length_map, Hlen. unfold n, stop. lia.
  - rewrite (diffCheck_after_loop df start_index out st Hloop). cbn [fst].
    assert (Hne : steps <> []).
    { intros ->. cbn [List.length] in Hlen. unfold n, stop in Hlen. lia. }
    rewrite summary_np; [|rewrite Hst; apply totalCost_is_np; exact Hne | exact Hhi].
    cbn [fst]. unfold printed_numbers. rewrite filter_map_app.
    fold (printed_numbers "Years: " out). rewrite Hout, printed_years_steps.
    reflexivity.
Qed.

(** The run on an empty range. *)
Lemma diffCheck_no_step (df : DataFrame) (start_index : Z) :
  (Z.of_nat (List.length df) - 252 <= start_index)%Z ->
  Backtest.diffCheck Phi df start_index
  = ([ [PStr "------------------------------"];
       [PStr "------------------------------"];
       [PStr "Total Profit: "; PNum (PyInt 0)];
       [PStr "Total Cost: "; PNum (PyInt 0)] ],
     Raise ZeroDivisionError).
Proof.
  intros H. unfold Backtest.diffCheck, Backtest.diffCheck_loop.
  rewrite range_empty by exact H. cbn [for_each ret rbind].
  fold initial_locals. rewrite summary_initial. reflexivity.
Qed.

(** C8, as the code has it: when the range of the loop is empty
    ([start >= len - 252]) no step runs; the run prints the two separator
    lines and the two totals, both 0, and then raises [ZeroDivisionError] at
    the division for the return on investment. *)
Theorem diffCheck_empty_range (df : DataFrame) (start_index : Z) :
  (Z.of_nat (List.length df) - 252 <= start_index)%Z ->
  Backtest.diffCheck Phi df start_index
  = ([ [PStr "------------------------------"];
       [PStr "------------------------------"];
       [PStr "Total Profit: "; PNum (PyInt 0)];
       [PStr "Total Cost: "; PNum (PyInt 0)] ],
     Raise ZeroDivisionError)
  /\ printed_indices (fst (Backtest.diffCheck Phi df start_index)) = [].
Proof.
  intros H. pose proof (diffCheck_no_step df start_index H) as Hrun.
  split; [exact Hrun | rewrite Hrun; reflexivity].
Qed.

(** C10: a run of [diffCheck] that ends without raising returns the integer
    0, the initial value of [totalProfit]. *)
Theorem diffCheck_returns_zero (df : DataFrame) (start_index : Z)
  (out : list line) (v : pynum) :
  Backtest.diffCheck Phi df start_index = (out, Ok v) -> v = PyInt 0.
Proof.
  unfold Backtest.diffCheck. intros H. apply rbind_ok_inv in H.
  destruct H as (out1 & st & out2 & _ & Hsum & _).
  apply summary_result in Hsum. exact Hsum.
Qed.

Lemma max_with_zero_fin (d : R) : to_fval (max_with_zero (Fin d)) = Fin (Rmax d 0).
Proof.
  unfold max_with_zero. cbn [flt]. unfold Rltb.
  destruct (Rlt_dec d 0) as [H | H]; cbn [to_fval].
  - rewrite Rmax_right by lra. reflexivity.
  - rewrite Rmax_left by lra. reflexivity.
Qed.

Lemma plot_body_inv (df : DataFrame) (i : Z) (acc acc' : list fval * list fval)
  (out : list line) :
  Backtest.plot_body Phi df i acc = (out, Ok acc') ->
  exists S fwd,
    getitem (closes df) i = Ok S
    /\ getitem (closes df) (i + 252) = Ok fwd
    /\ snd acc' = snd acc ++ [fsub fwd (fmul S (Fin 1.05))].
Proof.
  unfold Backtest.plot_body.
  destruct (getitem (closes df) i) as [S | e] eqn:HS;
    cbn [lift rbind]; [|discriminate].
  destruct (volatility i df) as [vol | e]; cbn [lift rbind app]; [|discriminate].
  destruct (Pricer.black_scholes_price _ _ _ _ _ _ _) as [cp | e];
    cbn [lift rbind app]; [|discriminate].
  destruct (getitem (closes df) (i + 252)) as [fwd | e] eqn:Hfwd;
    cbn [lift rbind app ret]; [|discriminate].
  intros H. inversion H; subst. exists S, fwd.
  split; [reflexivity|]. split; reflexivity.
Qed.

(** C6, as the code has it: in every step the profit that is printed (and,
    in the plot loop, appended to the plotted list) is the difference
    [close[i+252] - strikeRatio * close[i]] itself, negative when the close a
    year later is below the strike; the amount added to [netReturn] is that
    difference floored at zero. *)
Theorem diffCheck_profit_and_payoff (df : DataFrame) (start_index : Z)
  (out : list line) (st : Backtest.locals) :
  Backtest.diffCheck_loop Phi df start_index = (out, Ok st) ->
  (exists steps,
    map s_index steps = range start_index (Z.of_nat (List.length df) - 252)
    /\ Forall (fun s =>
          getitem (closes df) (s_index s) = Ok (s_S s)
          /\ getitem (closes df) (s_index s + 252) = Ok (s_fwd s)) steps
    /\ printed_numbers "Yearly Profit: " out
       = map (fun s => NpFloat (fsub (s_fwd s) (fmul (Fin 1.05) (s_S s)))) steps
    /\ Backtest.netReturn st
       = fold_left py_add
           (map (fun s => max_with_zero (fsub (s_fwd s) (fmul (Fin 1.05) (s_S s))))
                steps)
           (PyInt 0)
    /\ (forall s S F, In s steps -> s_S s = Fin S -> s_fwd s = Fin F ->
        fsub (s_fwd s) (fmul (Fin 1.05) (s_S s)) = Fin (F - 1.05 * S)
        /\ to_fval (max_with_zero (fsub (s_fwd s) (fmul (Fin 1.05) (s_S s))))
           = Fin (Rmax (F - 1.05 * S) 0)))
  /\ (forall i acc acc' out',
        Backtest.plot_body Phi df i acc = (out', Ok acc') ->
        exists S fwd,
          getitem (closes df) i = Ok S
          /\ getitem (closes df) (i + 252) = Ok fwd
          /\ snd acc' = snd acc ++ [fsub fwd (fmul S (Fin 1.05))]).
Proof.
  intros Hloop. split; [|intros i acc acc' out'; apply plot_body_inv].
  destruct (loop_inv df start_index out st Hloop) as (steps & Hidx & Hsteps & Hout & Hst).
  exists steps. split; [exact Hidx|]. split; [|split; [|split]].
  - apply Forall_impl with (2 := Hsteps).
    intros s (HS & _ & _ & Hfwd & _). split; assumption.
  - rewrite Hout, printed_profit_steps. reflexivity.
  - rewrite Hst, netReturn_steps. reflexivity.
  - intros s S F _ HS HF. rewrite HS, HF. cbn [fmul fsub fneg fadd].
    rewrite max_with_zero_fin. split; reflexivity.
Qed.

(** C7, as the code has it: the summary divides and raises to the power
    without any test.  When no step has run, the total cost is the integer 0
    and the division for the return on investment raises
    [ZeroDivisionError].  After at least one step both figures are numpy
    results and are printed whatever the total cost and the sign of
    [netReturn / totalCost] are; the run then returns. *)
Theorem diffCheck_summary_unguarded (df : DataFrame) (start_index : Z)
  (out : list line) (st : Backtest.locals) :
  Backtest.diffCheck_loop Phi df start_index = (out, Ok st) ->
  let n := (Z.of_nat (List.length df) - 252 - start_index)%Z in
  let netReturn := to_fval (Backtest.netReturn st) in
  let totalCost := to_fval (Backtest.totalCost st) in
  ((n <= 0)%Z ->
   Backtest.totalCost st = PyInt 0
   /\ snd (Backtest.diffCheck Phi df start_index) = Raise ZeroDivisionError
   /\ printed_numbers "Return on investment: " (fst (Backtest.diffCheck Phi df start_index)) = [])
  /\
  ((0 < n)%Z ->
   snd (Backtest.diffCheck Phi df start_index) = Ok (PyInt 0)
   /\ printed_numbers "Return on investment: " (fst (Backtest.diffCheck Phi df start_index))
      = [NpFloat (fdiv (fsub netReturn totalCost) totalCost)]
   /\ In [PStr "Annualized returns: ";
          PPow (PowNum (NpFloat (c_pow (fdiv netReturn totalCost)
                                       (Fin (1 / (IZR n / 252))))))]
         (fst (Backtest.diffCheck Phi df start_index))).
Proof.
  intros Hloop n netReturn totalCost. split; intros Hn.
  - assert (Hempty : (Z.of_nat (List.length df) - 252 <= start_index)%Z)
      by (unfold n in Hn; lia).
    pose proof (diffCheck_no_step df start_index Hempty) as Hrun.
    unfold Backtest.diffCheck_loop in Hloop.
    rewrite range_empty in Hloop by exact Hempty.
    cbn [for_each ret] in Hloop. inversion Hloop; subst.
    rewrite Hrun. repeat split; reflexivity.
  - assert (Hlt : (start_index < Z.of_nat (List.length df) - 252)%Z)
      by (unfold n in Hn; lia).
    destruct (loop_inv df start_index out st Hloop)
      as (steps & Hidx & Hsteps & Hout & Hst).
    assert (Hne : steps <> []).
    { intros ->. cbn [map] in Hidx.
      assert (Hl := range_length start_index (Z.of_nat (List.length df) - 252)).
      rewrite <- Hidx in Hl. cbn [List.length] in Hl. lia. }
    assert (Hnp : is_np (Backtest.totalCost st) = true)
      by (rewrite Hst; apply totalCost_is_np; exact Hne).
    rewrite (diffCheck_after_loop df start_index out st Hloop).
    rewrite (summary_np df start_index (PyInt 0) st Hnp Hlt). cbn [fst snd].
    split; [reflexivity|]. split.
    + unfold printed_numbers. rewrite filter_map_app.
      fold (printed_numbers "Return on investment: " out).
      assert (Hroi : printed_numbers "Return on investment: " out = []).
      { rewrite Hout. unfold printed_numbers. clear.
        induction steps as [|s steps IH]; [reflexivity|].
        cbn [flat_map]. rewrite filter_map_app, IH. reflexivity. }
      rewrite Hroi. cbn [app]. unfold summary_lines.
      cbn [filter_map number_of_line String.eqb Ascii.eqb Bool.eqb].
      do 2 f_equal. f_equal.
      unfold netReturn, totalCost.
      destruct (Backtest.totalCost st) as [z | v | v]; try discriminate.
      destruct (Backtest.netReturn st); reflexivity.
    + apply in_or_app. right. unfold summary_lines.
      do 6 right. left. reflexivity.
Qed.

End WithCdf.
End BacktestFacts.

(** ** The sample series *)

Module Demo.


Lemma sample_std_pos (x y : R) (rest : list R) :
  x <> y -> 0 < Spec.sample_std (x :: y :: rest).
Proof.
  intros Hxy. unfold Spec.sample_std. apply sqrt_lt_R0.
  set (m := Spec.mean (x :: y :: rest)).
  cbn [map Spec.Rsum fold_right List.length].
  fold (Spec.Rsum (map (fun x0 => (x0 - m) ^ 2) rest)).
  pose proof (VolatilityFacts.Rsum_squares_nonneg m rest) as Hrest.
  assert (Hn : 0 < INR (S (S (List.length rest))) - 1).
  { rewrite !S_INR. pose proof (pos_INR (List.length rest)). lra. }
  apply Rdiv_lt_0_compat; [|exact Hn].
  assert (Hsq : 0 < (x - m) ^ 2 + (y - m) ^ 2).
  { destruct (Req_dec x m) as [Hx | Hx].
    - assert (0 < (y - m) ^ 2) by (rewrite <- Rsqr_pow2; apply Rsqr_pos_lt; lra).
      pose proof (pow2_ge_0 (x - m)). lra.
    - assert (0 < (x - m) ^ 2) by (rewrite <- Rsqr_pow2; apply Rsqr_pos_lt; lra).
      pose proof (pow2_ge_0 (y - m)). lra. }
  lra.
Qed.

Lemma demo_window_positive : Forall (fun p => 0 < p) demo_window.
Proof.
  unfold demo_window. constructor; [lra|].
  apply Forall_forall. intros p Hp. apply repeat_spec in Hp. subst. lra.
Qed.

Lemma demo_vol_positive : 0 < demo_vol.
Proof.
  unfold demo_vol, Spec.trailing_volatility, demo_window.
  apply Rmult_lt_0_compat; [|apply sqrt_lt_R0; lra].
  change (repeat 100 251) with (100 :: 100 :: repeat 100 249).
  change (Spec.log_returns (50 :: 100 :: 100 :: repeat 100 249))
    with (ln (100 / 50) :: ln (100 / 100)
          :: Spec.log_returns (100 :: repeat 100 249)).
  apply sample_std_pos.
  replace (100 / 100) with 1 by lra. rewrite ln_1.
  apply Rgt_not_eq. rewrite <- ln_1. apply ln_increasing; lra.
Qed.

Lemma demo_df_length : List.length demo_df = 505%nat.
Proof.
  unfold demo_df, demo_closes. rewrite length_map. cbn [List.length].
  rewrite repeat_length. reflexivity.
Qed.

Lemma demo_df_closes : closes demo_df = map Fin demo_closes.
Proof. unfold closes, demo_df. rewrite map_map. reflexivity. Qed.

Lemma demo_df_dates : dates demo_df = map (fun _ => "01/02/2020"%string) demo_closes.
Proof. unfold dates, demo_df. rewrite map_map. reflexivity. Qed.

Lemma demo_closes_late (k : nat) :
  (k < 504)%nat -> nth_error demo_closes (S k) = Some 100.
Proof. intros Hk. unfold demo_closes. cbn [nth_error]. apply nth_error_repeat, Hk. Qed.

Lemma demo_window_is : window_is demo_df 252 demo_window.
Proof.
  split.
  - unfold demo_window. cbn [List.length]. rewrite repeat_length. reflexivity.
  - intros k Hk. change (Z.to_nat (252 - 252)) with 0%nat. cbn [Nat.add].
    rewrite demo_df_closes, nth_error_map.
    destruct k as [|k].
    + reflexivity.
    + rewrite demo_closes_late by lia. unfold demo_window. cbn [nth option_map].
      rewrite nth_repeat_lt by lia. reflexivity.
Qed.

Lemma demo_getitem_late (i : Z) :
  (1 <= i < 505)%Z -> getitem (closes demo_df) i = Ok (Fin 100).
Proof.
  intros Hi. unfold getitem.
  destruct (Z.ltb_spec i 0); [lia|].
  rewrite demo_df_closes, nth_error_map.
  replace (Z.to_nat i) with (S (Z.to_nat i - 1)) by lia.
  rewrite demo_closes_late by lia. reflexivity.
Qed.

Lemma demo_getitem_date (i : Z) :
  (0 <= i < 505)%Z -> getitem (dates demo_df) i = Ok "01/02/2020"%string.
Proof.
  intros Hi. unfold getitem.
  destruct (Z.ltb_spec i 0); [lia|].
  rewrite demo_df_dates, nth_error_map.
  destruct (nth_error demo_closes (Z.to_nat i)) eqn:Hn; [reflexivity|].
  apply nth_error_None in Hn. unfold demo_closes in Hn. cbn [List.length] in Hn.
  rewrite repeat_length in Hn. lia.
Qed.

(** The single step of the run on the sample series. *)
Lemma demo_step_of : step_of std_normal_cdf demo_df demo_step.
Proof.
  unfold step_of, demo_step.
  cbn [s_index s_S s_vol s_callPrice s_fwd s_date].
  split; [apply demo_getitem_late; lia|].
  split.
  { apply VolatilityFacts.volatility_value;
      [lia | apply demo_window_is | apply demo_window_positive]. }
  split.
  { unfold s_K. cbn [s_S fmul fsub fneg fadd Backtest.strikeRatio].
    rewrite PricerFacts.price_body;
      [reflexivity | lra | lra | lra | apply demo_vol_positive]. }
  split; [apply demo_getitem_late; lia | apply demo_getitem_date; lia].
Qed.

Lemma demo_range : range 252 (Z.of_nat (List.length demo_df) - 252) = [252%Z].
Proof. rewrite demo_df_length. reflexivity. Qed.

Lemma demo_loop :
  Backtest.diffCheck_loop std_normal_cdf demo_df 252
  = (step_lines demo_step, Ok (step_locals initial_locals demo_step)).
Proof.
  unfold Backtest.diffCheck_loop. rewrite demo_range.
  change [252%Z] with (map s_index [demo_step]).
  fold initial_locals.
  rewrite (BacktestFacts.for_each_body_ok std_normal_cdf demo_df [demo_step]).
  - cbn [flat_map fold_left]. rewrite app_nil_r. reflexivity.
  - constructor; [apply demo_step_of | constructor].
Qed.

(** The whole run on the sample series. *)
Lemma demo_run :
  Backtest.diffCheck std_normal_cdf demo_df 252
  = (step_lines demo_step
       ++ summary_lines 1 (step_locals initial_locals demo_step),
     Ok (PyInt 0)).
Proof.
  rewrite (BacktestFacts.diffCheck_after_loop _ _ _ _ _ demo_loop).
  rewrite BacktestFacts.summary_np.
  - rewrite demo_df_length. reflexivity.
  - reflexivity.
  - rewrite demo_df_length. lia.
Qed.

Lemma demo_netReturn :
  Backtest.netReturn (step_locals initial_locals demo_step) = PyInt 0.
Proof.
  cbn [step_locals Backtest.netReturn initial_locals demo_step s_fwd s_S
       fmul fsub fneg fadd].
  unfold max_with_zero. cbn [flt]. rewrite Rltb_true by lra. reflexivity.
Qed.

Lemma demo_totalCost :
  Backtest.totalCost (step_locals initial_locals demo_step)
  = NpFloat (Fin (0 + demo_call)).
Proof. reflexivity. Qed.

Lemma short_df_length : List.length short_df = 300%nat.
Proof. apply repeat_length. Qed.

Lemma short_df_window : window_is short_df 252 (repeat 100 252).
Proof.
  split; [apply repeat_length|].
  intros k Hk. change (Z.to_nat (252 - 252)) with 0%nat. cbn [Nat.add].
  unfold closes, short_df. rewrite map_repeat. cbn [Close_Last].
  rewrite nth_error_repeat by lia. rewrite nth_repeat_lt by lia. reflexivity.
Qed.

Lemma short_df_positive : Forall (fun p => 0 < p) (repeat 100 252).
Proof.
  apply Forall_forall. intros p Hp. apply repeat_spec in Hp. subst. lra.
Qed.

Lemma short_df_range : (Z.of_nat (List.length short_df) - 252 <= 252)%Z.
Proof. rewrite short_df_length. lia. Qed.

Lemma ramp_df_length (N : nat) : List.length (ramp_df N) = N.
Proof. unfold ramp_df, ramp_closes. rewrite !length_map. apply length_seq. Qed.

Lemma ramp_df_closes (N : nat) : closes (ramp_df N) = map Fin (ramp_closes N).
Proof. unfold closes, ramp_df. rewrite map_map. reflexivity. Qed.

Lemma ramp_closes_positive (N : nat) : Forall (fun p => 0 < p) (ramp_closes N).
Proof.
  unfold ramp_closes. apply Forall_forall. intros p Hp.
  apply in_map_iff in Hp. destruct Hp as (k & <- & _).
  pose proof (pos_INR k). lra.
Qed.

Lemma firstn_seq_le (n a len : nat) :
  (n <= len)%nat -> firstn n (seq a len) = seq a n.
Proof.
  revert a len. induction n as [|n IH]; intros a len Hn; [reflexivity|].
  destruct len as [|len]; [lia|].
  cbn [seq firstn]. rewrite IH by lia. reflexivity.
Qed.

Lemma ramp_window (N : nat) (i : Z) :
  (252 <= i <= Z.of_nat N)%Z ->
  window_at (ramp_closes N) i
  = map (fun k => 100 + INR k) (seq (Z.to_nat (i - 252)) 252).
Proof.
  intros Hi. unfold window_at, ramp_closes.
  rewrite skipn_map, firstn_map, skipn_seq, firstn_seq_le by lia.
  reflexivity.
Qed.

(** Two consecutive log returns of the increasing series differ, so every
    window has a positive volatility. *)
Lemma ramp_vol_positive (a : nat) :
  0 < Spec.trailing_volatility (map (fun k => 100 + INR k) (seq a 252)).
Proof.
  unfold Spec.trailing_volatility.
  apply Rmult_lt_0_compat; [|apply sqrt_lt_R0; lra].
  change (seq a 252) with (a :: S a :: S (S a) :: seq (S (S (S a))) 249).
  cbn [map].
  set (f := fun k => 100 + INR k).
  change (Spec.log_returns (f a :: f (S a) :: f (S (S a))
                              :: map f (seq (S (S (S a))) 249)))
    with (ln (f (S a) / f a) :: ln (f (S (S a)) / f (S a))
          :: Spec.log_returns (f (S (S a)) :: map f (seq (S (S (S a))) 249))).
  apply sample_std_pos.
  unfold f. rewrite !S_INR. pose proof (pos_INR a) as Ha.
  intros Heq. apply ln_inv in Heq.
  - apply (f_equal (fun q => q * ((100 + INR a) * (100 + (INR a + 1))))) in Heq.
    field_simplify in Heq; [nra | lra | lra].
  - apply Rdiv_lt_0_compat; lra.
  - apply Rdiv_lt_0_compat; lra.
Qed.

End Demo.

(** ** The theorems at concrete inputs *)

Module Instances.



(** C4 on a constant window: the first 252 closes of the short series are
    all 100 and the volatility at index 252 is 0. *)
Lemma volatility_sample_std_witness : volatility 252 short_df = Ok (Fin 0).
Proof.
  apply (VolatilityFacts.volatility_sample_std short_df 252 (repeat 100 252));
    [lia | exact Demo.short_df_window | exact Demo.short_df_positive |].
  exists 100. reflexivity.
Defined.

(** C9 on the sample series. *)
Lemma volatility_index_too_low_witness :
  volatility 251 demo_df
  = Raise (ValueError "Index too low for trailing volatility calculation")
  /\ exists v : R, volatility 252 demo_df = Ok (Fin v).
Proof.
  destruct (VolatilityFacts.volatility_index_too_low demo_df 251) as (_ & H251 & H252).
  split; [exact H251|].
  exact (H252 demo_window Demo.demo_window_is Demo.demo_window_positive).
Defined.

(** C5 on the increasing series of 600 closes: the run from 252 ends
    normally after the 96 steps 252 .. 347 and prints 96 / 252 years. *)
Lemma diffCheck_iteration_range_witness :
  exists out st,
    Backtest.diffCheck_loop std_normal_cdf (ramp_df 600) 252 = (out, Ok st)
    /\ printed_indices out = range 252 348
    /\ List.length (Backtest.callPrices st) = 96%nat
    /\ printed_numbers "Years: "
         (fst (Backtest.diffCheck std_normal_cdf (ramp_df 600) 252))
       = [PyFloat (Fin (96 / 252))].
Proof.
  assert (Hlen : (Z.of_nat (List.length (ramp_df 600)) - 252 = 348)%Z)
    by (rewrite Demo.ramp_df_length; reflexivity).
  assert (Hlt : (252 < Z.of_nat (List.length (ramp_df 600)) - 252)%Z)
    by (rewrite Hlen; lia).
  destruct (BacktestFacts.diffCheck_iteration_range std_normal_cdf (ramp_df 600) 252
              (Z.le_refl 252) Hlt) as [Hrun Hcompletes].
  destruct (Hcompletes (ramp_closes 600) (Demo.ramp_df_closes 600)
              (Demo.ramp_closes_positive 600)) as (out & st & Hloop).
  { intros i Hi. rewrite Hlen in Hi. rewrite Demo.ramp_window by lia.
    apply Demo.ramp_vol_positive. }
  exists out, st. split; [exact Hloop|].
  destruct (Hrun out st Hloop) as (Hidx & _ & _ & Hcalls & Hyears).
  rewrite Hlen in Hidx, Hcalls, Hyears.
  split; [exact Hidx|]. split; [lia|].
  rewrite Hyears. reflexivity.
Defined.

(** C6 on the sample series. *)
Lemma diffCheck_profit_and_payoff_witness :
  exists steps,
    map s_index steps = range 252 (Z.of_nat (List.length demo_df) - 252)
    /\ printed_numbers "Yearly Profit: " (step_lines demo_step)
       = map (fun s => NpFloat (fsub (s_fwd s) (fmul (Fin 1.05) (s_S s)))) steps
    /\ Backtest.netReturn (step_locals initial_locals demo_step)
       = fold_left py_add
           (map (fun s => max_with_zero (fsub (s_fwd s) (fmul (Fin 1.05) (s_S s))))
                steps)
           (PyInt 0).
Proof.
  destruct (BacktestFacts.diffCheck_profit_and_payoff std_normal_cdf demo_df 252
              (step_lines demo_step) (step_locals initial_locals demo_step)
              Demo.demo_loop)
    as ((steps & Hidx & _ & Hprofit & Hnet & _) & _).
  exists steps. split; [exact Hidx|]. split; [exact Hprofit | exact Hnet].
Defined.

(** C7 on the sample series: the run has one step and prints both figures. *)
Lemma diffCheck_summary_unguarded_witness :
  snd (Backtest.diffCheck std_normal_cdf demo_df 252) = Ok (PyInt 0)
  /\ exists roi,
       printed_numbers "Return on investment: "
         (fst (Backtest.diffCheck std_normal_cdf demo_df 252)) = [NpFloat roi].
Proof.
  assert (Hn : (0 < Z.of_nat (List.length demo_df) - 252 - 252)%Z)
    by (rewrite Demo.demo_df_length; lia).
  destruct (BacktestFacts.diffCheck_summary_unguarded std_normal_cdf demo_df 252
              (step_lines demo_step) (step_locals initial_locals demo_step)
              Demo.demo_loop)
    as (_ & Hrun).
  destruct (Hrun Hn) as (Hret & Hroi & _).
  split; [exact Hret|]. eexists. exact Hroi.
Defined.

(** C8 on the short series. *)
Lemma diffCheck_empty_range_witness :
  Backtest.diffCheck std_normal_cdf short_df 252
  = ([ [PStr "------------------------------"];
       [PStr "------------------------------"];
       [PStr "Total Profit: "; PNum (PyInt 0)];
       [PStr "Total Cost: "; PNum (PyInt 0)] ],
     Raise ZeroDivisionError).
Proof.
  apply (BacktestFacts.diffCheck_empty_range std_normal_cdf short_df 252).
  exact Demo.short_df_range.
Defined.

(** C10 on the sample series. *)
Lemma diffCheck_returns_zero_witness :
  exists out v,
    Backtest.diffCheck std_normal_cdf demo_df 252 = (out, Ok v) /\ v = PyInt 0.
Proof.
  eexists. eexists. split; [exact Demo.demo_run|].
  exact (BacktestFacts.diffCheck_returns_zero std_normal_cdf demo_df 252 _ _
           Demo.demo_run).
Defined.

(** Against C6 as stated: in the step at index 252 of the sample series the
    close a year later is 100 and the strike 105; the profit printed for
    the step is -5, not the floored payoff 0, while 0 is what is added to
    [netReturn]. *)
Lemma yearly_profit_not_floored :
  printed_numbers "Yearly Profit: "
    (fst (Backtest.diffCheck_loop std_normal_cdf demo_df 252))
  = [NpFloat (Fin (-5))]
  /\ Rmax (100 - 1.05 * 100) 0 = 0
  /\ NpFloat (Fin (-5)) <> NpFloat (Fin (Rmax (100 - 1.05 * 100) 0))
  /\ (forall st, snd (Backtest.diffCheck_loop std_normal_cdf demo_df 252) = Ok st ->
      Backtest.netReturn st = PyInt 0).
Proof.
  rewrite Demo.demo_loop. cbn [fst snd].
  assert (Hmax : Rmax (100 - 1.05 * 100) 0 = 0) by (apply Rmax_right; lra).
  split; [|split; [exact Hmax | split]].
  - cbn. do 3 f_equal. lra.
  - rewrite Hmax. intros H. inversion H. lra.
  - intros st H. inversion H; subst. apply Demo.demo_netReturn.
Qed.

(** Against C7 as stated: on the short series no step runs, the total cost
    is 0, and the run ends in [ZeroDivisionError] at the division for the
    return on investment; no figure is printed for it. *)
Lemma roi_division_by_zero_raises :
  snd (Backtest.diffCheck std_normal_cdf short_df 252) = Raise ZeroDivisionError
  /\ printed_numbers "Total Cost: "
       (fst (Backtest.diffCheck std_normal_cdf short_df 252)) = [PyInt 0]
  /\ printed_numbers "Return on investment: "
       (fst (Backtest.diffCheck std_normal_cdf short_df 252)) = [].
Proof.
  rewrite (BacktestFacts.diffCheck_no_step std_normal_cdf short_df 252
             Demo.short_df_range).
  repeat split; reflexivity.
Qed.

(** On the sample series every payoff is floored to 0, so the ratio
    [netReturn / totalCost] is not positive (it is 0, or NaN for a zero
    cost); the annualized figure is computed from it and printed all the
    same. *)
Lemma annualized_printed_for_zero_ratio :
  let ratio := fdiv (Fin 0) (Fin (0 + demo_call)) in
  flt (Fin 0) ratio = false
  /\ In [PStr "Annualized returns: ";
         PPow (PowNum (NpFloat (c_pow ratio (Fin (1 / (1 / 252))))))]
        (fst (Backtest.diffCheck std_normal_cdf demo_df 252)).
Proof.
  intros ratio. split.
  - unfold ratio. cbn [fdiv]. unfold Reqb, inf_times.
    destruct (Req_dec_T (0 + demo_call) 0) as [Hz | Hz].
    + rewrite !Rltb_false by lra. reflexivity.
    + cbn [flt]. apply Rltb_false. unfold Rdiv. rewrite Rmult_0_l. lra.
  - rewrite Demo.demo_run. cbn [fst]. apply in_or_app. right.
    unfold summary_lines. rewrite Demo.demo_netReturn, Demo.demo_totalCost.
    do 6 right. left. reflexivity.
Qed.

(** Against C8 as stated: on the short series the run has already printed
    four lines, among them the two totals, when it fails, and the failure is
    the [ZeroDivisionError] of the division, not an error raised before the
    loop. *)
Lemma empty_range_prints_then_divides :
  fst (Backtest.diffCheck std_normal_cdf short_df 252) <> []
  /\ List.length (fst (Backtest.diffCheck std_normal_cdf short_df 252)) = 4%nat
  /\ snd (Backtest.diffCheck std_normal_cdf short_df 252) = Raise ZeroDivisionError.
Proof.
  rewrite (BacktestFacts.diffCheck_no_step std_normal_cdf short_df 252
             Demo.short_df_range).
  split; [discriminate | split; reflexivity].
Qed.

End Instances.

(** * Further properties of the code *)

(** ** The pricer on other arguments *)

Module PricerMore.
Section WithCdf.

Variable Phi : R -> R.

Lemma lower_ascii_idempotent (c : ascii) :
  lower_ascii (lower_ascii c) = lower_ascii c.
Proof.
  destruct c as [[] [] [] [] [] [] [] []]; reflexivity.
Qed.

Lemma lower_idempotent (s : string) : lower (lower s) = lower s.
Proof.
  induction s as [|c s IH]; [reflexivity|].
  cbn [lower]. rewrite lower_ascii_idempotent, IH. reflexivity.
Qed.

(** The option type is read without regard to letter case: passing the
    lower-case form of a kind gives the same outcome as the kind itself,
    whatever the numbers are. *)
Theorem black_scholes_price_lower_kind (S K T r sigma : fval) (kind : string) :
  Pricer.black_scholes_price Phi S K T r sigma (lower kind)
  = Pricer.black_scholes_price Phi S K T r sigma kind.
Proof.
  unfold Pricer.black_scholes_price. rewrite lower_idempotent. reflexivity.
Qed.


(** An infinite strike passes the guard, and [S / K] is then 0: with a
    finite positive spot the function raises the [ValueError] of
    [math.log], which is neither of its own two, and it does so before it
    looks at the option type. *)
Theorem black_scholes_price_infinite_strike (S T sigma : R) (r : fval)
  (kind : string) :
  0 < S -> 0 < T -> 0 < sigma ->
  Pricer.black_scholes_price Phi (Fin S) PInf (Fin T) r (Fin sigma) kind
  = Raise (ValueError "math domain error").
Proof.
  intros HS HT Hs. unfold Pricer.black_scholes_price.
  cbn [fle orb]. rewrite !Rleb_false by assumption. cbn [orb].
  cbn [truediv fdiv bind math_log]. rewrite Rltb_false by lra. reflexivity.
Qed.

Lemma d1_scale (c S K T r sigma : R) :
  0 < c -> 0 < K ->
  Spec.d1 (c * S) (c * K) T r sigma = Spec.d1 S K T r sigma.
Proof.
  intros Hc HK. unfold Spec.d1.
  replace (c * S / (c * K)) with (S / K) by (field; lra). reflexivity.
Qed.

(** The price is homogeneous of degree one in spot and strike: multiplying
    S and K by the same positive factor multiplies the call price and the
    put price by that factor. *)
Theorem black_scholes_price_homogeneous (c S K T r sigma : R) (kind : string) :
  0 < c -> 0 < S -> 0 < K -> 0 < T -> 0 < sigma ->
  lower kind = "call"%string \/ lower kind = "put"%string ->
  exists p : R,
    Pricer.black_scholes_price Phi (Fin S) (Fin K) (Fin T) (Fin r) (Fin sigma) kind
    = Ok (Fin p)
    /\ Pricer.black_scholes_price Phi (Fin (c * S)) (Fin (c * K)) (Fin T) (Fin r)
         (Fin sigma) kind
       = Ok (Fin (c * p)).
Proof.
  intros Hc HS HK HT Hs Hkind.
  assert (HcS : 0 < c * S) by (apply Rmult_lt_0_compat; assumption).
  assert (HcK : 0 < c * K) by (apply Rmult_lt_0_compat; assumption).
  rewrite !PricerFacts.price_body by assumption.
  destruct Hkind as [Hk | Hk]; rewrite Hk; cbn [String.eqb Ascii.eqb Bool.eqb].
  - exists (Spec.call Phi S K T r sigma). split; [reflexivity|].
    do 2 f_equal. unfold Spec.call, Spec.d2. rewrite d1_scale by assumption. ring.
  - exists (Spec.put Phi S K T r sigma). split; [reflexivity|].
    do 2 f_equal. unfold Spec.put, Spec.d2. rewrite d1_scale by assumption. ring.
Qed.

End WithCdf.
End PricerMore.

(** ** The volatility estimator on other windows *)

Module VolatilityMore.

Lemma log_returns_scale (c : R) (ps : list R) :
  0 < c -> Forall (fun p => 0 < p) ps ->
  Spec.log_returns (map (Rmult c) ps) = Spec.log_returns ps.
Proof.
  intros Hc Hps. destruct ps as [|p ps]; [reflexivity|].
  revert p Hps. induction ps as [|q ps IH]; intros p Hps; [reflexivity|].
  inversion Hps as [|? ? Hp Hps']; subst.
  change (map (Rmult c) (p :: q :: ps)) with (c * p :: map (Rmult c) (q :: ps)).
  change (Spec.log_returns (c * p :: map (Rmult c) (q :: ps)))
    with (ln (c * q / (c * p)) :: Spec.log_returns (map (Rmult c) (q :: ps))).
  change (Spec.log_returns (p :: q :: ps))
    with (ln (q / p) :: Spec.log_returns (q :: ps)).
  rewrite (IH q Hps').
  replace (c * q / (c * p)) with (q / p) by (field; lra). reflexivity.
Qed.

Lemma Forall_positive_scale (c : R) (ps : list R) :
  0 < c -> Forall (fun p => 0 < p) ps ->
  Forall (fun p => 0 < p) (map (Rmult c) ps).
Proof.
  intros Hc Hps. apply Forall_map. apply Forall_impl with (2 := Hps).
  intros p Hp. apply Rmult_lt_0_compat; assumption.
Qed.

(** The estimate does not depend on the unit of the prices: two frames
    whose windows of positive closes differ by a positive factor have the
    same volatility. *)
Theorem volatility_scale_invariant (df df' : DataFrame) (index : Z)
  (c : R) (ps : list R) :
  (252 <= index)%Z -> 0 < c ->
  Forall (fun p => 0 < p) ps ->
  window_is df index ps ->
  window_is df' index (map (Rmult c) ps) ->
  volatility index df' = volatility index df.
Proof.
  intros Hi Hc Hps Hw Hw'.
  rewrite (VolatilityFacts.volatility_value df index ps Hi Hw Hps).
  rewrite (VolatilityFacts.volatility_value df' index _ Hi Hw'
             (Forall_positive_scale c ps Hc Hps)).
  unfold Spec.trailing_volatility. rewrite log_returns_scale by assumption.
  reflexivity.
Qed.

(** The estimate reads the closes at positions [index-252 .. index-1] and
    nothing else: two frames that agree there give the same outcome, whatever
    their closes at [index] and later are. *)
Theorem volatility_reads_window_only (df df' : DataFrame) (index : Z) :
  (forall k, (k < 252)%nat ->
     nth_error (closes df) (Z.to_nat (index - 252) + k)
     = nth_error (closes df') (Z.to_nat (index - 252) + k)) ->
  volatility index df = volatility index df'.
Proof.
  intros H. unfold volatility.
  destruct (Z.ltb_spec index 252) as [|Hi]; [reflexivity|].
  assert (Hs : slice (closes df) (index - 252) index
               = slice (closes df') (index - 252) index).
  { unfold slice. replace (Z.to_nat (index - (index - 252))) with 252%nat by lia.
    apply nth_error_ext. intros k.
    rewrite !nth_error_firstn, !nth_error_skipn.
    destruct (Nat.ltb_spec k 252); [apply H; assumption | reflexivity]. }
  rewrite Hs. reflexivity.
Qed.

Lemma volatility_short_column (s : Series) :
  (List.length s <= 1)%nat ->
  bind (series_apply math_log (series_div s (shift1 s)))
       (fun applied =>
          bind (math_sqrt (Fin 252))
               (fun root => Ok (fmul (series_std (dropna applied)) root)))
  = Ok NaN.
Proof.
  intros Hlen. destruct s as [|v [|w s]]; [| |cbn [List.length] in Hlen; lia].
  - cbn [shift1 List.length firstn series_div combine map series_apply bind
         math_sqrt dropna filter]. rewrite Rleb_true by lra. reflexivity.
  - cbn [shift1 List.length firstn series_div combine map fst snd].
    assert (Hd : fdiv v NaN = NaN) by (destruct v; reflexivity).
    rewrite Hd.
    cbn [series_apply math_log bind dropna filter isnan negb math_sqrt].
    rewrite Rleb_true by lra. reflexivity.
Qed.

(** There is no check of the index against the end of the column: when at
    most one row lies at or after position [index - 252], the slice holds
    at most one close, no return is left and the result is NaN, not an
    exception. *)
Theorem volatility_past_the_end (df : DataFrame) (index : Z) :
  (252 <= index)%Z ->
  (Z.of_nat (List.length df) <= index - 251)%Z ->
  volatility index df = Ok NaN.
Proof.
  intros Hi Hlen. unfold volatility.
  destruct (Z.ltb_spec index 252) as [|_]; [lia|].
  apply volatility_short_column.
  unfold slice. rewrite length_firstn, length_skipn. unfold closes.
  rewrite length_map. lia.
Qed.

Lemma log_apply_nonpositive (prev : R) (pre : list R) (q : R) (post : list R) :
  0 < prev -> Forall (fun p => 0 < p) pre -> q <= 0 ->
  series_apply math_log
    (series_div (map Fin (pre ++ q :: post))
       (firstn (List.length (pre ++ q :: post))
          (Fin prev :: map Fin (pre ++ q :: post))))
  = Raise math_domain_error.
Proof.
  intros Hprev Hpre Hq. revert prev Hprev.
  induction Hpre as [|p pre Hp _ IH]; intros prev Hprev.
  - cbn [app List.length map]. rewrite firstn_cons.
    rewrite VolatilityFacts.series_div_cons, VolatilityFacts.series_apply_cons.
    cbn [fdiv]. rewrite (Reqb_false prev 0) by lra.
    cbn [math_log]. rewrite Rltb_false; [reflexivity|].
    unfold Rdiv. assert (0 < / prev) by (apply Rinv_0_lt_compat; exact Hprev).
    nra.
  - cbn [app List.length map]. rewrite firstn_cons.
    rewrite VolatilityFacts.series_div_cons, VolatilityFacts.series_apply_cons.
    rewrite VolatilityFacts.math_log_ratio by assumption. cbn [bind].
    change (Fin p :: map Fin (pre ++ q :: post))
      with (Fin p :: map Fin (pre ++ q :: post)).
    rewrite (IH p Hp). reflexivity.
Qed.

(** A close that is zero or negative right after positive closes makes
    [math.log] fail: the call raises [ValueError("math domain error")]. *)
Theorem volatility_nonpositive_close (df : DataFrame) (index : Z)
  (pre : list R) (p q : R) (post : list R) :
  (252 <= index)%Z ->
  window_is df index (pre ++ p :: q :: post) ->
  Forall (fun x => 0 < x) pre -> 0 < p -> q <= 0 ->
  volatility index df = Raise (ValueError "math domain error").
Proof.
  intros Hi Hw Hpre Hp Hq. unfold volatility.
  destruct (Z.ltb_spec index 252) as [|_]; [lia|].
  rewrite (VolatilityFacts.slice_window df index _ Hi Hw).
  assert (Hsplit : exists a l, pre ++ p :: q :: post = a :: l ++ q :: post
                               /\ 0 < a /\ Forall (fun x => 0 < x) l).
  { destruct Hpre as [|a pre Ha Hpre].
    - exists p, []. repeat split; [assumption | constructor].
    - exists a, (pre ++ [p]). cbn [app]. rewrite <- app_assoc. cbn [app].
      repeat split; [assumption|].
      apply Forall_app. split; [assumption | constructor; [assumption | constructor]]. }
  destruct Hsplit as (a & l & -> & Ha & Hl).
  unfold shift1. rewrite length_map.
  change (List.length (a :: l ++ q :: post)) with (S (List.length (l ++ q :: post))).
  change (map Fin (a :: l ++ q :: post)) with (Fin a :: map Fin (l ++ q :: post)).
  rewrite firstn_cons.
  rewrite VolatilityFacts.series_div_cons, VolatilityFacts.series_apply_cons.
  cbn [fdiv math_log bind].
  rewrite (log_apply_nonpositive a l q post Ha Hl Hq). reflexivity.
Qed.

Lemma log_apply_zeros (n : nat) :
  series_apply math_log
    (series_div (repeat (Fin 0) n) (firstn n (Fin 0 :: repeat (Fin 0) n)))
  = Ok (repeat NaN n).
Proof.
  induction n as [|n IH]; [reflexivity|].
  cbn [repeat]. rewrite firstn_cons.
  rewrite VolatilityFacts.series_div_cons, VolatilityFacts.series_apply_cons.
  change (Fin 0 :: repeat (Fin 0) n) with (repeat (Fin 0) (S n)) in IH.
  cbn [repeat] in IH. rewrite IH.
  cbn [fdiv]. rewrite Reqb_true by reflexivity. unfold inf_times.
  rewrite !Rltb_false by lra. reflexivity.
Qed.

Lemma dropna_nans (n : nat) : dropna (repeat NaN n) = [].
Proof.
  induction n as [|n IH]; [reflexivity|].
  cbn [repeat dropna filter isnan negb]. exact IH.
Qed.

(** On a window whose closes are all zero every ratio is [0 / 0]: all
    returns are NaN and dropped, and the result is NaN, not 0 and not an
    exception. *)
Theorem volatility_zero_closes (df : DataFrame) (index : Z) :
  (252 <= index)%Z ->
  window_is df index (repeat 0 252) ->
  volatility index df = Ok NaN.
Proof.
  intros Hi Hw. unfold volatility.
  destruct (Z.ltb_spec index 252) as [|_]; [lia|].
  rewrite (VolatilityFacts.slice_window df index _ Hi Hw).
  rewrite map_repeat. unfold shift1. rewrite repeat_length.
  change (repeat (Fin 0) 252) with (Fin 0 :: repeat (Fin 0) 251).
  rewrite firstn_cons.
  rewrite VolatilityFacts.series_div_cons, VolatilityFacts.series_apply_cons.
  rewrite (log_apply_zeros 251).
  cbn [fdiv math_log bind].
  change (dropna (NaN :: repeat NaN 251)) with (dropna (repeat NaN 252)).
  rewrite dropna_nans. cbn [math_sqrt]. rewrite Rleb_true by lra.
  reflexivity.
Qed.

Lemma Rsum_cons (x : R) (xs : list R) : Spec.Rsum (x :: xs) = x + Spec.Rsum xs.
Proof. reflexivity. Qed.

Lemma Rsum_all_equal (a : R) (xs : list R) :
  (forall x, In x xs -> x = a) -> Spec.Rsum xs = INR (List.length xs) * a.
Proof.
  induction xs as [|x xs IH]; intros H.
  - cbn. ring.
  - rewrite Rsum_cons, IH by (intros y Hy; apply H; right; exact Hy).
    rewrite (H x (or_introl eq_refl)).
    change (List.length (a :: xs)) with (S (List.length xs)). rewrite S_INR. ring.
Qed.

Lemma Rsum_squares_zero (m : R) (xs : list R) :
  Spec.Rsum (map (fun x => (x - m) ^ 2) xs) = 0 <-> (forall x, In x xs -> x = m).
Proof.
  induction xs as [|x xs IH].
  - split; [intros _ y [] | reflexivity].
  - cbn [map]. rewrite Rsum_cons.
    pose proof (VolatilityFacts.Rsum_squares_nonneg m xs) as Hrest.
    pose proof (pow2_ge_0 (x - m)) as Hx.
    split.
    + intros H y [<- | Hy].
      * assert (Hsq : (x - m) ^ 2 = 0) by lra.
        rewrite <- Rsqr_pow2 in Hsq. apply Rsqr_0_uniq in Hsq. lra.
      * apply IH; [lra | exact Hy].
    + intros H. rewrite (H x (or_introl eq_refl)).
      replace (Spec.Rsum (map (fun x0 => (x0 - m) ^ 2) xs)) with 0.
      * ring.
      * symmetry. apply IH. intros y Hy. apply H. right. exact Hy.
Qed.

Lemma sample_std_zero_iff (xs : list R) :
  (2 <= List.length xs)%nat ->
  Spec.sample_std xs = 0 <-> (forall x y, In x xs -> In y xs -> x = y).
Proof.
  intros Hlen. unfold Spec.sample_std.
  assert (Hn : 0 < INR (List.length xs) - 1).
  { assert (2 <= INR (List.length xs)) by (apply (le_INR 2); exact Hlen). lra. }
  pose proof (VolatilityFacts.Rsum_squares_nonneg (Spec.mean xs) xs) as Hsum.
  split.
  - intros H x y Hx Hy. apply sqrt_eq_0 in H.
    + assert (Hz : Spec.Rsum (map (fun x0 => (x0 - Spec.mean xs) ^ 2) xs) = 0).
      { unfold Rdiv in H. apply Rmult_integral in H. destruct H as [H | H];
          [exact H|]. exfalso. apply (Rinv_neq_0_compat (INR (List.length xs) - 1));
          [lra | exact H]. }
      rewrite Rsum_squares_zero in Hz.
      rewrite (Hz x Hx), (Hz y Hy). reflexivity.
    + apply Rmult_le_pos; [exact Hsum | apply Rlt_le, Rinv_0_lt_compat, Hn].
  - intros H. destruct xs as [|a xs]; [cbn [List.length] in Hlen; lia|].
    assert (Hall : forall x, In x (a :: xs) -> x = a)
      by (intros x Hx; apply H; [exact Hx | left; reflexivity]).
    assert (Hmean : Spec.mean (a :: xs) = a).
    { unfold Spec.mean. rewrite (Rsum_all_equal a) by exact Hall. field. lra. }
    rewrite Hmean.
    replace (Spec.Rsum (map (fun x => (x - a) ^ 2) (a :: xs))) with 0.
    + unfold Rdiv. rewrite Rmult_0_l. apply sqrt_0.
    + symmetry. apply Rsum_squares_zero. exact Hall.
Qed.

(** On a window of positive closes the estimate is a number that is never
    negative, and it is zero exactly when all daily log returns of the
    window are equal, that is when the closes grow by a constant factor. *)
Theorem volatility_zero_iff_constant_growth (df : DataFrame) (index : Z)
  (ps : list R) :
  (252 <= index)%Z ->
  window_is df index ps ->
  Forall (fun p => 0 < p) ps ->
  exists v : R,
    volatility index df = Ok (Fin v)
    /\ 0 <= v
    /\ (v = 0 <->
        forall x y, In x (Spec.log_returns ps) -> In y (Spec.log_returns ps) ->
                    x = y).
Proof.
  intros Hi Hw Hps. exists (Spec.trailing_volatility ps).
  split; [apply VolatilityFacts.volatility_value; assumption|].
  assert (Hlen : (2 <= List.length (Spec.log_returns ps))%nat).
  { rewrite VolatilityFacts.log_returns_length. destruct Hw as [-> _]. lia. }
  assert (Hroot : 0 < sqrt 252) by (apply sqrt_lt_R0; lra).
  unfold Spec.trailing_volatility. split.
  - apply Rmult_le_pos; [apply sqrt_pos | lra].
  - rewrite <- (sample_std_zero_iff _ Hlen). split.
    + intros H. apply Rmult_integral in H. destruct H; [assumption | lra].
    + intros ->. ring.
Qed.

End VolatilityMore.

(** ** The backtest on other inputs *)

Module BacktestMore.
Section WithCdf.

Variable Phi : R -> R.

Lemma range_cons (a b : Z) :
  (a < b)%Z -> range a b = a :: range (a + 1) b.
Proof.
  intros H. unfold range.
  replace (Z.to_nat (b - a)) with (S (Z.to_nat (b - (a + 1)))) by lia.
  cbn [seq map]. f_equal; [lia|].
  rewrite <- seq_shift, map_map. apply map_ext. intros k. lia.
Qed.

Lemma getitem_ok {A : Type} (s : list A) (i : Z) :
  (0 <= i < Z.of_nat (List.length s))%Z -> exists v, getitem s i = Ok v.
Proof.
  intros Hi. unfold getitem. destruct (Z.ltb_spec i 0); [lia|].
  destruct (nth_error s (Z.to_nat i)) as [v|] eqn:Hn; [exists v; reflexivity|].
  apply nth_error_None in Hn. lia.
Qed.

Lemma closes_df_length (df : DataFrame) : List.length (closes df) = List.length df.
Proof. unfold closes. apply length_map. Qed.

Lemma dates_df_length (df : DataFrame) : List.length (dates df) = List.length df.
Proof. unfold dates. apply length_map. Qed.

(** A run whose first step raises before it prints. *)
Lemma diffCheck_first_step_raises (df : DataFrame) (start_index : Z) (e : exn) :
  (start_index < Z.of_nat (List.length df) - 252)%Z ->
  Backtest.diffCheck_body Phi df start_index initial_locals = ([], Raise e) ->
  Backtest.diffCheck Phi df start_index = ([], Raise e).
Proof.
  intros Hlt Hbody. unfold Backtest.diffCheck, Backtest.diffCheck_loop.
  rewrite range_cons by exact Hlt. cbn [for_each].
  fold initial_locals. rewrite Hbody. reflexivity.
Qed.

(** A start index in [0, 252), with a non-empty range, stops the run at its
    first step: the close is read, [volatility] raises its "index too low"
    error, and nothing has been printed. *)
Theorem diffCheck_start_below_252 (df : DataFrame) (start_index : Z) :
  (0 <= start_index < 252)%Z ->
  (start_index < Z.of_nat (List.length df) - 252)%Z ->
  Backtest.diffCheck Phi df start_index
  = ([], Raise (ValueError "Index too low for trailing volatility calculation")).
Proof.
  intros Hlo Hhi. apply diffCheck_first_step_raises; [exact Hhi|].
  unfold Backtest.diffCheck_body.
  destruct (getitem_ok (closes df) start_index) as [S HS].
  { rewrite closes_df_length. lia. }
  rewrite HS. cbn [lift rbind]. unfold volatility.
  destruct (Z.ltb_spec start_index 252); [reflexivity | lia].
Qed.

(** A negative start index, with a non-empty range, stops the run at its
    first step with the [KeyError] of the lookup [df['Close/Last'][i]];
    nothing has been printed. *)
Theorem diffCheck_negative_start (df : DataFrame) (start_index : Z) :
  (start_index < 0)%Z ->
  (start_index < Z.of_nat (List.length df) - 252)%Z ->
  Backtest.diffCheck Phi df start_index = ([], Raise (KeyError start_index)).
Proof.
  intros Hneg Hhi. apply diffCheck_first_step_raises; [exact Hhi|].
  unfold Backtest.diffCheck_body, getitem.
  destruct (Z.ltb_spec start_index 0); [reflexivity | lia].
Qed.

Lemma body_printed_indices (df : DataFrame) (i : Z) (st : Backtest.locals) :
  printed_indices (fst (Backtest.diffCheck_body Phi df i st)) = []
  \/ printed_indices (fst (Backtest.diffCheck_body Phi df i st)) = [i].
Proof.
  unfold Backtest.diffCheck_body.
  destruct (getitem (closes df) i) as [S | e]; cbn [lift rbind]; [|left; reflexivity].
  destruct (volatility i df) as [vol | e]; cbn [lift rbind app];
    [|left; reflexivity].
  destruct (Pricer.black_scholes_price _ _ _ _ _ _ _) as [cp | e];
    cbn [lift rbind app]; [|left; reflexivity].
  destruct (getitem (closes df) (i + 252)) as [fwd | e];
    cbn [lift rbind app print]; [|left; reflexivity].
  right.
  destruct (getitem (dates df) i) as [date | e];
    cbn [lift rbind app print]; [|reflexivity].
  destruct (getitem (closes df) (i + 252)) as [fwd' | e];
    cbn [lift rbind app print ret]; reflexivity.
Qed.

Lemma printed_indices_app (o1 o2 : list line) :
  printed_indices (o1 ++ o2) = printed_indices o1 ++ printed_indices o2.
Proof. apply BacktestFacts.filter_map_app. Qed.

(** Whatever happens, the steps printed by the loop are an initial segment
    of its range. *)
Lemma for_each_printed_prefix (df : DataFrame) (l : list Z) (st : Backtest.locals) :
  exists k,
    printed_indices (fst (for_each l (Backtest.diffCheck_body Phi df) st))
    = firstn k l.
Proof.
  revert st. induction l as [|i l IH]; intros st.
  - exists 0%nat. reflexivity.
  - cbn [for_each].
    destruct (Backtest.diffCheck_body Phi df i st) as [o1 [st1 | e]] eqn:Hb.
    + destruct (BacktestFacts.body_inv Phi df i st st1 o1 Hb)
        as (s & Hi & _ & -> & _).
      destruct (IH st1) as [k Hk]. cbn [rbind].
      destruct (for_each l (Backtest.diffCheck_body Phi df) st1) as [o2 r2].
      cbn [fst] in *. exists (S k).
      rewrite printed_indices_app, Hk, <- Hi. reflexivity.
    + cbn [rbind fst].
      destruct (body_printed_indices df i st) as [H | H];
        rewrite Hb in H; cbn [fst] in H; rewrite H.
      * exists 0%nat. reflexivity.
      * exists 1%nat. reflexivity.
Qed.

Lemma summary_no_index (df : DataFrame) (start_index : Z) (totalProfit : pynum)
  (st : Backtest.locals) :
  printed_indices (fst (Backtest.diffCheck_summary df start_index totalProfit st))
  = [].
Proof.
  unfold Backtest.diffCheck_summary. cbn [print rbind lift app].
  assert (Hnum : forall (label : string) (v : pynum),
            (label =? "Index: ")%string = false ->
            index_of_line [PStr label; PNum v] = None).
  { intros label v Hl. cbn [index_of_line]. rewrite Hl. destruct v; reflexivity. }
  destruct (py_truediv (py_sub _ _) _) as [roi | e]; cbn [rbind app fst].
  2:{ unfold printed_indices. cbn [filter_map].
      rewrite !Hnum by reflexivity. reflexivity. }
  destruct (py_truediv (PyInt _) _) as [years | e]; cbn [rbind app fst].
  2:{ unfold printed_indices. cbn [filter_map].
      rewrite !Hnum by reflexivity. reflexivity. }
  destruct (py_truediv (Backtest.netReturn st) _) as [ratio | e];
    cbn [rbind app fst].
  2:{ unfold printed_indices. cbn [filter_map].
      rewrite !Hnum by reflexivity. reflexivity. }
  destruct (py_truediv (PyInt 1) years) as [ex | e]; cbn [rbind app fst].
  2:{ unfold printed_indices. cbn [filter_map].
      rewrite !Hnum by reflexivity. reflexivity. }
  destruct (py_pow ratio ex) as [a | e]; cbn [rbind app fst ret];
    unfold printed_indices; cbn [filter_map];
    rewrite !Hnum by reflexivity; reflexivity.
Qed.

(** The steps a run prints are always the first [k] indices of
    [range(start, len - 252)], in order, for some [k]; and when a step
    raises, the run ends there with the exception of the step and the lines
    printed so far: no summary line follows. *)
Theorem diffCheck_prints_a_prefix (df : DataFrame) (start_index : Z) :
  (exists k,
     printed_indices (fst (Backtest.diffCheck Phi df start_index))
     = firstn k (range start_index (Z.of_nat (List.length df) - 252)))
  /\ (forall out e,
        Backtest.diffCheck_loop Phi df start_index = (out, Raise e) ->
        Backtest.diffCheck Phi df start_index = (out, Raise e)).
Proof.
  split.
  - destruct (for_each_printed_prefix df
                (range start_index (Z.of_nat (List.length df) - 252))
                initial_locals) as [k Hk].
    exists k. unfold Backtest.diffCheck.
    fold initial_locals in Hk |- *.
    change (for_each (range start_index (Z.of_nat (List.length df) - 252))
              (Backtest.diffCheck_body Phi df) initial_locals)
      with (Backtest.diffCheck_loop Phi df start_index) in Hk.
    destruct (Backtest.diffCheck_loop Phi df start_index) as [out [st | e]];
      cbn [rbind fst] in *; [|exact Hk].
    pose proof (summary_no_index df start_index (PyInt 0) st) as Hs.
    destruct (Backtest.diffCheck_summary df start_index (PyInt 0) st) as [out' r].
    cbn [fst] in *. rewrite printed_indices_app, Hs, app_nil_r. exact Hk.
  - intros out e H. unfold Backtest.diffCheck. rewrite H. reflexivity.
Qed.

Lemma printed_call_price_steps (steps : list step) :
  printed_numbers "Call Price: " (flat_map step_lines steps)
  = map (fun s => NpFloat (s_callPrice s)) steps.
Proof.
  unfold printed_numbers.
  induction steps as [|s steps IH]; [reflexivity|].
  cbn [flat_map map]. rewrite BacktestFacts.filter_map_app, IH. reflexivity.
Qed.

Lemma printed_total_cost_steps (steps : list step) :
  printed_numbers "Total Cost: " (flat_map step_lines steps) = [].
Proof.
  unfold printed_numbers.
  induction steps as [|s steps IH]; [reflexivity|].
  cbn [flat_map]. rewrite BacktestFacts.filter_map_app, IH. reflexivity.
Qed.

Lemma loop_steps_cases (df : DataFrame) (start_index : Z) (steps : list step) :
  map s_index steps = range start_index (Z.of_nat (List.length df) - 252) ->
  (steps = [] /\ (Z.of_nat (List.length df) - 252 <= start_index)%Z)
  \/ (steps <> [] /\ (start_index < Z.of_nat (List.length df) - 252)%Z).
Proof.
  intros Hidx.
  assert (Hlen : List.length steps
                 = Z.to_nat (Z.of_nat (List.length df) - 252 - start_index)).
  { rewrite <- (length_map s_index), Hidx. apply BacktestFacts.range_length. }
  destruct steps as [|s steps]; cbn [List.length] in Hlen.
  - left. split; [reflexivity | lia].
  - right. split; [discriminate | lia].
Qed.

(** In a run whose loop ends normally, the call prices printed step by step
    are the entries of [callPrices], and the total cost printed after the
    loop is their sum, added in the order of the steps to the integer 0. *)
Theorem diffCheck_total_cost_is_sum (df : DataFrame) (start_index : Z)
  (out : list line) (st : Backtest.locals) :
  Backtest.diffCheck_loop Phi df start_index = (out, Ok st) ->
  printed_numbers "Call Price: " (fst (Backtest.diffCheck Phi df start_index))
  = map NpFloat (Backtest.callPrices st)
  /\ printed_numbers "Total Cost: " (fst (Backtest.diffCheck Phi df start_index))
     = [fold_left py_add (map NpFloat (Backtest.callPrices st)) (PyInt 0)].
Proof.
  intros Hloop.
  destruct (BacktestFacts.loop_inv Phi df start_index out st Hloop)
    as (steps & Hidx & _ & Hout & Hst).
  assert (Hcalls : map NpFloat (Backtest.callPrices st)
                   = map (fun s => NpFloat (s_callPrice s)) steps).
  { rewrite Hst, BacktestFacts.callPrices_steps. cbn [initial_locals
      Backtest.callPrices app]. apply map_map. }
  assert (Hcost : Backtest.totalCost st
                  = fold_left py_add (map NpFloat (Backtest.callPrices st)) (PyInt 0)).
  { rewrite Hcalls, Hst, BacktestFacts.totalCost_steps. reflexivity. }
  destruct (loop_steps_cases df start_index steps Hidx) as [[-> Hle] | [Hne Hlt]].
  - rewrite (BacktestFacts.diffCheck_no_step Phi df start_index Hle).
    rewrite Hst. split; reflexivity.
  - rewrite (BacktestFacts.diffCheck_after_loop Phi df start_index out st Hloop).
    rewrite BacktestFacts.summary_np;
      [|rewrite Hst; apply BacktestFacts.totalCost_is_np; exact Hne | exact Hlt].
    cbn [fst]. unfold printed_numbers. rewrite !BacktestFacts.filter_map_app.
    fold (printed_numbers "Call Price: " out) (printed_numbers "Total Cost: " out).
    rewrite Hout at 1 2. rewrite printed_call_price_steps, printed_total_cost_steps.
    rewrite <- Hcalls, <- Hcost. unfold summary_lines.
    split; [rewrite app_nil_r|]; reflexivity.
Qed.

Lemma to_fval_py_add (a b : pynum) :
  to_fval (py_add a b) = fadd (to_fval a) (to_fval b).
Proof.
  destruct a as [x | v | v], b as [y | w | w];
    cbn [py_add py_arith is_np orb to_fval]; try reflexivity.
  cbn [fadd]. rewrite plus_IZR. reflexivity.
Qed.

Lemma payoffs_sum_nonneg (ds : list R) (a : pynum) (x : R) :
  to_fval a = Fin x -> 0 <= x ->
  exists y, to_fval (fold_left py_add (map (fun d => max_with_zero (Fin d)) ds) a)
            = Fin y /\ 0 <= y.
Proof.
  revert a x. induction ds as [|d ds IH]; intros a x Ha Hx; cbn [map fold_left].
  - exists x. split; assumption.
  - apply (IH _ (x + Rmax d 0)).
    + rewrite to_fval_py_add, Ha, BacktestFacts.max_with_zero_fin. reflexivity.
    + pose proof (Rmax_r d 0). lra.
Qed.

(** On finite closes, the realized payoffs accumulated in [netReturn] are
    floored one by one, so their sum is never negative when the loop ends
    normally. *)
Theorem diffCheck_net_return_nonnegative (df : DataFrame) (cs : list R)
  (start_index : Z) (out : list line) (st : Backtest.locals) :
  closes df = map Fin cs ->
  Backtest.diffCheck_loop Phi df start_index = (out, Ok st) ->
  exists y : R, to_fval (Backtest.netReturn st) = Fin y /\ 0 <= y.
Proof.
  intros Hcs Hloop.
  destruct (BacktestFacts.loop_inv Phi df start_index out st Hloop)
    as (steps & _ & Hsteps & _ & Hst).
  rewrite Hst, BacktestFacts.netReturn_steps.
  cbn [initial_locals Backtest.netReturn].
  assert (Hfin : exists ds,
            map (fun s => max_with_zero (fsub (s_fwd s) (fmul (Fin 1.05) (s_S s))))
                steps
            = map (fun d => max_with_zero (Fin d)) ds).
  { clear Hst. induction Hsteps as [|s steps Hs _ IH].
    - exists []. reflexivity.
    - destruct IH as [ds Hds].
      destruct Hs as (HS & _ & _ & Hfwd & _).
      assert (Hget : forall i v, getitem (closes df) i = Ok v -> exists x, v = Fin x).
      { intros i v. unfold getitem. destruct (i <? 0)%Z; [discriminate|].
        rewrite Hcs, nth_error_map.
        destruct (nth_error cs (Z.to_nat i)) as [x|]; cbn [option_map];
          [|discriminate].
        intros H. inversion H. exists x. reflexivity. }
      destruct (Hget _ _ HS) as [x Hx]. destruct (Hget _ _ Hfwd) as [f Hf].
      exists ((f + - (1.05 * x)) :: ds). cbn [map]. rewrite Hds, Hx, Hf.
      reflexivity. }
  destruct Hfin as [ds ->].
  apply (payoffs_sum_nonneg ds (PyInt 0) 0); [reflexivity | lra].
Qed.

(** A first window of constant positive closes has volatility 0: the pricer
    rejects it, and the run ends at its first step with the pricer's
    [ValueError], before anything is printed. *)
Theorem diffCheck_zero_volatility_aborts (df : DataFrame) (start_index : Z)
  (c : R) :
  (252 <= start_index < Z.of_nat (List.length df) - 252)%Z ->
  0 < c ->
  window_is df start_index (repeat c 252) ->
  Backtest.diffCheck Phi df start_index
  = ([], Raise (ValueError "S, K, T, and sigma must be greater than 0.")).
Proof.
  intros Hi Hc Hw. apply diffCheck_first_step_raises; [lia|].
  unfold Backtest.diffCheck_body.
  destruct (getitem_ok (closes df) start_index) as [S HS].
  { rewrite closes_df_length. lia. }
  rewrite HS. cbn [lift rbind].
  assert (Hps : Forall (fun p => 0 < p) (repeat c 252)).
  { apply Forall_forall. intros p Hp. apply repeat_spec in Hp. subst. exact Hc. }
  rewrite (VolatilityFacts.volatility_value df start_index (repeat c 252))
    by (lia || assumption).
  cbn [lift rbind].
  assert (Hvol : Spec.trailing_volatility (repeat c 252) = 0).
  { unfold Spec.trailing_volatility.
    rewrite VolatilityFacts.log_returns_repeat by lra.
    rewrite VolatilityFacts.sample_std_repeat_0. ring. }
  rewrite Hvol. unfold Pricer.black_scholes_price.
  cbn [fle]. rewrite (Rleb_false 1 0) by lra. rewrite (Rleb_true 0 0) by lra.
  reflexivity.
Qed.

Lemma fmul_comm (a b : fval) : fmul a b = fmul b a.
Proof.
  destruct a as [x| | |], b as [y| | |]; cbn [fmul]; try reflexivity.
  f_equal. ring.
Qed.

Lemma plot_body_ok (df : DataFrame) (s : step) (acc : list fval * list fval) :
  step_of Phi df s ->
  Backtest.plot_body Phi df (s_index s) acc
  = ([], Ok (fst acc ++ [s_callPrice s], snd acc ++ [s_yearlyProfit s])).
Proof.
  intros (HS & Hvol & Hcp & Hfwd & _). unfold Backtest.plot_body.
  rewrite HS. cbn [lift rbind]. rewrite Hvol. cbn [lift rbind].
  unfold s_K in Hcp. rewrite Hcp. cbn [lift rbind]. rewrite Hfwd.
  cbn [lift rbind ret app]. unfold s_yearlyProfit.
  rewrite (fmul_comm (s_S s)). reflexivity.
Qed.

Lemma plot_loop_ok (df : DataFrame) (steps : list step) (acc : list fval * list fval) :
  Forall (step_of Phi df) steps ->
  for_each (map s_index steps) (Backtest.plot_body Phi df) acc
  = ([], Ok (fst acc ++ map s_callPrice steps,
             snd acc ++ map s_yearlyProfit steps)).
Proof.
  intros H. revert acc. induction H as [|s steps Hs _ IH]; intros acc.
  - cbn [map for_each ret]. rewrite !app_nil_r. destruct acc; reflexivity.
  - cbn [map for_each]. rewrite (plot_body_ok df s acc Hs). cbn [rbind].
    rewrite IH. cbn [fst snd app]. rewrite <- !app_assoc. reflexivity.
Qed.

(** [plot_call_price_vs_profit] recomputes the steps of [diffCheck(252)]:
    when the loop of [diffCheck] from 252 ends normally, the plot loop ends
    normally too, its call prices are the list [callPrices] of [diffCheck]
    and its profits are the yearly profits [diffCheck] has printed. *)
Theorem plot_matches_diffCheck (df : DataFrame) (out : list line)
  (st : Backtest.locals) :
  Backtest.diffCheck_loop Phi df 252 = (out, Ok st) ->
  exists yearly_profits,
    Backtest.plot_call_price_vs_profit Phi df
    = ([], Ok (Backtest.callPrices st, yearly_profits))
    /\ map NpFloat yearly_profits = printed_numbers "Yearly Profit: " out.
Proof.
  intros Hloop.
  destruct (BacktestFacts.loop_inv Phi df 252 out st Hloop)
    as (steps & Hidx & Hsteps & Hout & Hst).
  exists (map s_yearlyProfit steps). split.
  - unfold Backtest.plot_call_price_vs_profit. rewrite <- Hidx.
    rewrite (plot_loop_ok df steps ([], []) Hsteps). cbn [fst snd app].
    rewrite Hst, BacktestFacts.callPrices_steps. reflexivity.
  - rewrite Hout, BacktestFacts.printed_profit_steps. apply map_map.
Qed.

(** On a frame of at most 504 rows the plot loops have an empty range and
    return empty lists without raising, while [diffCheck(252)] on the same
    frame ends in [ZeroDivisionError]. *)
Theorem plots_on_short_frame (df : DataFrame) :
  (List.length df <= 504)%nat ->
  Backtest.plot_call_price_vs_profit Phi df = ([], Ok ([], []))
  /\ TimeSeries.plot_time_series Phi df = ([], Ok ([], [], []))
  /\ snd (Backtest.diffCheck Phi df 252) = Raise ZeroDivisionError.
Proof.
  intros Hlen.
  assert (Hr : range 252 (Z.of_nat (List.length df) - 252) = [])
    by (apply BacktestFacts.range_empty; lia).
  split; [|split].
  - unfold Backtest.plot_call_price_vs_profit. rewrite Hr. reflexivity.
  - unfold TimeSeries.plot_time_series. rewrite Hr. reflexivity.
  - rewrite BacktestFacts.diffCheck_no_step by lia. reflexivity.
Qed.

Lemma getitem_dates_closes (df : DataFrame) (i : Z) :
  (exists d v, getitem (dates df) i = Ok d /\ getitem (closes df) i = Ok v)
  \/ (getitem (dates df) i = Raise (KeyError i)
      /\ getitem (closes df) i = Raise (KeyError i)).
Proof.
  unfold getitem. destruct (i <? 0)%Z; [right; split; reflexivity|].
  destruct (nth_error (dates df) (Z.to_nat i)) as [d|] eqn:Hd;
    destruct (nth_error (closes df) (Z.to_nat i)) as [v|] eqn:Hv.
  - left. exists d, v. split; reflexivity.
  - exfalso. apply nth_error_None in Hv. rewrite closes_df_length in Hv.
    assert (Hsome : nth_error (dates df) (Z.to_nat i) <> None) by congruence.
    apply nth_error_Some in Hsome. rewrite dates_df_length in Hsome. lia.
  - exfalso. apply nth_error_None in Hd. rewrite dates_df_length in Hd.
    assert (Hsome : nth_error (closes df) (Z.to_nat i) <> None) by congruence.
    apply nth_error_Some in Hsome. rewrite closes_df_length in Hsome. lia.
  - right. split; reflexivity.
Qed.

Lemma time_series_body_without_dates (df : DataFrame) (i : Z)
  (ds : list string) (cps pfs : list fval) :
  without_dates (TimeSeries.plot_time_series_body Phi df i (ds, cps, pfs))
  = Backtest.plot_body Phi df i (cps, pfs)
  /\ (forall ds' cps' pfs',
        TimeSeries.plot_time_series_body Phi df i (ds, cps, pfs)
        = ([], Ok (ds', cps', pfs')) ->
        exists d, getitem (dates df) i = Ok d /\ ds' = ds ++ [d]).
Proof.
  unfold TimeSeries.plot_time_series_body, Backtest.plot_body.
  destruct (getitem_dates_closes df i) as [(d & v & -> & ->) | [-> ->]];
    cbn [lift rbind fst snd]; [|split; [reflexivity | discriminate]].
  destruct (volatility i df) as [vol | e]; cbn [lift rbind app];
    [|split; [reflexivity | discriminate]].
  destruct (Pricer.black_scholes_price _ _ _ _ _ _ _) as [cp | e];
    cbn [lift rbind app]; [|split; [reflexivity | discriminate]].
  destruct (getitem (closes df) (i + 252)) as [fwd | e];
    cbn [lift rbind app ret]; [|split; [reflexivity | discriminate]].
  split; [reflexivity|].
  intros ds' cps' pfs' H. inversion H; subst. exists d. split; reflexivity.
Qed.

Lemma Forall2_nth_error {A B : Type} (P : A -> B -> Prop) (l : list A)
  (l' : list B) :
  Forall2 P l l' ->
  forall k a b, nth_error l k = Some a -> nth_error l' k = Some b -> P a b.
Proof.
  induction 1 as [|x y l l' Hxy _ IH]; intros k a b Ha Hb.
  - destruct k; discriminate.
  - destruct k as [|k]; cbn [nth_error] in Ha, Hb.
    + inversion Ha; inversion Hb; subst. exact Hxy.
    + exact (IH k a b Ha Hb).
Qed.

Lemma time_series_body_inv (df : DataFrame) (i : Z)
  (ds : list string) (cps pfs : list fval) (out : list line)
  (ds' : list string) (cps' pfs' : list fval) :
  TimeSeries.plot_time_series_body Phi df i (ds, cps, pfs)
  = (out, Ok (ds', cps', pfs')) ->
  out = []
  /\ exists d cp pf,
       getitem (dates df) i = Ok d
       /\ ds' = ds ++ [d] /\ cps' = cps ++ [cp] /\ pfs' = pfs ++ [pf].
Proof.
  unfold TimeSeries.plot_time_series_body.
  destruct (getitem (dates df) i) as [d | e]; cbn [lift rbind]; [|discriminate].
  destruct (getitem (closes df) i) as [S | e]; cbn [lift rbind app];
    [|discriminate].
  destruct (volatility i df) as [vol | e]; cbn [lift rbind app]; [|discriminate].
  destruct (Pricer.black_scholes_price _ _ _ _ _ _ _) as [cp | e];
    cbn [lift rbind app]; [|discriminate].
  destruct (getitem (closes df) (i + 252)) as [fwd | e];
    cbn [lift rbind app ret]; [|discriminate].
  intros H. inversion H; subst. split; [reflexivity|].
  eexists d, cp, _. repeat split; reflexivity.
Qed.

Lemma time_series_loop_without_dates (df : DataFrame) (l : list Z)
  (ds : list string) (cps pfs : list fval) :
  without_dates (for_each l (TimeSeries.plot_time_series_body Phi df) (ds, cps, pfs))
  = for_each l (Backtest.plot_body Phi df) (cps, pfs).
Proof.
  revert ds cps pfs. induction l as [|i l IH]; intros ds cps pfs; [reflexivity|].
  cbn [for_each].
  destruct (time_series_body_without_dates df i ds cps pfs) as [Hb _].
  destruct (TimeSeries.plot_time_series_body Phi df i (ds, cps, pfs))
    as [o [[[ds' cps'] pfs'] | e]]; cbn [without_dates] in Hb; rewrite <- Hb;
    cbn [rbind]; [|reflexivity].
  specialize (IH ds' cps' pfs').
  destruct (for_each l (TimeSeries.plot_time_series_body Phi df) (ds', cps', pfs'))
    as [o2 [[[ds2 cps2] pfs2] | e2]]; cbn [without_dates] in IH |- *;
    rewrite <- IH; reflexivity.
Qed.

Lemma time_series_loop_inv (df : DataFrame) (l : list Z)
  (ds : list string) (cps pfs : list fval) (out : list line)
  (ds' : list string) (cps' pfs' : list fval) :
  for_each l (TimeSeries.plot_time_series_body Phi df) (ds, cps, pfs)
  = (out, Ok (ds', cps', pfs')) ->
  (exists dl, Forall2 (fun i d => getitem (dates df) i = Ok d) l dl
              /\ ds' = ds ++ dl)
  /\ List.length cps' = (List.length cps + List.length l)%nat
  /\ List.length pfs' = (List.length pfs + List.length l)%nat.
Proof.
  revert ds cps pfs out. induction l as [|i l IH]; intros ds cps pfs out H.
  - cbn [for_each ret] in H. inversion H; subst. split.
    + exists []. split; [constructor | rewrite app_nil_r; reflexivity].
    + cbn [List.length]. lia.
  - cbn [for_each] in H. apply BacktestFacts.rbind_ok_inv in H.
    destruct H as (o1 & [[ds1 cps1] pfs1] & o2 & Hb & Hl & _).
    apply time_series_body_inv in Hb.
    destruct Hb as (_ & d & cp & pf & Hd & -> & -> & ->).
    apply IH in Hl. destruct Hl as ((dl & Hdl & ->) & Hc & Hp).
    split.
    + exists (d :: dl). split; [constructor; assumption|].
      rewrite <- app_assoc. reflexivity.
    + rewrite Hc, Hp, !length_app. cbn [List.length]. lia.
Qed.

(** [plot_time_series] computes the call prices and profits of
    [plot_call_price_vs_profit], and fails exactly when it fails, with the
    same exception; when it succeeds its three lists have one entry per
    index of [range(252, len - 252)] and the k-th date is the date of row
    [252 + k]. *)
Theorem plot_time_series_matches_plot (df : DataFrame) :
  without_dates (TimeSeries.plot_time_series Phi df)
  = Backtest.plot_call_price_vs_profit Phi df
  /\ (forall out ds cps pfs,
        TimeSeries.plot_time_series Phi df = (out, Ok (ds, cps, pfs)) ->
        let n := Z.to_nat (Z.of_nat (List.length df) - 504) in
        List.length ds = n /\ List.length cps = n /\ List.length pfs = n
        /\ forall k, (k < n)%nat ->
             nth_error ds k = nth_error (dates df) (252 + k)).
Proof.
  split; [apply time_series_loop_without_dates|].
  intros out ds cps pfs H n. unfold TimeSeries.plot_time_series in H.
  apply time_series_loop_inv in H. destruct H as ((dl & Hdl & Hds) & Hc & Hp).
  cbn [app List.length] in Hds, Hc, Hp. subst ds.
  rewrite BacktestFacts.range_length in Hc, Hp.
  assert (Hn : Z.to_nat (Z.of_nat (List.length df) - 252 - 252) = n)
    by (unfold n; f_equal; lia).
  rewrite Hn in Hc, Hp.
  assert (Hlen : List.length dl = n).
  { rewrite <- (Forall2_length Hdl), BacktestFacts.range_length. exact Hn. }
  split; [exact Hlen|]. split; [exact Hc|]. split; [exact Hp|].
  intros k Hk.
  assert (Hi : nth_error (range 252 (Z.of_nat (List.length df) - 252)) k
               = Some (252 + Z.of_nat k)%Z)
    by (apply BacktestFacts.range_nth; lia).
  destruct (nth_error dl k) as [d|] eqn:Hd.
  2:{ apply nth_error_None in Hd. lia. }
  assert (Hget : getitem (dates df) (252 + Z.of_nat k) = Ok d)
    by (exact (Forall2_nth_error _ _ _ Hdl k _ _ Hi Hd)).
  unfold getitem in Hget. destruct (Z.ltb_spec (252 + Z.of_nat k) 0); [lia|].
  replace (Z.to_nat (252 + Z.of_nat k)) with (252 + k)%nat in Hget by lia.
  destruct (nth_error (dates df) (252 + k)); [|discriminate].
  inversion Hget. reflexivity.
Qed.

(** *** Rescaling the prices *)

Lemma getitem_closes_fin (df : DataFrame) (cs : list R) (i : Z) (v : fval) :
  closes df = map Fin cs -> getitem (closes df) i = Ok v ->
  exists x, v = Fin x /\ nth_error cs (Z.to_nat i) = Some x /\ (0 <= i)%Z.
Proof.
  intros Hcs. unfold getitem. destruct (Z.ltb_spec i 0) as [|Hi]; [discriminate|].
  rewrite Hcs, nth_error_map.
  destruct (nth_error cs (Z.to_nat i)) as [x|]; cbn [option_map]; [|discriminate].
  intros Heq. inversion Heq. exists x. repeat split. exact Hi.
Qed.

Lemma getitem_closes_scaled (df' : DataFrame) (cs : list R) (c : R) (i : Z) (x : R) :
  closes df' = map Fin (map (Rmult c) cs) ->
  nth_error cs (Z.to_nat i) = Some x -> (0 <= i)%Z ->
  getitem (closes df') i = Ok (Fin (c * x)).
Proof.
  intros Hcs Hx Hi. unfold getitem. destruct (Z.ltb_spec i 0); [lia|].
  rewrite Hcs, !nth_error_map, Hx. reflexivity.
Qed.

Lemma window_at_scale (c : R) (cs : list R) (i : Z) :
  window_at (map (Rmult c) cs) i = map (Rmult c) (window_at cs i).
Proof. unfold window_at. rewrite skipn_map, firstn_map. reflexivity. Qed.

Lemma call_scale (c x r sigma : R) :
  0 < c -> 0 < x ->
  Spec.call Phi (c * x) (c * x * 1.05) 1 r sigma
  = c * Spec.call Phi x (x * 1.05) 1 r sigma.
Proof.
  intros Hc Hx. replace (c * x * 1.05) with (c * (x * 1.05)) by ring.
  unfold Spec.call, Spec.d2.
  rewrite PricerMore.d1_scale by lra. ring.
Qed.

(** The values of a step on finite positive closes. *)
Lemma step_of_values (df : DataFrame) (cs : list R) (s : step) :
  closes df = map Fin cs -> Forall (fun p => 0 < p) cs ->
  step_of Phi df s ->
  exists x f tv,
    s_S s = Fin x /\ nth_error cs (Z.to_nat (s_index s)) = Some x /\ 0 < x
    /\ s_fwd s = Fin f /\ nth_error cs (Z.to_nat (s_index s + 252)) = Some f
    /\ (252 <= s_index s < Z.of_nat (List.length cs))%Z
    /\ tv = Spec.trailing_volatility (window_at cs (s_index s))
    /\ s_vol s = Fin tv /\ 0 < tv
    /\ s_callPrice s = Fin (Spec.call Phi x (x * 1.05) 1 (1.05 + - 1) tv).
Proof.
  intros Hcs Hpos (HS & Hvol & Hcp & Hfwd & Hd).
  destruct (getitem_closes_fin df cs _ _ Hcs HS) as (x & Hx & Hnx & Hi0).
  destruct (getitem_closes_fin df cs _ _ Hcs Hfwd) as (f & Hf & Hnf & _).
  assert (Hxpos : 0 < x).
  { rewrite Forall_forall in Hpos. apply Hpos. eapply nth_error_In. exact Hnx. }
  assert (Hi : (252 <= s_index s)%Z).
  { unfold volatility in Hvol. destruct (Z.ltb_spec (s_index s) 252);
      [discriminate | assumption]. }
  assert (Hlen : (s_index s < Z.of_nat (List.length cs))%Z).
  { assert (Hsome : nth_error cs (Z.to_nat (s_index s)) <> None) by congruence.
    apply nth_error_Some in Hsome. lia. }
  assert (Hw := VolatilityFacts.window_at_is df cs (s_index s) Hcs
                  (conj Hi (Z.lt_le_incl _ _ Hlen))).
  assert (Hwpos := VolatilityFacts.window_at_positive cs (s_index s) Hpos).
  rewrite (VolatilityFacts.volatility_value df (s_index s) _ Hi Hw Hwpos) in Hvol.
  inversion Hvol as [Hv]. clear Hvol.
  set (tv := Spec.trailing_volatility (window_at cs (s_index s))) in *.
  assert (Htv : 0 < tv).
  { destruct (Rlt_dec 0 tv) as [|Hn]; [assumption|]. exfalso.
    unfold s_K in Hcp. rewrite Hx, <- Hv in Hcp.
    unfold Pricer.black_scholes_price in Hcp. cbn [fle] in Hcp.
    rewrite (Rleb_false 1 0), (Rleb_true tv 0) in Hcp by lra.
    discriminate. }
  exists x, f, tv.
  split; [exact Hx|]. split; [exact Hnx|]. split; [exact Hxpos|].
  split; [exact Hf|]. split; [exact Hnf|]. split; [lia|].
  split; [reflexivity|]. split; [first [reflexivity | symmetry; exact Hv]|].
  split; [exact Htv|].
  unfold s_K in Hcp. rewrite Hx, <- Hv in Hcp.
  cbn [fmul fsub fneg fadd Backtest.strikeRatio] in Hcp.
  rewrite PricerFacts.price_body in Hcp by lra.
  cbn [lower String.eqb Ascii.eqb Bool.eqb] in Hcp.
  inversion Hcp. reflexivity.
Qed.

Lemma step_of_scaled (df df' : DataFrame) (cs : list R) (c : R) (s : step) :
  0 < c ->
  closes df = map Fin cs -> Forall (fun p => 0 < p) cs ->
  closes df' = map Fin (map (Rmult c) cs) -> dates df' = dates df ->
  step_of Phi df s -> step_of Phi df' (scale_step c s).
Proof.
  intros Hc Hcs Hpos Hcs' Hdates Hs.
  destruct (step_of_values df cs s Hcs Hpos Hs)
    as (x & f & tv & Hx & Hnx & Hxpos & Hf & Hnf & Hi & Htvdef & Hv & Htv & Hcpv).
  destruct Hs as (_ & _ & _ & _ & Hd).
  unfold step_of, scale_step.
  cbn [s_index s_S s_vol s_callPrice s_fwd s_date].
  split; [rewrite Hx; apply (getitem_closes_scaled df' cs c);
            [assumption | assumption | lia]|].
  split.
  { rewrite Hv.
    assert (Hlen' : List.length (map (Rmult c) cs) = List.length cs)
      by apply length_map.
    rewrite (VolatilityFacts.volatility_value df' (s_index s)
               (window_at (map (Rmult c) cs) (s_index s))).
    - rewrite window_at_scale. unfold Spec.trailing_volatility. rewrite Htvdef.
      rewrite VolatilityMore.log_returns_scale;
        [reflexivity | assumption | apply VolatilityFacts.window_at_positive; assumption].
    - lia.
    - apply VolatilityFacts.window_at_is; [exact Hcs' | rewrite Hlen'; lia].
    - rewrite window_at_scale.
      apply VolatilityMore.Forall_positive_scale;
        [assumption | apply VolatilityFacts.window_at_positive; assumption]. }
  split.
  { unfold s_K. cbn [s_S]. rewrite Hx, Hv, Hcpv.
    cbn [fmul fsub fneg fadd Backtest.strikeRatio].
    rewrite PricerFacts.price_body;
      [|apply Rmult_lt_0_compat; assumption
       |apply Rmult_lt_0_compat; [apply Rmult_lt_0_compat; assumption | lra]
       |lra | exact Htv].
    cbn [lower String.eqb Ascii.eqb Bool.eqb].
    rewrite call_scale by assumption. reflexivity. }
  split; [rewrite Hf; apply (getitem_closes_scaled df' cs c);
            [assumption | assumption | lia]|].
  rewrite Hdates. exact Hd.
Qed.

Lemma to_fval_py_sub (a b : pynum) :
  to_fval (py_sub a b) = fsub (to_fval a) (to_fval b).
Proof.
  destruct a as [x | v | v], b as [y | w | w];
    cbn [py_sub py_arith is_np orb to_fval]; try reflexivity.
  cbn [fsub fneg fadd]. rewrite minus_IZR. reflexivity.
Qed.

Lemma fdiv_scale (c x y : R) :
  0 < c -> fdiv (Fin (c * x)) (Fin (c * y)) = fdiv (Fin x) (Fin y).
Proof.
  intros Hc. cbn [fdiv]. unfold Reqb.
  destruct (Req_dec_T y 0) as [-> | Hy].
  - destruct (Req_dec_T (c * 0) 0) as [_ | Hn]; [|exfalso; apply Hn; ring].
    unfold inf_times, Rltb.
    destruct (Rlt_dec 0 x), (Rlt_dec 0 (c * x)); try reflexivity; try nra.
    destruct (Rlt_dec x 0), (Rlt_dec (c * x) 0); try reflexivity; nra.
  - destruct (Req_dec_T (c * y) 0) as [Hz | _].
    + exfalso. apply Rmult_integral in Hz. destruct Hz; lra.
    + f_equal. field. lra.
Qed.

(** The totals of a run and of the run on the rescaled prices. *)
Lemma totals_scaled (df : DataFrame) (cs : list R) (c : R) (steps : list step)
  (st st' : Backtest.locals) (C N : R) :
  0 < c ->
  closes df = map Fin cs -> Forall (fun p => 0 < p) cs ->
  Forall (step_of Phi df) steps ->
  to_fval (Backtest.totalCost st) = Fin C ->
  to_fval (Backtest.totalCost st') = Fin (c * C) ->
  to_fval (Backtest.netReturn st) = Fin N ->
  to_fval (Backtest.netReturn st') = Fin (c * N) ->
  exists C' N',
    to_fval (Backtest.totalCost (fold_left step_locals steps st)) = Fin C'
    /\ to_fval (Backtest.totalCost
                  (fold_left step_locals (map (scale_step c) steps) st'))
       = Fin (c * C')
    /\ to_fval (Backtest.netReturn (fold_left step_locals steps st)) = Fin N'
    /\ to_fval (Backtest.netReturn
                  (fold_left step_locals (map (scale_step c) steps) st'))
       = Fin (c * N').
Proof.
  intros Hc Hcs Hpos Hsteps. revert st st' C N.
  induction Hsteps as [|s steps Hs _ IH]; intros st st' C N HC HC' HN HN'.
  - exists C, N. repeat split; assumption.
  - cbn [map fold_left].
    destruct (step_of_values df cs s Hcs Hpos Hs)
      as (x & f & tv & Hx & _ & _ & Hf & _ & _ & _ & _ & _ & Hcpv).
    apply (IH _ _ (C + Spec.call Phi x (x * 1.05) 1 (1.05 + - 1) tv)
                  (N + Rmax (f + - (1.05 * x)) 0)).
    + cbn [step_locals Backtest.totalCost]. rewrite to_fval_py_add, HC, Hcpv.
      reflexivity.
    + cbn [step_locals Backtest.totalCost scale_step s_callPrice].
      rewrite to_fval_py_add, HC', Hcpv. cbn [to_fval fmul fadd]. f_equal. ring.
    + cbn [step_locals Backtest.netReturn]. rewrite to_fval_py_add, HN, Hx, Hf.
      cbn [fmul fsub fneg fadd]. rewrite BacktestFacts.max_with_zero_fin.
      reflexivity.
    + cbn [step_locals Backtest.netReturn scale_step s_fwd s_S].
      rewrite to_fval_py_add, HN', Hx, Hf. cbn [fmul fsub fneg fadd].
      rewrite BacktestFacts.max_with_zero_fin. cbn [fadd]. f_equal.
      replace (c * f + - (1.05 * (c * x))) with (c * (f + - (1.05 * x))) by ring.
      replace 0 with (c * 0) at 1 by ring.
      rewrite RmaxRmult by lra. ring.
Qed.

Lemma printed_volatility_steps (steps : list step) :
  printed_numbers "Volatility: " (flat_map step_lines steps)
  = map (fun s => NpFloat (s_vol s)) steps.
Proof.
  unfold printed_numbers.
  induction steps as [|s steps IH]; [reflexivity|].
  cbn [flat_map map]. rewrite BacktestFacts.filter_map_app, IH. reflexivity.
Qed.

Lemma printed_roi_steps (steps : list step) :
  printed_numbers "Return on investment: " (flat_map step_lines steps) = [].
Proof.
  unfold printed_numbers.
  induction steps as [|s steps IH]; [reflexivity|].
  cbn [flat_map]. rewrite BacktestFacts.filter_map_app, IH. reflexivity.
Qed.

Lemma printed_roi_after_steps (df : DataFrame) (start_index : Z)
  (steps : list step) :
  steps <> [] ->
  (start_index < Z.of_nat (List.length df) - 252)%Z ->
  Backtest.diffCheck_loop Phi df start_index
  = (flat_map step_lines steps, Ok (fold_left step_locals steps initial_locals)) ->
  printed_numbers "Return on investment: "
    (fst (Backtest.diffCheck Phi df start_index))
  = [NpFloat
       (fdiv (fsub (to_fval (Backtest.netReturn
                               (fold_left step_locals steps initial_locals)))
                   (to_fval (Backtest.totalCost
                               (fold_left step_locals steps initial_locals))))
             (to_fval (Backtest.totalCost
                         (fold_left step_locals steps initial_locals))))].
Proof.
  intros Hne Hlt Hloop.
  rewrite (BacktestFacts.diffCheck_after_loop Phi df start_index _ _ Hloop).
  rewrite BacktestFacts.summary_np;
    [|apply BacktestFacts.totalCost_is_np; exact Hne | exact Hlt].
  cbn [fst]. unfold printed_numbers. rewrite BacktestFacts.filter_map_app.
  fold (printed_numbers "Return on investment: " (flat_map step_lines steps)).
  rewrite printed_roi_steps. unfold summary_lines.
  rewrite to_fval_py_sub. reflexivity.
Qed.

(** The backtest does not depend on the unit of the prices.  On positive
    closes, multiplying every close by [c > 0] leaves the run normal when it
    was, leaves every volatility unchanged, multiplies every call price by
    [c], and leaves the return on investment printed at the end
    unchanged. *)
Theorem diffCheck_scale_invariant (df df' : DataFrame) (cs : list R) (c : R)
  (start_index : Z) (out : list line) (st : Backtest.locals) :
  0 < c ->
  closes df = map Fin cs -> Forall (fun p => 0 < p) cs ->
  closes df' = map Fin (map (Rmult c) cs) -> dates df' = dates df ->
  Backtest.diffCheck_loop Phi df start_index = (out, Ok st) ->
  exists out' st',
    Backtest.diffCheck_loop Phi df' start_index = (out', Ok st')
    /\ Backtest.callPrices st' = map (fmul (Fin c)) (Backtest.callPrices st)
    /\ printed_numbers "Volatility: " out' = printed_numbers "Volatility: " out
    /\ printed_numbers "Return on investment: "
         (fst (Backtest.diffCheck Phi df' start_index))
       = printed_numbers "Return on investment: "
           (fst (Backtest.diffCheck Phi df start_index)).
Proof.
  intros Hc Hcs Hpos Hcs' Hdates Hloop.
  destruct (BacktestFacts.loop_inv Phi df start_index out st Hloop)
    as (steps & Hidx & Hsteps & Hout & Hst).
  assert (Hlen : List.length df' = List.length df).
  { rewrite <- (closes_df_length df'), <- (closes_df_length df), Hcs, Hcs'.
    rewrite !length_map. reflexivity. }
  assert (Hsteps' : Forall (step_of Phi df') (map (scale_step c) steps)).
  { apply Forall_map. apply Forall_impl with (2 := Hsteps).
    intros s Hs. apply (step_of_scaled df df' cs c s); assumption. }
  assert (Hidx' : map s_index (map (scale_step c) steps)
                  = range start_index (Z.of_nat (List.length df') - 252)).
  { rewrite map_map, Hlen. cbn [scale_step s_index]. exact Hidx. }
  assert (Hloop' : Backtest.diffCheck_loop Phi df' start_index
                   = (flat_map step_lines (map (scale_step c) steps),
                      Ok (fold_left step_locals (map (scale_step c) steps)
                            initial_locals))).
  { unfold Backtest.diffCheck_loop. rewrite <- Hidx'.
    apply BacktestFacts.for_each_body_ok. exact Hsteps'. }
  eexists _, _. split; [exact Hloop'|].
  split; [|split].
  - rewrite Hst, !BacktestFacts.callPrices_steps.
    cbn [initial_locals Backtest.callPrices app]. rewrite !map_map. reflexivity.
  - rewrite Hout, !printed_volatility_steps, map_map. reflexivity.
  - destruct (loop_steps_cases df start_index steps Hidx) as [[-> Hle] | [Hne Hlt]].
    + rewrite !BacktestFacts.diffCheck_no_step by (rewrite ?Hlen; exact Hle).
      reflexivity.
    + assert (Hne' : map (scale_step c) steps <> []).
      { destruct steps; [contradiction | discriminate]. }
      rewrite (printed_roi_after_steps df' start_index _ Hne')
        by (rewrite ?Hlen; assumption).
      rewrite Hout, Hst in Hloop.
      rewrite (printed_roi_after_steps df start_index _ Hne Hlt Hloop).
      destruct (totals_scaled df cs c steps initial_locals initial_locals 0 0
                  Hc Hcs Hpos Hsteps)
        as (C' & N' & HC & HC' & HN & HN');
        try reflexivity;
        try (cbn [initial_locals Backtest.totalCost Backtest.netReturn to_fval];
             f_equal; cbn; ring).
      rewrite HC, HC', HN, HN'. cbn [fsub fneg fadd]. do 2 f_equal.
      replace (c * N' + - (c * C')) with (c * (N' + - C')) by ring.
      apply fdiv_scale. exact Hc.
Qed.

End WithCdf.
End BacktestMore.

(** ** Reading and cleaning the data *)

Module PreprocessFacts.
Import Preprocess.

Lemma convert_Forall2 {A B : Type} (f : A -> result B) (l : list A) (bs : list B) :
  convert f l = Ok bs -> Forall2 (fun a b => f a = Ok b) l bs.
Proof.
  revert bs. induction l as [|a l IH]; intros bs; cbn [convert].
  - intros H. inversion H. constructor.
  - destruct (f a) as [b | e] eqn:Hf; cbn [bind]; [|discriminate].
    destruct (convert f l) as [bs' | e]; cbn [bind]; [|discriminate].
    intros H. inversion H; subst. constructor; [exact Hf | apply IH; reflexivity].
Qed.


Lemma nth_error_combine {A B : Type} (l : list A) (l' : list B) (k : nat)
  (a : A) (b : B) :
  nth_error l k = Some a -> nth_error l' k = Some b ->
  nth_error (combine l l') k = Some (a, b).
Proof.
  revert l' k. induction l as [|x l IH]; intros l' k Ha Hb;
    [destruct k; discriminate|].
  destruct l' as [|y l']; [destruct k; discriminate|].
  destruct k as [|k]; cbn [nth_error combine] in *.
  - inversion Ha; inversion Hb; reflexivity.
  - apply IH; assumption.
Qed.

Section WithParsers.

Variable to_datetime : string -> result string.
Variable float_of_string : string -> result fval.

(** The frame comes out in the reverse order of the file, with as many
    rows: the row at position [i] of the file becomes row [n - 1 - i], its
    date is the parsed [Date] text, and its close is the number read from
    the [Close/Last] cell once dollar signs and commas are removed. *)
Theorem preprocess_data_reverses (raw : list raw_row) (df : DataFrame) :
  preprocess_data to_datetime float_of_string raw = Ok df ->
  List.length df = List.length raw
  /\ forall i r, nth_error raw i = Some r ->
       exists row,
         nth_error df (List.length raw - 1 - i) = Some row
         /\ to_datetime (raw_Date r) = Ok (Date row)
         /\ astype_float float_of_string (replace_cell (raw_Close r))
            = Ok (Close_Last row).
Proof.
  unfold preprocess_data, clean_column.
  destruct (convert to_datetime _) as [ds | e] eqn:Hd; cbn [bind]; [|discriminate].
  destruct (convert _ (map replace_cell (map raw_Close _))) as [cl | e] eqn:Hc;
    cbn [bind]; [|discriminate].
  destruct (convert _ (map replace_cell (map raw_Open _))) as [op | e];
    cbn [bind]; [|discriminate].
  destruct (convert _ (map replace_cell (map raw_High _))) as [hi | e];
    cbn [bind]; [|discriminate].
  destruct (convert _ (map replace_cell (map raw_Low _))) as [lo | e];
    cbn [bind]; [|discriminate].
  intros H. inversion H; subst. clear H.
  apply convert_Forall2 in Hd, Hc.
  assert (Hld : List.length ds = List.length raw).
  { rewrite <- (Forall2_length Hd), length_map, length_rev. reflexivity. }
  assert (Hlc : List.length cl = List.length raw).
  { rewrite <- (Forall2_length Hc), !length_map, length_rev. reflexivity. }
  split.
  - rewrite length_map, length_combine. lia.
  - intros i r Hr.
    assert (Hi : (i < List.length raw)%nat)
      by (apply nth_error_Some; congruence).
    set (j := (List.length raw - 1 - i)%nat).
    assert (Hj : nth_error (rev raw) j = Some r).
    { rewrite nth_error_rev. destruct (Nat.ltb_spec j (List.length raw)); [|lia].
      replace (List.length raw - S j)%nat with i by lia. exact Hr. }
    destruct (nth_error ds j) as [d|] eqn:Hdj;
      [|apply nth_error_None in Hdj; lia].
    destruct (nth_error cl j) as [v|] eqn:Hcj;
      [|apply nth_error_None in Hcj; lia].
    exists (mkRow d v). split; [|split].
    + rewrite nth_error_map.
      rewrite (nth_error_combine ds cl j d v Hdj Hcj). reflexivity.
    + cbn [Date].
      apply (BacktestMore.Forall2_nth_error _ _ _ Hd j (raw_Date r) d);
        [|exact Hdj].
      rewrite nth_error_map, Hj. reflexivity.
    + cbn [Close_Last].
      apply (BacktestMore.Forall2_nth_error _ _ _ Hc j
               (replace_cell (raw_Close r)) v); [|exact Hcj].
      rewrite !nth_error_map, Hj. reflexivity.
Qed.


End WithParsers.

(** The cleaning of a price text leaves no dollar sign and no comma, keeps
    a text that has none as it is, and so changes nothing when applied
    twice. *)
Theorem remove_dollar_comma_cleans (s : string) :
  has_dollar_or_comma (remove_dollar_comma s) = false
  /\ (has_dollar_or_comma s = false -> remove_dollar_comma s = s)
  /\ remove_dollar_comma (remove_dollar_comma s) = remove_dollar_comma s.
Proof.
  assert (Hclean : forall t, has_dollar_or_comma (remove_dollar_comma t) = false).
  { induction t as [|c t IH]; [reflexivity|].
    cbn [remove_dollar_comma].
    destruct (Ascii.eqb c "$" || Ascii.eqb c ",")%bool eqn:Hc; [exact IH|].
    cbn [has_dollar_or_comma]. rewrite Hc, IH. reflexivity. }
  assert (Hkeep : forall t, has_dollar_or_comma t = false -> remove_dollar_comma t = t).
  { induction t as [|c t IH]; [reflexivity|].
    cbn [has_dollar_or_comma remove_dollar_comma]. intros H.
    apply orb_false_elim in H. destruct H as [Hc Ht]. rewrite Hc, IH by exact Ht.
    reflexivity. }
  split; [apply Hclean|]. split; [apply Hkeep|].
  apply Hkeep, Hclean.
Qed.

End PreprocessFacts.

(** ** The console program *)

Module ConsoleFacts.
Import Console.

Section WithFloat.

Variable Phi : R -> R.
Variable float : string -> result fval.

Lemma read_float_eq (prompt : string) (stdin : list string) :
  read_float float prompt stdin
  = match stdin with
    | [] => ([Prompt prompt], [], inl EOFError)
    | l :: rest =>
        match float l with
        | Ok v => ([Prompt prompt], rest, inr v)
        | Raise e => ([Prompt prompt], rest, inl (Exn e))
        end
    end.
Proof.
  unfold read_float, io_bind, input, io_lift.
  destruct stdin as [|l rest]; [reflexivity|].
  destruct (float l); reflexivity.
Qed.

Lemma main_body_six_lines (s1 s2 s3 s4 s5 s6 : string) (rest : list string)
  (S K T r sigma : fval) :
  float s1 = Ok S -> float s2 = Ok K -> float s3 = Ok T ->
  float s4 = Ok r -> float s5 = Ok sigma ->
  main_body Phi float (s1 :: s2 :: s3 :: s4 :: s5 :: s6 :: rest)
  = match Pricer.black_scholes_price Phi S K T r sigma (lower (strip s6)) with
    | Ok price =>
        (map Prompt prompts ++ [PriceLine (lower (strip s6)) price], rest, inr tt)
    | Raise e => (map Prompt prompts, rest, inl (Exn e))
    end.
Proof.
  intros H1 H2 H3 H4 H5. unfold main_body.
  unfold io_bind at 1. rewrite read_float_eq, H1.
  unfold io_bind at 1. rewrite read_float_eq, H2.
  unfold io_bind at 1. rewrite read_float_eq, H3.
  unfold io_bind at 1. rewrite read_float_eq, H4.
  unfold io_bind at 1. rewrite read_float_eq, H5.
  unfold io_bind at 1. cbn [input].
  unfold io_bind, io_lift, println.
  destruct (Pricer.black_scholes_price Phi S K T r sigma (lower (strip s6)));
    reflexivity.
Qed.


(** Whatever is on standard input, [main] writes its banner, then between
    one and six prompts in their order, then exactly one more line: an
    [Error: e] line, or the price line, which comes only after all six
    prompts. *)
Theorem main_output_shape (stdin : list string) :
  exists k final,
    (1 <= k <= 6)%nat
    /\ main Phi float stdin
       = Printed [PStr banner] :: map Prompt (firstn k prompts) ++ [final]
    /\ ((exists e, final = ErrorLine e)
        \/ (k = 6%nat /\ exists kind price, final = PriceLine kind price)).
Proof.
  unfold main, try_except, main_body.
  unfold io_bind at 1. cbn [println].
  unfold io_bind at 1. rewrite read_float_eq.
  destruct stdin as [|s1 stdin];
    [exists 1%nat, (ErrorLine EOFError); split; [lia|]; split;
       [reflexivity | left; eexists; reflexivity]|].
  destruct (float s1) as [S | e];
    [|exists 1%nat, (ErrorLine (Exn e)); split; [lia|]; split;
       [reflexivity | left; eexists; reflexivity]].
  unfold io_bind at 1. rewrite read_float_eq.
  destruct stdin as [|s2 stdin];
    [exists 2%nat, (ErrorLine EOFError); split; [lia|]; split;
       [reflexivity | left; eexists; reflexivity]|].
  destruct (float s2) as [K | e];
    [|exists 2%nat, (ErrorLine (Exn e)); split; [lia|]; split;
       [reflexivity | left; eexists; reflexivity]].
  unfold io_bind at 1. rewrite read_float_eq.
  destruct stdin as [|s3 stdin];
    [exists 3%nat, (ErrorLine EOFError); split; [lia|]; split;
       [reflexivity | left; eexists; reflexivity]|].
  destruct (float s3) as [T | e];
    [|exists 3%nat, (ErrorLine (Exn e)); split; [lia|]; split;
       [reflexivity | left; eexists; reflexivity]].
  unfold io_bind at 1. rewrite read_float_eq.
  destruct stdin as [|s4 stdin];
    [exists 4%nat, (ErrorLine EOFError); split; [lia|]; split;
       [reflexivity | left; eexists; reflexivity]|].
  destruct (float s4) as [r | e];
    [|exists 4%nat, (ErrorLine (Exn e)); split; [lia|]; split;
       [reflexivity | left; eexists; reflexivity]].
  unfold io_bind at 1. rewrite read_float_eq.
  destruct stdin as [|s5 stdin];
    [exists 5%nat, (ErrorLine EOFError); split; [lia|]; split;
       [reflexivity | left; eexists; reflexivity]|].
  destruct (float s5) as [sigma | e];
    [|exists 5%nat, (ErrorLine (Exn e)); split; [lia|]; split;
       [reflexivity | left; eexists; reflexivity]].
  unfold io_bind at 1.
  destruct stdin as [|s6 stdin];
    [exists 6%nat, (ErrorLine EOFError); split; [lia|]; split;
       [reflexivity | left; eexists; reflexivity]|].
  cbn [input]. unfold io_bind, io_lift, println.
  destruct (Pricer.black_scholes_price Phi S K T r sigma (lower (strip s6)))
    as [price | e].
  - exists 6%nat, (PriceLine (lower (strip s6)) price). split; [lia|].
    split; [reflexivity|]. right. split; [reflexivity|]. eexists _, _. reflexivity.
  - exists 6%nat, (ErrorLine (Exn e)). split; [lia|].
    split; [reflexivity | left; eexists; reflexivity].
Qed.

(** The happy path: five numbers that are positive reals (any real for the
    rate) and a kind that reads "call" or "put" once stripped and put in
    lower case give the price line with the Black-Scholes value. *)
Theorem main_prints_the_price (s1 s2 s3 s4 s5 s6 : string) (rest : list string)
  (S K T r sigma : R) :
  float s1 = Ok (Fin S) -> float s2 = Ok (Fin K) -> float s3 = Ok (Fin T) ->
  float s4 = Ok (Fin r) -> float s5 = Ok (Fin sigma) ->
  0 < S -> 0 < K -> 0 < T -> 0 < sigma ->
  (lower (strip s6) = "call"%string ->
   main Phi float (s1 :: s2 :: s3 :: s4 :: s5 :: s6 :: rest)
   = Printed [PStr banner] :: map Prompt prompts
     ++ [PriceLine "call" (Fin (Spec.call Phi S K T r sigma))])
  /\ (lower (strip s6) = "put"%string ->
      main Phi float (s1 :: s2 :: s3 :: s4 :: s5 :: s6 :: rest)
      = Printed [PStr banner] :: map Prompt prompts
        ++ [PriceLine "put" (Fin (Spec.put Phi S K T r sigma))]).
Proof.
  intros H1 H2 H3 H4 H5 HS HK HT Hs.
  split; intros Hkind; unfold main, try_except, io_bind, println;
    rewrite (main_body_six_lines _ _ _ _ _ _ rest _ _ _ _ _ H1 H2 H3 H4 H5);
    rewrite PricerFacts.price_body by assumption;
    rewrite PricerMore.lower_idempotent, Hkind; reflexivity.
Qed.

End WithFloat.
End ConsoleFacts.

(** ** The script *)

Module ScriptFacts.
Section WithCdf.

Variable Phi : R -> R.

(** The script stands or falls with [diffCheck(252)].  When [diffCheck]
    returns, the script prints its lines and then the returned value, which
    is 0, and the two plot functions add no line and do not raise; when
    [diffCheck] raises, the script ends with that exception, and no plot
    function is called. *)
Theorem script_follows_diffCheck (df : DataFrame) :
  Script.script Phi df
  = match Backtest.diffCheck Phi df 252 with
    | (out, Ok _) => (out ++ [[PNum (PyInt 0)]], Ok tt)
    | (out, Raise e) => (out, Raise e)
    end.
Proof.
  unfold Script.script.
  destruct (Backtest.diffCheck Phi df 252) as [out [v | e]] eqn:Hrun;
    [|reflexivity].
  unfold Backtest.diffCheck in Hrun.
  apply BacktestFacts.rbind_ok_inv in Hrun.
  destruct Hrun as (out1 & st & out2 & Hloop & Hsum & ->).
  apply BacktestFacts.summary_result in Hsum. subst v.
  destruct (BacktestFacts.loop_inv Phi df 252 out1 st Hloop)
    as (steps & Hidx & Hsteps & _ & _).
  assert (Hplot : Backtest.plot_call_price_vs_profit Phi df
                  = ([], Ok (map s_callPrice steps, map s_yearlyProfit steps))).
  { unfold Backtest.plot_call_price_vs_profit. rewrite <- Hidx.
    apply (BacktestMore.plot_loop_ok Phi df steps ([], [])). exact Hsteps. }
  assert (Hts : without_dates (TimeSeries.plot_time_series Phi df)
                = Backtest.plot_call_price_vs_profit Phi df).
  { apply BacktestMore.time_series_loop_without_dates. }
  rewrite Hplot in Hts.
  destruct (TimeSeries.plot_time_series Phi df) as [o [[[ds cps] pfs] | e]];
    cbn [without_dates] in Hts; [|discriminate].
  inversion Hts. subst o.
  rewrite Hplot. cbn. rewrite ?app_nil_r. reflexivity.
Qed.

End WithCdf.
End ScriptFacts.

(** ** Further sample frames *)

Module MoreDemo.

Lemma frame_of_closes (cs : list R) : closes (frame_of cs) = map Fin cs.
Proof. unfold closes, frame_of. rewrite map_map. reflexivity. Qed.

Lemma frame_of_dates (cs : list R) :
  dates (frame_of cs) = map (fun _ => "01/02/2020"%string) cs.
Proof. unfold dates, frame_of. rewrite map_map. reflexivity. Qed.

Lemma frame_of_length (cs : list R) : List.length (frame_of cs) = List.length cs.
Proof. apply length_map. Qed.

Lemma frame_of_window (cs : list R) (i : Z) :
  (252 <= i <= Z.of_nat (List.length cs))%Z ->
  window_is (frame_of cs) i (window_at cs i).
Proof. intros Hi. apply VolatilityFacts.window_at_is; [apply frame_of_closes | exact Hi]. Qed.

Lemma demo_closes_positive : Forall (fun p => 0 < p) demo_closes.
Proof.
  unfold demo_closes. constructor; [lra|].
  apply Forall_forall. intros x Hx. apply repeat_spec in Hx. lra.
Qed.

Lemma demo_closes_length : List.length demo_closes = 505%nat.
Proof. unfold demo_closes. cbn [List.length]. rewrite repeat_length. reflexivity. Qed.

Lemma doubled_window : window_is doubled_demo_df 252 (map (Rmult 2) demo_window).
Proof.
  assert (H := frame_of_window (map (Rmult 2) demo_closes) 252).
  rewrite length_map, demo_closes_length in H. apply H. lia.
Qed.

Lemma dip_window : window_is dip_df 252 ([] ++ 100 :: 0 :: repeat 100 250).
Proof.
  assert (H := frame_of_window dip_closes 252).
  unfold dip_closes in H at 1. cbn [List.length] in H. rewrite repeat_length in H.
  apply H. lia.
Qed.

Lemma zero_window : window_is zero_df 252 (repeat 0 252).
Proof.
  assert (H := frame_of_window (repeat 0 252) 252).
  rewrite repeat_length in H. apply H. lia.
Qed.

Lemma flat_window : window_is flat_df 252 (repeat 100 252).
Proof.
  assert (H := frame_of_window (repeat 100 600) 252).
  rewrite repeat_length in H. apply H. lia.
Qed.

Lemma flat_df_length : List.length flat_df = 600%nat.
Proof. unfold flat_df. rewrite frame_of_length. apply repeat_length. Qed.

End MoreDemo.

(** ** The further theorems at concrete inputs *)

Module MoreInstances.


(** S = 100, T = 1, sigma = 0.2 and a strike of infinity, for a kind that
    is neither call nor put. *)
Lemma black_scholes_price_infinite_strike_witness :
  Pricer.black_scholes_price std_normal_cdf
    (Fin 100) PInf (Fin 1) (Fin 0.05) (Fin 0.2) "straddle"
  = Raise (ValueError "math domain error").
Proof.
  apply PricerMore.black_scholes_price_infinite_strike; lra.
Defined.

(** Spot and strike doubled: the call price doubles. *)
Lemma black_scholes_price_homogeneous_witness :
  exists p : R,
    Pricer.black_scholes_price std_normal_cdf
      (Fin 100) (Fin 105) (Fin 1) (Fin 0.05) (Fin 0.2) "call" = Ok (Fin p)
    /\ Pricer.black_scholes_price std_normal_cdf
         (Fin (2 * 100)) (Fin (2 * 105)) (Fin 1) (Fin 0.05) (Fin 0.2) "call"
       = Ok (Fin (2 * p)).
Proof.
  apply (PricerMore.black_scholes_price_homogeneous std_normal_cdf
           2 100 105 1 0.05 0.2 "call");
    [lra | lra | lra | lra | lra | left; reflexivity].
Defined.

(** The sample series and the same series at twice its prices. *)
Lemma volatility_scale_invariant_witness :
  volatility 252 doubled_demo_df = volatility 252 demo_df.
Proof.
  apply (VolatilityMore.volatility_scale_invariant demo_df doubled_demo_df 252
           2 demo_window).
  - lia.
  - lra.
  - exact Demo.demo_window_positive.
  - exact Demo.demo_window_is.
  - exact MoreDemo.doubled_window.
Defined.

(** The sample series and its first 252 rows alone. *)
Lemma volatility_reads_window_only_witness :
  volatility 252 demo_df = volatility 252 (firstn 252 demo_df).
Proof.
  apply VolatilityMore.volatility_reads_window_only.
  intros k Hk. unfold closes. rewrite <- firstn_map, nth_error_firstn.
  change (Z.to_nat (252 - 252)) with 0%nat. cbn [Nat.add].
  destruct (Nat.ltb_spec k 252); [reflexivity | lia].
Defined.

(** Index 600 on a frame of 300 rows. *)
Lemma volatility_past_the_end_witness : volatility 600 short_df = Ok NaN.
Proof.
  apply VolatilityMore.volatility_past_the_end; [lia|].
  rewrite Demo.short_df_length. lia.
Defined.

(** A close of 0 on the second day of the window. *)
Lemma volatility_nonpositive_close_witness :
  volatility 252 dip_df = Raise (ValueError "math domain error").
Proof.
  apply (VolatilityMore.volatility_nonpositive_close dip_df 252
           [] 100 0 (repeat 100 250)).
  - lia.
  - exact MoreDemo.dip_window.
  - constructor.
  - lra.
  - lra.
Defined.

(** A window of closes that are all 0. *)
Lemma volatility_zero_closes_witness : volatility 252 zero_df = Ok NaN.
Proof.
  apply VolatilityMore.volatility_zero_closes; [lia | exact MoreDemo.zero_window].
Defined.

(** The sample series, whose window grows once and then stands still. *)
Lemma volatility_zero_iff_constant_growth_witness :
  exists v : R,
    volatility 252 demo_df = Ok (Fin v)
    /\ 0 <= v
    /\ (v = 0 <->
        forall x y, In x (Spec.log_returns demo_window) ->
                    In y (Spec.log_returns demo_window) -> x = y).
Proof.
  apply (VolatilityMore.volatility_zero_iff_constant_growth demo_df 252 demo_window).
  - lia.
  - exact Demo.demo_window_is.
  - exact Demo.demo_window_positive.
Defined.

(** The sample series from index 0. *)
Lemma diffCheck_start_below_252_witness :
  Backtest.diffCheck std_normal_cdf demo_df 0
  = ([], Raise (ValueError "Index too low for trailing volatility calculation")).
Proof.
  apply BacktestMore.diffCheck_start_below_252; [lia|].
  rewrite Demo.demo_df_length. lia.
Defined.

(** The sample series from index -1. *)
Lemma diffCheck_negative_start_witness :
  Backtest.diffCheck std_normal_cdf demo_df (-1) = ([], Raise (KeyError (-1))).
Proof.
  apply BacktestMore.diffCheck_negative_start; [lia|].
  rewrite Demo.demo_df_length. lia.
Defined.

(** The one-step run on the sample series. *)
Lemma diffCheck_total_cost_is_sum_witness :
  printed_numbers "Call Price: "
    (fst (Backtest.diffCheck std_normal_cdf demo_df 252))
  = map NpFloat (Backtest.callPrices (step_locals initial_locals demo_step))
  /\ printed_numbers "Total Cost: "
       (fst (Backtest.diffCheck std_normal_cdf demo_df 252))
     = [fold_left py_add
          (map NpFloat (Backtest.callPrices (step_locals initial_locals demo_step)))
          (PyInt 0)].
Proof.
  apply (BacktestMore.diffCheck_total_cost_is_sum std_normal_cdf demo_df 252
           (step_lines demo_step)).
  exact Demo.demo_loop.
Defined.

Lemma diffCheck_net_return_nonnegative_witness :
  exists y : R,
    to_fval (Backtest.netReturn (step_locals initial_locals demo_step)) = Fin y
    /\ 0 <= y.
Proof.
  apply (BacktestMore.diffCheck_net_return_nonnegative std_normal_cdf demo_df
           demo_closes 252 (step_lines demo_step)).
  - exact Demo.demo_df_closes.
  - exact Demo.demo_loop.
Defined.

(** 600 closes of 100: the first step already fails. *)
Lemma diffCheck_zero_volatility_aborts_witness :
  Backtest.diffCheck std_normal_cdf flat_df 252
  = ([], Raise (ValueError "S, K, T, and sigma must be greater than 0.")).
Proof.
  apply (BacktestMore.diffCheck_zero_volatility_aborts std_normal_cdf flat_df 252 100).
  - rewrite MoreDemo.flat_df_length. lia.
  - lra.
  - exact MoreDemo.flat_window.
Defined.

Lemma plot_matches_diffCheck_witness :
  exists yearly_profits,
    Backtest.plot_call_price_vs_profit std_normal_cdf demo_df
    = ([], Ok (Backtest.callPrices (step_locals initial_locals demo_step),
               yearly_profits))
    /\ map NpFloat yearly_profits
       = printed_numbers "Yearly Profit: " (step_lines demo_step).
Proof.
  apply (BacktestMore.plot_matches_diffCheck std_normal_cdf demo_df
           (step_lines demo_step) (step_locals initial_locals demo_step)).
  exact Demo.demo_loop.
Defined.

(** A frame of 300 rows. *)
Lemma plots_on_short_frame_witness :
  Backtest.plot_call_price_vs_profit std_normal_cdf short_df = ([], Ok ([], []))
  /\ TimeSeries.plot_time_series std_normal_cdf short_df = ([], Ok ([], [], []))
  /\ snd (Backtest.diffCheck std_normal_cdf short_df 252) = Raise ZeroDivisionError.
Proof.
  apply BacktestMore.plots_on_short_frame. rewrite Demo.short_df_length. lia.
Defined.

(** The sample series against the same series at twice its prices. *)
Lemma diffCheck_scale_invariant_witness :
  exists out' st',
    Backtest.diffCheck_loop std_normal_cdf doubled_demo_df 252 = (out', Ok st')
    /\ Backtest.callPrices st'
       = map (fmul (Fin 2)) (Backtest.callPrices (step_locals initial_locals demo_step))
    /\ printed_numbers "Volatility: " out'
       = printed_numbers "Volatility: " (step_lines demo_step)
    /\ printed_numbers "Return on investment: "
         (fst (Backtest.diffCheck std_normal_cdf doubled_demo_df 252))
       = printed_numbers "Return on investment: "
           (fst (Backtest.diffCheck std_normal_cdf demo_df 252)).
Proof.
  apply (BacktestMore.diffCheck_scale_invariant std_normal_cdf demo_df doubled_demo_df
           demo_closes 2 252 (step_lines demo_step)
           (step_locals initial_locals demo_step)).
  - lra.
  - exact Demo.demo_df_closes.
  - exact MoreDemo.demo_closes_positive.
  - apply MoreDemo.frame_of_closes.
  - unfold doubled_demo_df. rewrite MoreDemo.frame_of_dates, Demo.demo_df_dates.
    rewrite map_map. reflexivity.
  - exact Demo.demo_loop.
Defined.

(** The sample file: two rows come back in the other order, with their
    closes read as 990 and 1050. *)
Lemma preprocess_data_reverses_witness :
  List.length [mkRow "01/02/2020" (Fin 990); mkRow "01/03/2020" (Fin 1050)]
  = List.length sample_raw
  /\ forall i r, nth_error sample_raw i = Some r ->
       exists row,
         nth_error [mkRow "01/02/2020" (Fin 990); mkRow "01/03/2020" (Fin 1050)]
                   (List.length sample_raw - 1 - i) = Some row
         /\ sample_to_datetime (Preprocess.raw_Date r) = Ok (Date row)
         /\ Preprocess.astype_float sample_float
              (Preprocess.replace_cell (Preprocess.raw_Close r))
            = Ok (Close_Last row).
Proof.
  apply (PreprocessFacts.preprocess_data_reverses sample_to_datetime sample_float
           sample_raw).
  reflexivity.
Defined.



Lemma main_prints_the_price_witness :
  Console.main std_normal_cdf sample_float sample_stdin
  = Console.Printed [PStr (Console.banner)]
    :: map Console.Prompt Console.prompts
    ++ [Console.PriceLine "call"
          (Fin (Spec.call std_normal_cdf 100 105 1 0 1))].
Proof.
  apply (proj1 (ConsoleFacts.main_prints_the_price std_normal_cdf sample_float
                  "100" "105" "1" "0" "1" "  Call " [] 100 105 1 0 1
                  eq_refl eq_refl eq_refl eq_refl eq_refl
                  ltac:(lra) ltac:(lra) ltac:(lra) ltac:(lra))).
  reflexivity.
Defined.

End MoreInstances.
